(** * Verification of the surveillance appliance core

    A shallow embedding of the scheduling, dispatching, buffering and
    replication code of the repository, one module per source file:

    - [Sync]         scripts/database_sync/sync_to_supabase.py
    - [BatchWriter]  scripts/database_sync/batch_db_writer.py
    - [Capture]      scripts/video_capture/capture_rtsp_streams.py
    - [Orchestrator] scripts/orchestration/process_videos_orchestrator.py
    - [Service]      scripts/orchestration/surveillance_service.py
    - [Detection]    scripts/video_processing/table_and_region_state_detection.py

    Conventions.  Python [int] is [Z]; [float] quantities (clock readings,
    gigabytes) are rationals [Q], compared exactly, and rounded with
    [to_double] where the code computes a clock reading from a rate;
    [str] is [string]; a [dict] or a
    [sqlite3.Row] is a [gmap string _]; a Python exception that a function
    lets escape is the [None] (or [Raised]) result of its embedding. *)

From Stdlib Require Import ZArith QArith Qminmax Qround Qpower Lqa.
From Stdlib Require Import String Ascii List Bool Lia.
From Stdlib Require Import DecimalString Sorted Permutation.
From stdpp Require Import base decidable option list gmap strings.

Local Open Scope string_scope.
Local Open Scope list_scope.
Local Open Scope Z_scope.

(* ================================================================== *)
(** * Part I: the embedding                                              *)
(* ================================================================== *)

(** ** Values stored in the local SQLite file *)

Inductive Value : Type :=
| VNull
| VInt (n : Z)
| VBool (b : bool)
| VReal (q : Q)
| VText (s : string).

#[global] Instance Q_eq_dec : EqDecision Q.
Proof. solve_decision. Defined.

#[global] Instance Value_eq_dec : EqDecision Value.
Proof. solve_decision. Defined.

(** A row, whether stored in a table or returned by a query, maps column
    names to values ([sqlite3.Row] with [row_factory = sqlite3.Row]).  A
    column that a stored row does not list is NULL.  Timestamps
    ([created_at], the [datetime] parameters bound to [?]) are abstracted
    to integer seconds, so that SQL comparison of two timestamps is
    comparison in [Z]. *)
Abbreviation Row := (gmap string Value).

(** [str(n)] for an integer [n]. *)
Definition py_str_int (n : Z) : string := NilZero.string_of_int (Z.to_int n).

(** [a < b] on rationals, as a boolean. *)
Definition Qltb (a b : Q) : bool := negb (Qle_bool b a).

(** [int(x)] on a float: truncation toward zero. *)
Definition py_int (x : Q) : Z := Z.quot (Qnum x) (Z.pos (Qden x)).

(** *** Double precision *)

(** Rounding to the nearest integer, ties to the even one. *)
Definition round_half_even (x : Q) : Z :=
  let below := Qfloor x in
  match (x - inject_Z below ?= 1 # 2)%Q with
  | Lt => below
  | Gt => below + 1
  | Eq => if Z.even below then below else below + 1
  end.

(** [floor(log2 x)] for a positive [x]. *)
Definition binary_exponent (x : Q) : Z :=
  let k := Z.log2 (Qnum x) - Z.log2 (Z.pos (Qden x)) in
  if Qle_bool (2 ^ k) x then k else k - 1.

(** The nearest number with a significand of 53 bits, for a positive
    [x]. *)
Definition nearest_double (x : Q) : Q :=
  let e := binary_exponent x - 52 in
  (inject_Z (round_half_even (x / 2 ^ e)) * 2 ^ e)%Q.

(** The result of a [float] operation whose exact result is [x]: [x]
    rounded to the nearest double, ties to even (IEEE 754 binary64, the
    arithmetic of Python's [float]; the exponent is taken unbounded, so
    neither overflow nor subnormal numbers are represented). *)
Definition to_double (x : Q) : Q :=
  match Qnum x with
  | 0 => 0%Q
  | Z.pos _ => nearest_double x
  | Z.neg _ => (- nearest_double (- x))%Q
  end.

Module Sync.

(** [BATCH_SIZE = 1000  # Records per batch upload] *)
Definition BATCH_SIZE : nat := 1000.

(** The tables of [db/detection_data.db] the replicator touches. *)
Record LocalDb : Type := mkLocalDb {
  videos : list Row;
  sessions : list Row;
  division_states : list Row;
  table_states : list Row;
  sync_status : list Row
}.

(** [self.stats] *)
Record Stats : Type := mkStats {
  division_states_synced : Z;
  table_states_synced : Z;
  sessions_synced : Z;
  videos_synced : Z;
  errors : Z
}.

(** One [self.supabase.table(t).insert(dicts).execute()] call and whether
    the cloud accepted it ([false]: the call raised). *)
Record Request : Type := mkRequest {
  req_table : string;
  req_rows : list Row;
  req_accepted : bool
}.

(** The cloud endpoint: [accepts n t dicts] is the answer to the insert of
    [dicts] into [t] issued as the [n]-th request; [requests] is the
    chronological log of the calls made so far. *)
Record Supabase : Type := mkSupabase {
  accepts : nat -> string -> list Row -> bool;
  requests : list Request
}.

(** [SupabaseSyncManager] *)
Record Manager : Type := mkManager {
  dry_run : bool;
  local_db : LocalDb;
  supabase : Supabase;
  location_id : Value;
  stats : Stats
}.

Definition set_local_db (m : Manager) (d : LocalDb) : Manager :=
  mkManager (dry_run m) d (supabase m) (location_id m) (stats m).

Definition set_stats (m : Manager) (s : Stats) : Manager :=
  mkManager (dry_run m) (local_db m) (supabase m) (location_id m) s.

(** [self.stats['errors'] += 1] *)
Definition incr_errors (m : Manager) : Manager :=
  let s := stats m in
  set_stats m (mkStats (division_states_synced s) (table_states_synced s)
                       (sessions_synced s) (videos_synced s) (errors s + 1)).

(** *** SQL fragments *)

(** [col = n] for an integer literal [n]; NULL and text never match. *)
Definition sql_eq_int (v : option Value) (n : Z) : bool :=
  match v with
  | Some (VInt k) => k =? n
  | _ => false
  end.

(** [col >= ?] with a timestamp parameter. *)
Definition sql_ge_time (v : option Value) (t : Z) : bool :=
  match v with
  | Some (VInt k) => t <=? k
  | _ => false
  end.

(** [col < ?] with a timestamp parameter. *)
Definition sql_lt_time (v : option Value) (t : Z) : bool :=
  match v with
  | Some (VInt k) => k <? t
  | _ => false
  end.

(** The result row of [SELECT cols ...] for a stored row: exactly the
    listed columns, NULL where the stored row has none. *)
Definition project (cols : list string) (r : Row) : Row :=
  list_to_map ((fun c => (c, default VNull (r !! c))) <$> cols).

(** [if cutoff_time: query += " AND created_at >= ?"] *)
Definition cutoff_clause (cutoff_time : option Z) (r : Row) : bool :=
  match cutoff_time with
  | Some c => sql_ge_time (r !! "created_at") c
  | None => true
  end.

(** The WHERE clauses of the four queries, on stored rows. *)
Definition videos_where (cutoff_time : option Z) (r : Row) : bool :=
  true && cutoff_clause cutoff_time r.

Definition sessions_where (cutoff_time : option Z) (r : Row) : bool :=
  true && cutoff_clause cutoff_time r.

Definition division_states_where (cutoff_time : option Z) (r : Row) : bool :=
  sql_eq_int (r !! "synced_to_cloud") 0 && cutoff_clause cutoff_time r.

Definition table_states_where (cutoff_time : option Z) (r : Row) : bool :=
  sql_eq_int (r !! "synced_to_cloud") 0 && cutoff_clause cutoff_time r.

Definition videos_columns : list string :=
  ["video_id"; "camera_id"; "video_filename"; "video_date";
   "start_time"; "end_time"; "duration_seconds"; "file_size_bytes";
   "fps"; "resolution"; "is_processed"; "storage_location"].

Definition sessions_columns : list string :=
  ["session_id"; "camera_id"; "video_id"; "location_id"; "config_file_path";
   "roi_version"; "start_time"; "end_time"; "total_frames"; "fps"; "resolution";
   "processing_status"; "processing_time_seconds"; "error_message"].

Definition division_states_columns : list string :=
  ["session_id"; "camera_id"; "location_id"; "frame_number";
   "timestamp_video"; "timestamp_recorded"; "state";
   "walking_area_waiters"; "service_area_waiters"; "total_staff"].

Definition table_states_columns : list string :=
  ["session_id"; "camera_id"; "location_id"; "frame_number";
   "timestamp_video"; "timestamp_recorded"; "table_id"; "state";
   "customers_count"; "waiters_count"].

(** [cursor.execute(query, params); cursor.fetchall()] for a statement
    that executes: the rows it returns.  Whether a statement executes
    depends on the tables and columns of the file, see [executes]
    below. *)
Definition select (cols : list string) (where_ : Row -> bool)
    (table : list Row) : list Row :=
  project cols <$> List.filter where_ table.

(** *** Row transforms *)

(** [{k: row[k] for k in keys}]; indexing a [sqlite3.Row] by a name that
    is not one of its columns raises [IndexError]. *)
Definition build_dict (keys : list string) (row : Row) : option Row :=
  list_to_map <$> mapM (fun k => (fun v => (k, v)) <$> row !! k) keys.

(** Python's [bool(v)] on a stored value. *)
Definition py_bool (v : Value) : bool :=
  match v with
  | VNull => false
  | VInt n => negb (n =? 0)
  | VBool b => b
  | VReal q => negb (Qeq_bool q 0)
  | VText s => negb (String.eqb s "")
  end.

Definition _transform_video (row : Row) : option Row :=
  d ← build_dict
        ["camera_id"; "video_filename"; "video_date"; "start_time"; "end_time";
         "duration_seconds"; "file_size_bytes"; "fps"; "resolution";
         "is_processed"; "storage_location"] row;
  p ← row !! "is_processed";
  Some (<["is_processed" := VBool (py_bool p)]> d).

Definition _transform_session (row : Row) : option Row :=
  build_dict
    ["session_id"; "camera_id"; "video_id"; "location_id"; "config_file_path";
     "roi_version"; "start_time"; "end_time"; "total_frames"; "fps";
     "resolution"; "processing_status"; "processing_time_seconds";
     "error_message"] row.

Definition _transform_division_state (row : Row) : option Row :=
  build_dict
    ["session_id"; "camera_id"; "location_id"; "frame_number";
     "timestamp_video"; "timestamp_recorded"; "state";
     "walking_area_waiters"; "service_area_waiters"; "total_staff"] row.

Definition _transform_table_state (row : Row) : option Row :=
  build_dict
    ["session_id"; "camera_id"; "location_id"; "frame_number";
     "timestamp_video"; "timestamp_recorded"; "table_id"; "state";
     "customers_count"; "waiters_count"] row.

(** *** Marking *)

(** The primary-key column [_mark_batch_synced] uses for a table; [None]
    is the [else: return  # No synced_to_cloud column] branch. *)
Definition pk_col_of (table_name : string) : option string :=
  if String.eqb table_name "division_states" then Some "division_state_id"
  else if String.eqb table_name "table_states" then Some "table_state_id"
  else None.

(** [ids = [record[pk_col] for record in batch]] *)
Definition batch_ids (pk_col : string) (batch : list Row) : option (list Value) :=
  mapM (fun record => record !! pk_col) batch.

(** [pk IN (?, ..., ?)]: a NULL key matches nothing. *)
Definition sql_in (v : option Value) (ids : list Value) : bool :=
  match v with
  | Some VNull | None => false
  | Some x => bool_decide (x ∈ ids)
  end.

(** [UPDATE t SET synced_to_cloud = 1 WHERE pk IN (ids)] on one row. *)
Definition mark_row (pk_col : string) (ids : list Value) (r : Row) : Row :=
  if sql_in (r !! pk_col) ids then <["synced_to_cloud" := VInt 1]> r else r.

Definition update_table (table_name : string) (f : list Row -> list Row)
    (d : LocalDb) : LocalDb :=
  if String.eqb table_name "division_states" then
    mkLocalDb (videos d) (sessions d) (f (division_states d)) (table_states d)
              (sync_status d)
  else if String.eqb table_name "table_states" then
    mkLocalDb (videos d) (sessions d) (division_states d) (f (table_states d))
              (sync_status d)
  else d.

(** [_mark_batch_synced]; [None] when building [ids] raises, in which
    case no statement has been executed. *)
Definition _mark_batch_synced (table_name : string) (batch : list Row)
    (m : Manager) : option Manager :=
  match pk_col_of table_name with
  | None => Some m
  | Some pk_col =>
      ids ← batch_ids pk_col batch;
      Some (set_local_db m
              (update_table table_name (fmap (mark_row pk_col ids)) (local_db m)))
  end.

(** *** Batched upload *)

(** [range(0, len(records), BATCH_SIZE)] *)
Definition batch_starts (len : nat) : list nat :=
  (fun k => (k * BATCH_SIZE)%nat) <$> seq 0 (Nat.div (len + (BATCH_SIZE - 1)) BATCH_SIZE).

(** [records[i:i + BATCH_SIZE]] *)
Definition batch_at (records : list Row) (i : nat) : list Row :=
  take BATCH_SIZE (drop i records).

(** [self.supabase.table(table_name).insert(batch_dicts).execute()] *)
Definition cloud_insert (table_name : string) (dicts : list Row)
    (m : Manager) : Manager * bool :=
  let c := supabase m in
  let ok := accepts c (length (requests c)) table_name dicts in
  (mkManager (dry_run m) (local_db m)
     (mkSupabase (accepts c) (requests c ++ [mkRequest table_name dicts ok]))
     (location_id m) (stats m),
   ok).

(** Truth value of the optional [mark_synced_table] argument. *)
Definition truthy_table (t : option string) : option string :=
  match t with
  | Some s => if String.eqb s "" then None else Some s
  | None => None
  end.

(** Result of running a piece of the manager: the state reached, and
    either the value returned or [None] when an exception escaped. *)
Definition Outcome (A : Type) : Type := (Manager * option A)%type.

(** One iteration of the [for] loop of [_upload_in_batches]. *)
Definition upload_batch (table_name : string)
    (transform_fn : Row -> option Row) (mark_synced_table : option string)
    (batch : list Row) (m : Manager) (total_uploaded : nat) : Outcome nat :=
  match mapM transform_fn batch with
  | None => (m, None)
  | Some batch_dicts =>
      let '(m1, ok) := cloud_insert table_name batch_dicts m in
      if ok then
        match truthy_table mark_synced_table with
        | Some t =>
            match _mark_batch_synced t batch m1 with
            | Some m2 => (m2, Some (total_uploaded + length batch)%nat)
            | None => (incr_errors m1, Some total_uploaded)
            end
        | None => (m1, Some (total_uploaded + length batch)%nat)
        end
      else (incr_errors m1, Some total_uploaded)
  end.

Fixpoint upload_loop (table_name : string)
    (transform_fn : Row -> option Row) (mark_synced_table : option string)
    (batches : list (list Row)) (m : Manager) (total_uploaded : nat)
    : Outcome nat :=
  match batches with
  | [] => (m, Some total_uploaded)
  | batch :: rest =>
      match upload_batch table_name transform_fn mark_synced_table batch m
                         total_uploaded with
      | (m', Some total') =>
          upload_loop table_name transform_fn mark_synced_table rest m' total'
      | (m', None) => (m', None)
      end
  end.

Definition batches_of (records : list Row) : list (list Row) :=
  batch_at records <$> batch_starts (length records).

Definition _upload_in_batches (records : list Row) (table_name : string)
    (transform_fn : Row -> option Row) (mark_synced_table : option string)
    (m : Manager) : Outcome nat :=
  if dry_run m then (m, Some (length records))
  else upload_loop table_name transform_fn mark_synced_table
                   (batches_of records) m 0%nat.

(** *** The four table syncs *)

(** Each sync as it goes once its query has executed; [sync_videos_on]
    and its like, below, put the query in front. *)

Definition sync_videos (cutoff_time : option Z) (m : Manager) : Outcome unit :=
  let videos_ := select videos_columns (videos_where cutoff_time)
                        (videos (local_db m)) in
  match videos_ with
  | [] => (m, Some tt)
  | _ =>
      match _upload_in_batches videos_ "ASE_videos" _transform_video None m with
      | (m', Some total_uploaded) =>
          let s := stats m' in
          (set_stats m'
             (mkStats (division_states_synced s) (table_states_synced s)
                      (sessions_synced s) (Z.of_nat total_uploaded) (errors s)),
           Some tt)
      | (m', None) => (m', None)
      end
  end.

Definition sync_sessions (cutoff_time : option Z) (m : Manager) : Outcome unit :=
  let sessions_ := select sessions_columns (sessions_where cutoff_time)
                          (sessions (local_db m)) in
  match sessions_ with
  | [] => (m, Some tt)
  | _ =>
      match _upload_in_batches sessions_ "ASE_sessions" _transform_session None m with
      | (m', Some total_uploaded) =>
          let s := stats m' in
          (set_stats m'
             (mkStats (division_states_synced s) (table_states_synced s)
                      (Z.of_nat total_uploaded) (videos_synced s) (errors s)),
           Some tt)
      | (m', None) => (m', None)
      end
  end.

Definition sync_division_states (cutoff_time : option Z) (m : Manager)
    : Outcome unit :=
  let states := select division_states_columns
                       (division_states_where cutoff_time)
                       (division_states (local_db m)) in
  match states with
  | [] => (m, Some tt)
  | _ =>
      match _upload_in_batches states "ASE_division_states"
              _transform_division_state (Some "division_states") m with
      | (m', Some total_uploaded) =>
          let s := stats m' in
          (set_stats m'
             (mkStats (Z.of_nat total_uploaded) (table_states_synced s)
                      (sessions_synced s) (videos_synced s) (errors s)),
           Some tt)
      | (m', None) => (m', None)
      end
  end.

Definition sync_table_states (cutoff_time : option Z) (m : Manager)
    : Outcome unit :=
  let states := select table_states_columns (table_states_where cutoff_time)
                       (table_states (local_db m)) in
  match states with
  | [] => (m, Some tt)
  | _ =>
      match _upload_in_batches states "ASE_table_states"
              _transform_table_state (Some "table_states") m with
      | (m', Some total_uploaded) =>
          let s := stats m' in
          (set_stats m'
             (mkStats (division_states_synced s) (Z.of_nat total_uploaded)
                      (sessions_synced s) (videos_synced s) (errors s)),
           Some tt)
      | (m', None) => (m', None)
      end
  end.

(** *** Pruning *)

(** [WHERE synced_to_cloud = 1 AND created_at < ?] *)
Definition cleanup_where (cutoff_time : Z) (r : Row) : bool :=
  sql_eq_int (r !! "synced_to_cloud") 1 && sql_lt_time (r !! "created_at") cutoff_time.

(** [DELETE FROM t WHERE ...]: the rows that stay. *)
Definition delete_where (where_ : Row -> bool) (table : list Row) : list Row :=
  List.filter (fun r => negb (where_ r)) table.

(** [timedelta(hours=h)] in seconds. *)
Definition hours (h : Z) : Z := h * 3600.

(** [cleanup_synced_data]; [now] is the reading of [datetime.now()]. *)
Definition cleanup_synced_data (retention_hours : Z) (now : Z) (m : Manager)
    : Manager :=
  if dry_run m then m
  else
    let cutoff_time := now - hours retention_hours in
    let d := local_db m in
    set_local_db m
      (mkLocalDb (videos d) (sessions d)
                 (delete_where (cleanup_where cutoff_time) (division_states d))
                 (delete_where (cleanup_where cutoff_time) (table_states d))
                 (sync_status d)).

(** *** Audit row *)

(** The row [log_sync_status] inserts. *)
Definition audit_row (sync_type : string) (now : Z) (m : Manager) : Row :=
  let s := stats m in
  let total_synced := division_states_synced s + table_states_synced s
                      + sessions_synced s + videos_synced s in
  let status := if errors s =? 0 then "success" else "partial" in
  let error_msg := if 0 <? errors s
                   then VText (py_str_int (errors s) ++ " batch errors")
                   else VNull in
  <["location_id" := location_id m]>
  (<["sync_type" := VText sync_type]>
  (<["last_sync_time" := VInt now]>
  (<["records_synced" := VInt total_synced]>
  (<["status" := VText status]>
  (<["error_message" := error_msg]> ∅))))).

Definition log_sync_status (sync_type : string) (now : Z) (m : Manager)
    : Manager :=
  if dry_run m then m
  else
    let d := local_db m in
    set_local_db m
      (mkLocalDb (videos d) (sessions d) (division_states d) (table_states d)
                 (sync_status d ++ [audit_row sync_type now m])).

(** *** Replication runs *)

(** Sequencing of manager steps, stopping at the first escaped exception. *)
Definition and_then (a : Outcome unit) (k : Manager -> Outcome unit)
    : Outcome unit :=
  match a with
  | (m, Some _) => k m
  | (m, None) => (m, None)
  end.

(** [sync_hourly]; the three arguments are the successive readings of
    [datetime.now()] (at entry, in the cleanup, in the audit row). *)
Definition sync_hourly (now now_cleanup now_log : Z) (m : Manager)
    : Outcome unit :=
  let cutoff_time := now - hours 2 in
  and_then (sync_videos (Some cutoff_time) m) (fun m1 =>
  and_then (sync_sessions (Some cutoff_time) m1) (fun m2 =>
  and_then (sync_division_states (Some cutoff_time) m2) (fun m3 =>
  and_then (sync_table_states (Some cutoff_time) m3) (fun m4 =>
    (log_sync_status "hourly" now_log
       (cleanup_synced_data 24 now_cleanup m4), Some tt))))).

(** [sync_full] *)
Definition sync_full (now_log : Z) (m : Manager) : Outcome unit :=
  and_then (sync_videos None m) (fun m1 =>
  and_then (sync_sessions None m1) (fun m2 =>
  and_then (sync_division_states None m2) (fun m3 =>
  and_then (sync_table_states None m3) (fun m4 =>
    (log_sync_status "full" now_log m4, Some tt))))).

(** *** The statements on a database file *)

(** What the statements of a run find in [db/detection_data.db]: for
    each table the columns it has, or [None] when the file has no such
    table, and which rows the constraints of [sync_status] accept.
    [cursor.execute] raises [sqlite3.OperationalError] on a statement
    that names a table or a column the file does not have, and
    [sqlite3.IntegrityError] on an insert the constraints refuse.  No
    call of [execute] in the replicator has a [try] of its own; the one
    in [_mark_batch_synced] runs under the [except Exception] of
    [_upload_in_batches], every other one lets the exception leave the
    run.  (The file is taken not to be locked by another connection.) *)
Record Schema : Type := mkSchema {
  videos_schema : option (list string);
  sessions_schema : option (list string);
  division_states_schema : option (list string);
  table_states_schema : option (list string);
  sync_status_schema : option (list string);
  sync_status_accepts : Row -> bool
}.

(** A statement on a table that names the columns [named] executes. *)
Definition executes (table : option (list string)) (named : list string)
    : bool :=
  match table with
  | Some columns => forallb (fun c => bool_decide (c ∈ columns)) named
  | None => false
  end.

(** [if cutoff_time: query += " AND created_at >= ?"]: the column the
    clause names. *)
Definition cutoff_columns (cutoff_time : option Z) : list string :=
  match cutoff_time with
  | Some _ => ["created_at"]
  | None => []
  end.

(** The columns the two DELETE statements name. *)
Definition cleanup_columns : list string := ["synced_to_cloud"; "created_at"].

(** The columns the INSERT of the audit row names. *)
Definition sync_status_columns : list string :=
  ["location_id"; "sync_type"; "last_sync_time"; "records_synced"; "status";
   "error_message"].

(** The four table syncs on a file: the query is executed first, in
    dry-run too; when it raises, the exception leaves the sync, with
    nothing sent and nothing counted.  (The UPDATE of
    [_mark_batch_synced] is not reached from the two event syncs: the key
    of the first record is looked up before, and the result rows of the
    queries have no key column.) *)
Definition sync_videos_on (schema : Schema) (cutoff_time : option Z)
    (m : Manager) : Outcome unit :=
  if executes (videos_schema schema)
              (videos_columns ++ cutoff_columns cutoff_time)
  then sync_videos cutoff_time m
  else (m, None).

Definition sync_sessions_on (schema : Schema) (cutoff_time : option Z)
    (m : Manager) : Outcome unit :=
  if executes (sessions_schema schema)
              (sessions_columns ++ cutoff_columns cutoff_time)
  then sync_sessions cutoff_time m
  else (m, None).

Definition sync_division_states_on (schema : Schema) (cutoff_time : option Z)
    (m : Manager) : Outcome unit :=
  if executes (division_states_schema schema)
              (division_states_columns
               ++ "synced_to_cloud" :: cutoff_columns cutoff_time)
  then sync_division_states cutoff_time m
  else (m, None).

Definition sync_table_states_on (schema : Schema) (cutoff_time : option Z)
    (m : Manager) : Outcome unit :=
  if executes (table_states_schema schema)
              (table_states_columns
               ++ "synced_to_cloud" :: cutoff_columns cutoff_time)
  then sync_table_states cutoff_time m
  else (m, None).

(** [cleanup_synced_data] on a file: it returns at once in dry-run; the
    two DELETEs are committed together, after the second, so when one of
    them raises nothing has been committed and [close()] drops what was
    pending. *)
Definition cleanup_synced_data_on (schema : Schema) (retention_hours : Z)
    (now : Z) (m : Manager) : Outcome unit :=
  if dry_run m then (m, Some tt)
  else if executes (division_states_schema schema) cleanup_columns
          && executes (table_states_schema schema) cleanup_columns
  then (cleanup_synced_data retention_hours now m, Some tt)
  else (m, None).

(** [log_sync_status] on a file: it returns at once in dry-run. *)
Definition log_sync_status_on (schema : Schema) (sync_type : string)
    (now : Z) (m : Manager) : Outcome unit :=
  if dry_run m then (m, Some tt)
  else if executes (sync_status_schema schema) sync_status_columns
          && sync_status_accepts schema (audit_row sync_type now m)
  then (log_sync_status sync_type now m, Some tt)
  else (m, None).

(** [sync_hourly] on a file (after [connect()] has returned). *)
Definition sync_hourly_on (schema : Schema) (now now_cleanup now_log : Z)
    (m : Manager) : Outcome unit :=
  let cutoff_time := now - hours 2 in
  and_then (sync_videos_on schema (Some cutoff_time) m) (fun m1 =>
  and_then (sync_sessions_on schema (Some cutoff_time) m1) (fun m2 =>
  and_then (sync_division_states_on schema (Some cutoff_time) m2) (fun m3 =>
  and_then (sync_table_states_on schema (Some cutoff_time) m3) (fun m4 =>
  and_then (cleanup_synced_data_on schema 24 now_cleanup m4) (fun m5 =>
    log_sync_status_on schema "hourly" now_log m5))))).

(** [sync_full] on a file. *)
Definition sync_full_on (schema : Schema) (now_log : Z) (m : Manager)
    : Outcome unit :=
  and_then (sync_videos_on schema None m) (fun m1 =>
  and_then (sync_sessions_on schema None m1) (fun m2 =>
  and_then (sync_division_states_on schema None m2) (fun m3 =>
  and_then (sync_table_states_on schema None m3) (fun m4 =>
    log_sync_status_on schema "full" now_log m4)))).

(** *** Vocabulary of the statements about the replicator *)

(** The local table named [t], for the two event tables. *)
Definition event_table (t : string) (d : LocalDb) : list Row :=
  if String.eqb t "division_states" then division_states d
  else if String.eqb t "table_states" then table_states d
  else [].

(** Pruning floor between the contents of a table before and after a
    pass run at clock reading [now] with the given retention. *)
Definition retention_floor (retention_hours now : Z)
    (before after : list Row) : Prop :=
  (forall r, r ∈ before -> r ∉ after ->
     r !! "synced_to_cloud" = Some (VInt 1) /\
     exists t, r !! "created_at" = Some (VInt t) /\
               retention_hours * 3600 < now - t) /\
  (forall r, r ∈ before -> r !! "synced_to_cloud" = Some (VInt 0) -> r ∈ after) /\
  (forall r t, r ∈ before -> r !! "created_at" = Some (VInt t) ->
     now - t <= retention_hours * 3600 -> r ∈ after) /\
  (forall r, r ∈ after -> r ∈ before).

(** A stored row is inside the time window of a run: always in full mode,
    created at or after the cutoff in hourly mode. *)
Definition in_window (cutoff_time : option Z) (r : Row) : Prop :=
  match cutoff_time with
  | Some c => exists t, r !! "created_at" = Some (VInt t) /\ c <= t
  | None => True
  end.

(** The requests a step appended to the cloud log. *)
Definition new_requests (m m' : Manager) : list Request :=
  drop (length (requests (supabase m))) (requests (supabase m')).

(** The dicts of [row]s sent to the cloud in a list of requests. *)
Definition uploaded (reqs : list Request) : list Row :=
  concat (req_rows <$> reqs).

(** A stored row is unsynced and inside the time window of the run. *)
Definition unsynced_in_window (cutoff_time : option Z) (r : Row) : Prop :=
  r !! "synced_to_cloud" = Some (VInt 0) /\ in_window cutoff_time r.

(** Every dict that the table sync [sync] sends to the cloud is the
    transform of the projection of a stored row of [table] that
    satisfies [P]. *)
Definition uploads_only (P : option Z -> Row -> Prop)
    (table : LocalDb -> list Row)
    (sync : option Z -> Manager -> Outcome unit)
    (cols : list string) (tf : Row -> option Row) : Prop :=
  forall cutoff_time m d,
    d ∈ uploaded (new_requests m (sync cutoff_time m).1) ->
    exists r, r ∈ table (local_db m) /\ P cutoff_time r /\
              tf (project cols r) = Some d.

(** The batches, among [batches] issued in order as [reqs], that the
    cloud accepted. *)
Definition accepted_batches (batches : list (list Row))
    (reqs : list Request) : list (list Row) :=
  fst <$> List.filter (fun p => req_accepted (snd p)) (combine batches reqs).

(** What a call of [_upload_in_batches] that marks table [t] (whose key
    column is [pk]) may do to the local store:
    - a row of [t] afterwards is either a row of [t] before, or carries
      [synced_to_cloud = 1] and has the key of a record of a batch whose
      insert the cloud accepted (the mark comes after that insert);
    - a row whose key occurs in no accepted batch is still in [t],
      unchanged;
    - if the cloud rejected every insert the whole local store is
      unchanged;
    - one rejected batch leaves the store as it was, counts an error and
      returns to the loop with the running total;
    - outside dry-run, when every record can be transformed, the call
      returns and the inserts it issued are, in order, one per batch with
      the transformed rows of that batch, whatever the cloud answered to
      the earlier ones. *)
Definition marks_follow_acceptance (records : list Row) (table_name : string)
    (transform_fn : Row -> option Row) (t pk : string) (m : Manager) : Prop :=
  let res := _upload_in_batches records table_name transform_fn (Some t) m in
  let new := new_requests m res.1 in
  let batches := batches_of records in
  (forall r', r' ∈ event_table t (local_db res.1) ->
     r' ∈ event_table t (local_db m) \/
     (r' !! "synced_to_cloud" = Some (VInt 1) /\
      exists batch rec key, batch ∈ accepted_batches batches new /\
                            rec ∈ batch /\ rec !! pk = Some key /\
                            r' !! pk = Some key)) /\
  (forall r, r ∈ event_table t (local_db m) ->
     (forall batch rec, batch ∈ accepted_batches batches new ->
                        rec ∈ batch -> rec !! pk <> r !! pk) ->
     r ∈ event_table t (local_db res.1)) /\
  ((forall req, req ∈ new -> req_accepted req = false) ->
   local_db res.1 = local_db m) /\
  (forall batch dicts m0 total,
     mapM transform_fn batch = Some dicts ->
     accepts (supabase m0) (length (requests (supabase m0))) table_name dicts
       = false ->
     exists m1,
       upload_batch table_name transform_fn (Some t) batch m0 total
         = (m1, Some total) /\
       local_db m1 = local_db m0 /\
       errors (stats m1) = errors (stats m0) + 1) /\
  (dry_run m = false ->
   Forall (fun r => is_Some (transform_fn r)) records ->
   is_Some res.2 /\
   Forall2 (fun batch req => mapM transform_fn batch = Some (req_rows req) /\
                             req_table req = table_name)
           batches new).

(** *** Sample data *)

Definition accept_all : nat -> string -> list Row -> bool :=
  fun _ _ _ => true.

(** The cloud rejects the second insert it receives. *)
Definition reject_second : nat -> string -> list Row -> bool :=
  fun n _ _ => negb (Nat.eqb n 1).

Definition no_stats : Stats := mkStats 0 0 0 0 0.

Definition session_row (session_id_ : string) : Row :=
  list_to_map
    [("session_id", VText session_id_); ("camera_id", VText "camera_35");
     ("video_file", VText "camera_35_20251022_195212.mp4");
     ("created_at", VInt 1000)].

(** An event row as the store holds it. *)
Definition division_row (id flag created : Z) : Row :=
  list_to_map
    [("division_state_id", VInt id); ("session_id", VText "s1");
     ("camera_id", VText "camera_35"); ("frame_number", VInt id);
     ("state", VText "GREEN"); ("synced_to_cloud", VInt flag);
     ("created_at", VInt created)].

Definition sessions_db : LocalDb :=
  mkLocalDb []
    [session_row "20251022_195212_camera_35";
     <["synced_to_cloud" := VInt 1]> (session_row "20251022_200212_camera_35")]
    [] [] [].

Definition sessions_manager : Manager :=
  mkManager false sessions_db (mkSupabase accept_all []) (VText "site") no_stats.

Definition events_db : LocalDb :=
  mkLocalDb [] []
    [division_row 1 0 100; division_row 2 0 200; division_row 3 1 300]
    [] [].

Definition events_manager : Manager :=
  mkManager false events_db (mkSupabase accept_all []) (VText "site") no_stats.

(** Records that, unlike the result rows of the two event queries, carry
    the key column. *)
Definition keyed_records : list Row :=
  [division_row 1 0 100; division_row 2 0 200].

(** An event row with its key and with every column the transform
    reads. *)
Definition complete_division_row (id flag created : Z) : Row :=
  list_to_map
    [("division_state_id", VInt id); ("session_id", VText "s1");
     ("camera_id", VText "camera_35"); ("location_id", VText "site");
     ("frame_number", VInt id); ("timestamp_video", VInt id);
     ("timestamp_recorded", VText "2025-10-22T19:52:12");
     ("state", VText "green"); ("walking_area_waiters", VInt 1);
     ("service_area_waiters", VInt 0); ("total_staff", VInt 1);
     ("synced_to_cloud", VInt flag); ("created_at", VInt created)].

(** Two of the three stored rows are handed to the upload. *)
Definition complete_records : list Row :=
  [complete_division_row 1 0 100; complete_division_row 2 0 200].

Definition complete_manager : Manager :=
  mkManager false
    (mkLocalDb [] []
       [complete_division_row 1 0 100; complete_division_row 2 0 200;
        complete_division_row 3 0 300] [] [])
    (mkSupabase accept_all []) (VText "site") no_stats.

(** 2001 unsynced table events, as keyed records: three batches. *)
Definition keyed_event (i : nat) : Row :=
  list_to_map [("table_state_id", VInt (Z.of_nat i));
               ("synced_to_cloud", VInt 0)].

Definition three_batches : list Row := keyed_event <$> seq 0 2001.

Definition three_batches_manager : Manager :=
  mkManager false (mkLocalDb [] [] [] three_batches [])
            (mkSupabase reject_second []) (VText "site") no_stats.

(** The [synced_to_cloud] column of a table. *)
Definition flags (table : list Row) : list (option Value) :=
  (fun r => r !! "synced_to_cloud") <$> table.


(** *** Vocabulary of the statements about whole runs *)

(** What a sync of an event table [table], selected by [where_] and
    projected on [cols], comes to outside dry-run: it returns, the local
    store is as before, every batch issued has counted one error, nothing
    is counted as synced, and a second run sends the same dicts again. *)
Definition resent_every_run (sync : option Z -> Manager -> Outcome unit)
    (cols : list string) (where_ : option Z -> Row -> bool)
    (table : LocalDb -> list Row) (counter : Stats -> Z) : Prop :=
  forall cutoff_time m, dry_run m = false ->
    let sel := select cols (where_ cutoff_time) (table (local_db m)) in
    let res := sync cutoff_time m in
    res.2 = Some tt /\
    local_db res.1 = local_db m /\
    length (new_requests m res.1) = length (batches_of sel) /\
    errors (stats res.1) = errors (stats m) + Z.of_nat (length (batches_of sel)) /\
    (sel <> [] -> counter (stats res.1) = 0) /\
    uploaded (new_requests res.1 (sync cutoff_time res.1).1)
      = uploaded (new_requests m res.1).

(** The counter a table sync leaves in dry-run: the number of selected
    rows, or the old value when nothing was selected. *)
Definition would_upload (old : Z) (selected : list Row) : Z :=
  match selected with
  | [] => old
  | _ => Z.of_nat (length selected)
  end.

(** The statistics a dry run reports for the time window [cutoff_time]. *)
Definition dry_run_stats (cutoff_time : option Z) (m : Manager) : Stats :=
  let d := local_db m in
  let s := stats m in
  mkStats
    (would_upload (division_states_synced s)
       (select division_states_columns (division_states_where cutoff_time)
               (division_states d)))
    (would_upload (table_states_synced s)
       (select table_states_columns (table_states_where cutoff_time)
               (table_states d)))
    (would_upload (sessions_synced s)
       (select sessions_columns (sessions_where cutoff_time) (sessions d)))
    (would_upload (videos_synced s)
       (select videos_columns (videos_where cutoff_time) (videos d)))
    (errors s).

(** The part of the manager a table sync leaves alone, and that it
    returns. *)
Definition sync_frame (sync : option Z -> Manager -> Outcome unit) : Prop :=
  forall cutoff_time m,
    let res := sync cutoff_time m in
    res.2 = Some tt /\ local_db res.1 = local_db m /\
    dry_run res.1 = dry_run m /\ location_id res.1 = location_id m /\
    errors (stats m) <= errors (stats res.1).

(** The audit row [log_sync_status] writes for statistics [s]. *)
Definition audit_of (sync_type : string) (now : Z) (location : Value)
    (s : Stats) (row : Row) : Prop :=
  row !! "location_id" = Some location /\
  row !! "sync_type" = Some (VText sync_type) /\
  row !! "last_sync_time" = Some (VInt now) /\
  row !! "records_synced"
    = Some (VInt (division_states_synced s + table_states_synced s
                  + sessions_synced s + videos_synced s)) /\
  row !! "status"
    = Some (VText (if errors s =? 0 then "success" else "partial")).

(** A run outside dry-run returned, and appended exactly one audit row,
    of the given type, built from the final statistics. *)
Definition logged_once (sync_type : string) (now_log : Z) (m : Manager)
    (res : Outcome unit) : Prop :=
  res.2 = Some tt /\
  exists row,
    sync_status (local_db res.1) = sync_status (local_db m) ++ [row] /\
    audit_of sync_type now_log (location_id m) (stats res.1) row.

(** The file has the tables and columns the four queries name, with or
    without the cutoff clause. *)
Definition supports_queries (schema : Schema) : Prop :=
  forall cutoff_time,
    executes (videos_schema schema)
             (videos_columns ++ cutoff_columns cutoff_time) = true /\
    executes (sessions_schema schema)
             (sessions_columns ++ cutoff_columns cutoff_time) = true /\
    executes (division_states_schema schema)
             (division_states_columns
              ++ "synced_to_cloud" :: cutoff_columns cutoff_time) = true /\
    executes (table_states_schema schema)
             (table_states_columns
              ++ "synced_to_cloud" :: cutoff_columns cutoff_time) = true.

(** The file has what every statement of a run names: the queries, the
    two DELETEs and the INSERT of the audit row; and [sync_status]
    accepts the rows offered to it. *)
Definition supports_run (schema : Schema) : Prop :=
  supports_queries schema /\
  executes (division_states_schema schema) cleanup_columns = true /\
  executes (table_states_schema schema) cleanup_columns = true /\
  executes (sync_status_schema schema) sync_status_columns = true /\
  forall row, sync_status_accepts schema row = true.

(** The tables [init_database] of the detection runner creates
    ([CREATE TABLE IF NOT EXISTS sessions / division_states /
    table_states]): no [videos], no [sync_status], and on the event
    tables neither [synced_to_cloud] nor [created_at]. *)
Definition runner_schema : Schema :=
  mkSchema None
    (Some ["session_id"; "camera_id"; "video_file"; "start_time"; "end_time";
           "total_frames"; "fps"; "resolution"; "config_file"])
    (Some ["id"; "session_id"; "camera_id"; "frame_number"; "timestamp";
           "state"; "walking_area_waiters"; "service_area_waiters";
           "screenshot_path"])
    (Some ["id"; "session_id"; "camera_id"; "frame_number"; "timestamp";
           "table_id"; "state"; "customers_count"; "waiters_count";
           "screenshot_path"])
    None
    (fun _ => true).

(** A file whose tables have every column the replicator names. *)
Definition replication_schema : Schema :=
  mkSchema
    (Some ("created_at" :: videos_columns))
    (Some ("created_at" :: sessions_columns))
    (Some ("division_state_id" :: "synced_to_cloud" :: "created_at"
           :: division_states_columns))
    (Some ("table_state_id" :: "synced_to_cloud" :: "created_at"
           :: table_states_columns))
    (Some ("id" :: sync_status_columns))
    (fun _ => true).

End Sync.

Module BatchWriter.

(** The [timestamp_recorded] argument: text, or a [datetime], which is
    represented by the text its [isoformat()] returns. *)
Inductive Timestamp : Type :=
| TsText (s : string)
| TsDatetime (isoformat : string).

(** [if isinstance(ts, datetime): ts = ts.isoformat()] *)
Definition normalize_timestamp (ts : Timestamp) : string :=
  match ts with
  | TsText s => s
  | TsDatetime iso => iso
  end.

(** The tuple appended to [division_states_buffer]. *)
Record DivisionTuple : Type := mkDivisionTuple {
  d_session_id : string;
  d_camera_id : string;
  d_location_id : string;
  d_frame_number : Z;
  d_timestamp_video : Q;
  d_timestamp_recorded : string;
  d_state : string;
  d_walking_waiters : Z;
  d_service_waiters : Z;
  d_total_staff : Z;
  d_screenshot_path : option string
}.

(** The tuple appended to [table_states_buffer]. *)
Record TableTuple : Type := mkTableTuple {
  t_session_id : string;
  t_camera_id : string;
  t_location_id : string;
  t_frame_number : Z;
  t_timestamp_video : Q;
  t_timestamp_recorded : string;
  t_table_id : string;
  t_state : string;
  t_customers_count : Z;
  t_waiters_count : Z;
  t_screenshot_path : option string
}.

(** One executed [INSERT]. *)
Inductive Insert : Type :=
| IntoDivisionStates (row : DivisionTuple)
| IntoTableStates (row : TableTuple).

(** The [sqlite3.Connection]: the inserts of the open transaction, and
    the transactions committed so far, oldest first.  Statements on the
    connection are taken to succeed. *)
Record Connection : Type := mkConnection {
  pending : list Insert;
  committed : list (list Insert)
}.

(** [cursor.executemany('INSERT ...', rows)] *)
Definition executemany (rows : list Insert) (c : Connection) : Connection :=
  mkConnection (pending c ++ rows) (committed c).

(** [conn.commit()] *)
Definition commit (c : Connection) : Connection :=
  match pending c with
  | [] => c
  | tx => mkConnection [] (committed c ++ [tx])
  end.

(** [BatchDatabaseWriter] *)
Record Writer : Type := mkWriter {
  conn : Connection;
  batch_size : Z;
  division_states_buffer : list DivisionTuple;
  table_states_buffer : list TableTuple;
  total_division_inserts : Z;
  total_table_inserts : Z;
  total_commits : Z
}.

(** [__init__] *)
Definition init (conn_ : Connection) (batch_size_ : Z) : Writer :=
  mkWriter conn_ batch_size_ [] [] 0 0 0.

(** [flush_division_states] *)
Definition flush_division_states (w : Writer) : Writer :=
  match division_states_buffer w with
  | [] => w
  | buf =>
      let c := commit (executemany (IntoDivisionStates <$> buf) (conn w)) in
      mkWriter c (batch_size w) [] (table_states_buffer w)
               (total_division_inserts w + Z.of_nat (length buf))
               (total_table_inserts w) (total_commits w + 1)
  end.

(** [flush_table_states] *)
Definition flush_table_states (w : Writer) : Writer :=
  match table_states_buffer w with
  | [] => w
  | buf =>
      let c := commit (executemany (IntoTableStates <$> buf) (conn w)) in
      mkWriter c (batch_size w) (division_states_buffer w) []
               (total_division_inserts w)
               (total_table_inserts w + Z.of_nat (length buf))
               (total_commits w + 1)
  end.

(** [flush_all] *)
Definition flush_all (w : Writer) : Writer :=
  flush_table_states (flush_division_states w).

(** Arguments of [add_division_state]. *)
Record DivisionArgs : Type := mkDivisionArgs {
  da_session_id : string;
  da_camera_id : string;
  da_location_id : string;
  da_frame_number : Z;
  da_timestamp_video : Q;
  da_timestamp_recorded : Timestamp;
  da_state : string;
  da_walking_waiters : Z;
  da_service_waiters : Z;
  da_screenshot_path : option string
}.

(** Arguments of [add_table_state]. *)
Record TableArgs : Type := mkTableArgs {
  ta_session_id : string;
  ta_camera_id : string;
  ta_location_id : string;
  ta_frame_number : Z;
  ta_timestamp_video : Q;
  ta_timestamp_recorded : Timestamp;
  ta_table_id : string;
  ta_state : string;
  ta_customers_count : Z;
  ta_waiters_count : Z;
  ta_screenshot_path : option string
}.

Definition division_tuple (a : DivisionArgs) : DivisionTuple :=
  let timestamp_recorded := normalize_timestamp (da_timestamp_recorded a) in
  let total_staff := da_walking_waiters a + da_service_waiters a in
  mkDivisionTuple (da_session_id a) (da_camera_id a) (da_location_id a)
    (da_frame_number a) (da_timestamp_video a) timestamp_recorded (da_state a)
    (da_walking_waiters a) (da_service_waiters a) total_staff
    (da_screenshot_path a).

Definition table_tuple (a : TableArgs) : TableTuple :=
  let timestamp_recorded := normalize_timestamp (ta_timestamp_recorded a) in
  mkTableTuple (ta_session_id a) (ta_camera_id a) (ta_location_id a)
    (ta_frame_number a) (ta_timestamp_video a) timestamp_recorded
    (ta_table_id a) (ta_state a) (ta_customers_count a) (ta_waiters_count a)
    (ta_screenshot_path a).

(** [add_division_state] *)
Definition add_division_state (a : DivisionArgs) (w : Writer) : Writer :=
  let w1 := mkWriter (conn w) (batch_size w)
              (division_states_buffer w ++ [division_tuple a])
              (table_states_buffer w) (total_division_inserts w)
              (total_table_inserts w) (total_commits w) in
  if batch_size w1 <=? Z.of_nat (length (division_states_buffer w1))
  then flush_division_states w1
  else w1.

(** [add_table_state] *)
Definition add_table_state (a : TableArgs) (w : Writer) : Writer :=
  let w1 := mkWriter (conn w) (batch_size w) (division_states_buffer w)
              (table_states_buffer w ++ [table_tuple a])
              (total_division_inserts w) (total_table_inserts w)
              (total_commits w) in
  if batch_size w1 <=? Z.of_nat (length (table_states_buffer w1))
  then flush_table_states w1
  else w1.

(** *** Vocabulary of the statements about the writer *)

(** The calls a producer can make on the writer. *)
Inductive Call : Type :=
| AddDivisionState (a : DivisionArgs)
| AddTableState (a : TableArgs)
| FlushDivisionStates
| FlushTableStates
| FlushAll.

Definition call (c : Call) (w : Writer) : Writer :=
  match c with
  | AddDivisionState a => add_division_state a w
  | AddTableState a => add_table_state a w
  | FlushDivisionStates => flush_division_states w
  | FlushTableStates => flush_table_states w
  | FlushAll => flush_all w
  end.

(** The writer after a sequence of calls, first call first. *)
Definition run (calls : list Call) (w : Writer) : Writer :=
  fold_left (fun w c => call c w) calls w.


Definition is_division (i : Insert) : bool :=
  match i with IntoDivisionStates _ => true | IntoTableStates _ => false end.

Definition is_table (i : Insert) : bool := negb (is_division i).



(** A freshly opened connection. *)
Definition fresh : Connection := mkConnection [] [].





(** [add_division_state] when the [executemany] of the flush it triggers
    raises on its first row: the row has been appended to the buffer,
    and the exception leaves [flush_division_states] before the
    statistics and before [clear()], so nothing is executed or counted
    and the buffer keeps every row. *)
Definition add_division_state_flush_raises (a : DivisionArgs) (w : Writer)
    : Writer :=
  mkWriter (conn w) (batch_size w)
    (division_states_buffer w ++ [division_tuple a])
    (table_states_buffer w) (total_division_inserts w)
    (total_table_inserts w) (total_commits w).

(** *** Sample data: the self-test at the end of the source file *)

Definition test_division_args (i : nat) : DivisionArgs :=
  mkDivisionArgs "test_session" "camera_35" "mianyang_test" (Z.of_nat i)
    (inject_Z (Z.of_nat i) * (2 # 10))%Q (TsDatetime "2025-11-15T12:00:00")
    "GREEN" 2 1 (Some "/path/to/screenshot.jpg").

Definition test_table_args (i : nat) : TableArgs :=
  mkTableArgs "test_session" "camera_35" "mianyang_test" (Z.of_nat i)
    (inject_Z (Z.of_nat i) * (2 # 10))%Q (TsDatetime "2025-11-15T12:00:00")
    "T1" "BUSY" 4 1 (Some "/path/to/screenshot.jpg").

(** 25 division rows, 25 table rows, then [flush_all]. *)
Definition test_calls : list Call :=
  ((fun i => AddDivisionState (test_division_args i)) <$> seq 0 25)
  ++ ((fun i => AddTableState (test_table_args i)) <$> seq 0 25)
  ++ [FlushAll].


(** *** Vocabulary of the statements about the counters *)

(** The three counters agree with the connection: the insert counters
    are the numbers of committed rows of each kind, the commit counter is
    the number of transactions, and nothing is left uncommitted. *)
Definition counted (w : Writer) : Prop :=
  total_division_inserts w
    = Z.of_nat (length (List.filter is_division (concat (committed (conn w))))) /\
  total_table_inserts w
    = Z.of_nat (length (List.filter is_table (concat (committed (conn w))))) /\
  total_commits w = Z.of_nat (length (committed (conn w))) /\
  pending (conn w) = [].

(** A transaction holds rows of one table only. *)
Definition one_kind (tx : list Insert) : Prop :=
  Forall (fun i => is_division i = true) tx \/
  Forall (fun i => is_table i = true) tx.

End BatchWriter.

Module Capture.

(** Module constants. *)
Definition SEGMENT_DURATION_SECONDS : Z := 60.
Definition FFMPEG_TIMEOUT : Z := 10000000.
Definition FFMPEG_ANALYZEDURATION : Z := 5000000.
Definition FFMPEG_PROBESIZE : Z := 5000000.
Definition FFMPEG_STREAM_COPY : bool := true.

(** The fields of [DirectFFmpegCapture] the recording loop reads or
    writes. *)
Record Recorder : Type := mkRecorder {
  rtsp_url : string;
  segment_duration : Z;
  rtsp_transport : string;
  current_segment : Z;
  connection_attempts : Z;
  successful_segments : Z;
  failed_segments : Z
}.

(** The argument vector built by [_start_ffmpeg_segment]. *)
Definition ffmpeg_cmd (self : Recorder) (output_path : string) : list string :=
  ["ffmpeg";
   "-rtsp_transport"; rtsp_transport self;
   "-stimeout"; py_str_int FFMPEG_TIMEOUT;
   "-analyzeduration"; py_str_int FFMPEG_ANALYZEDURATION;
   "-probesize"; py_str_int FFMPEG_PROBESIZE;
   "-i"; rtsp_url self;
   "-c:v"; if FFMPEG_STREAM_COPY then "copy" else "libx264";
   "-c:a"; "copy";
   "-movflags"; "+frag_keyframe+empty_moov";
   "-t"; py_str_int (segment_duration self);
   "-y";
   output_path].

(** A capture subprocess that was started. *)
Record Process : Type := mkProcess {
  argv : list string
}.

(** [_start_ffmpeg_segment]: counts the attempt, builds the command and
    calls [Popen]; [popen_ok = false] is a [Popen] that raised, for which
    the method returns [None]. *)
Definition _start_ffmpeg_segment (output_path : string) (segment_number : Z)
    (popen_ok : bool) (self : Recorder) : Recorder * option Process :=
  let self1 := mkRecorder (rtsp_url self) (segment_duration self)
                 (rtsp_transport self) (current_segment self)
                 (connection_attempts self + 1) (successful_segments self)
                 (failed_segments self) in
  (self1, if popen_ok then Some (mkProcess (ffmpeg_cmd self1 output_path))
          else None).

(** [_wait_for_segment]: [return_code] is the exit status of the
    subprocess ([None]: waiting raised). *)
Definition _wait_for_segment (return_code : option Z) (self : Recorder)
    : Recorder * bool :=
  match return_code with
  | Some 0 =>
      (mkRecorder (rtsp_url self) (segment_duration self) (rtsp_transport self)
         (current_segment self) (connection_attempts self)
         (successful_segments self + 1) (failed_segments self), true)
  | _ =>
      (mkRecorder (rtsp_url self) (segment_duration self) (rtsp_transport self)
         (current_segment self) (connection_attempts self)
         (successful_segments self) (failed_segments self + 1), false)
  end.

(** What the environment supplies to one iteration of the recording
    loop: whether [is_capturing] still holds, the elapsed session time
    [time.time() - session_start_time] read at the top of the iteration,
    the output file name generated from the clock, whether [Popen]
    succeeded, and the exit status of the subprocess. *)
Record Iteration : Type := mkIteration {
  it_is_capturing : bool;
  it_elapsed_total : Q;
  it_output_file : string;
  it_popen_ok : bool;
  it_return_code : option Z
}.

(** What one iteration computed and started. *)
Record Segment : Type := mkSegment {
  seg_number : Z;
  seg_remaining_duration : Q;
  seg_current_segment_duration : Q;
  seg_process : Process
}.

Definition next_segment (self : Recorder) : Recorder :=
  mkRecorder (rtsp_url self) (segment_duration self) (rtsp_transport self)
    (current_segment self + 1) (connection_attempts self)
    (successful_segments self) (failed_segments self).

(** The [while self.is_capturing:] loop of [capture_video], run against
    the iterations the environment supplies; the result lists the
    subprocesses started, in order. *)
Fixpoint recording_loop (duration_seconds : Z) (its : list Iteration)
    (self : Recorder) : Recorder * list Segment :=
  match its with
  | [] => (self, [])
  | it :: rest =>
      if negb (it_is_capturing it) then (self, [])
      else
        let elapsed_total := it_elapsed_total it in
        if Qle_bool (inject_Z duration_seconds) elapsed_total then (self, [])
        else
          let remaining_duration :=
            (inject_Z duration_seconds - elapsed_total)%Q in
          let current_segment_duration :=
            Qmin (inject_Z (segment_duration self)) remaining_duration in
          match _start_ffmpeg_segment (it_output_file it) (current_segment self)
                  (it_popen_ok it) self with
          | (self1, None) => (self1, [])
          | (self1, Some ffmpeg_process) =>
              let '(self2, success) :=
                _wait_for_segment (it_return_code it) self1 in
              let seg := mkSegment (current_segment self) remaining_duration
                           current_segment_duration ffmpeg_process in
              let '(self3, segs) :=
                recording_loop duration_seconds rest (next_segment self2) in
              (self3, seg :: segs)
          end
  end.

(** *** Vocabulary of the statements about the recorder *)

(** Options of the ffmpeg command line that are followed by a value:
    all the dashed ones used here except [-y]. *)
Definition takes_value (a : string) : bool :=
  String.prefix "-" a && negb (String.eqb a "-y").

(** The value given to option [flag] in an argument vector, read the way
    the program reads it: an option that takes a value consumes the next
    argument. *)
Fixpoint option_value (flag : string) (cmd : list string) : option string :=
  match cmd with
  | [] => None
  | a :: rest =>
      match rest with
      | [] => None
      | v :: rest' =>
          if String.eqb a flag then Some v
          else if takes_value a then option_value flag rest'
          else option_value flag rest
      end
  end.

(** The run time, in seconds, the subprocess of a segment was told to
    stop after: its [-t] argument. *)
Definition configured_seconds (seg : Segment) : option string :=
  option_value "-t" (argv (seg_process seg)).

(** *** Sample session: 90 s to record in segments of 60 s *)

Definition camera_35 : Recorder :=
  mkRecorder "rtsp://admin:pw@192.168.1.35:554/media/video1"
             SEGMENT_DURATION_SECONDS "tcp" 1 0 0 0.

Definition ninety_seconds : list Iteration :=
  [mkIteration true 0 "camera_35_20251116_113000.mp4" true (Some 0);
   mkIteration true 60 "camera_35_20251116_113100_part2.mp4" true (Some 0);
   mkIteration true 120 "" true (Some 0)].


(** *** File names *)

(** [_generate_filename]; [timestamp] is the text
    [datetime.now().strftime("%Y%m%d_%H%M%S")]. *)
Definition _generate_filename (camera_id timestamp : string)
    (segment_number : Z) : string :=
  if segment_number =? 1
  then (camera_id ++ "_" ++ timestamp ++ ".mp4")%string
  else (camera_id ++ "_" ++ timestamp ++ "_part" ++ py_str_int segment_number
        ++ ".mp4")%string.

(** The file a segment is written to: [Path(output_dir) / date_str /
    self.camera_id / filename], as path components. *)
Definition segment_file (output_dir : list string)
    (date_str camera_id filename : string) : list string :=
  output_dir ++ [date_str; camera_id; filename].

(** *** Vocabulary of the statements about the books of the loop *)

(** The iteration gets as far as [Popen]: recording is still on and the
    target duration is not reached. *)
Definition reaches_popen (duration_seconds : Z) (it : Iteration) : bool :=
  it_is_capturing it
  && negb (Qle_bool (inject_Z duration_seconds) (it_elapsed_total it)).

(** The iteration starts a segment: it gets as far as [Popen], and
    [Popen] returns. *)
Definition starts_segment (duration_seconds : Z) (it : Iteration) : bool :=
  reaches_popen duration_seconds it && it_popen_ok it.

(** What the recording loop did with the recorder [self], against the
    iterations [its], when it ends in [self'] having started the
    segments [segs]: the segments carry consecutive numbers from
    [current_segment self] on; each was started while time remained,
    with a computed length that is at most both the remaining time and
    the segment length; each was waited for and counted once, as a
    success or as a failure; one segment was started for each iteration
    before the first that starts none; and the connection attempts grew
    by the number of segments started, plus one exactly when the loop
    ended at an iteration that got as far as a [Popen] that raised. *)
Definition loop_accounted (duration_seconds : Z) (its : list Iteration)
    (self self' : Recorder) (segs : list Segment) : Prop :=
  let n := Z.of_nat (length segs) in
  seg_number <$> segs
    = (fun i => current_segment self + Z.of_nat i) <$> seq 0 (length segs) /\
  Forall (fun seg =>
            (0 < seg_remaining_duration seg)%Q /\
            (seg_current_segment_duration seg <= seg_remaining_duration seg)%Q /\
            (seg_current_segment_duration seg
               <= inject_Z (segment_duration self))%Q) segs /\
  current_segment self' = current_segment self + n /\
  successful_segments self' + failed_segments self'
    = successful_segments self + failed_segments self + n /\
  successful_segments self <= successful_segments self' /\
  failed_segments self <= failed_segments self' /\
  segment_duration self' = segment_duration self /\
  rtsp_url self' = rtsp_url self /\
  exists started stopped,
    its = started ++ stopped /\
    Forall (fun it => starts_segment duration_seconds it = true) started /\
    length segs = length started /\
    match stopped with
    | it :: _ =>
        starts_segment duration_seconds it = false /\
        connection_attempts self'
          = connection_attempts self + n
            + (if reaches_popen duration_seconds it then 1 else 0)
    | [] => connection_attempts self' = connection_attempts self + n
    end.

End Capture.

(** ** Text helpers for the regular expressions of the sources

    Strings are sequences of bytes; [\d] is taken on ASCII digits.
    Python's [str] patterns and [int()] also accept the other Unicode
    decimal digits: the two readings agree on ASCII text ([is_ascii]
    below), and a statement that depends on the difference is made for
    such text. *)

Definition is_digit (c : ascii) : bool :=
  let n := nat_of_ascii c in (48 <=? n)%nat && (n <=? 57)%nat.

(** [\d{n}] at the start of [s]: the [n] digits and the rest. *)
Fixpoint match_digits (n : nat) (s : string) : option (string * string) :=
  match n with
  | O => Some (EmptyString, s)
  | S n' =>
      match s with
      | String c s' =>
          if is_digit c then
            match match_digits n' s' with
            | Some (ds, rest) => Some (String c ds, rest)
            | None => None
            end
          else None
      | EmptyString => None
      end
  end.

(** [\d*] at the start of [s], greedy. *)
Fixpoint span_digits (s : string) : string * string :=
  match s with
  | String c s' =>
      if is_digit c then let '(ds, rest) := span_digits s' in (String c ds, rest)
      else (EmptyString, s)
  | EmptyString => (EmptyString, EmptyString)
  end.

Definition newline_ : string := String (ascii_of_nat 10) EmptyString.

(** [os.path.basename]: the text after the last slash. *)
Fixpoint basename (s : string) : string :=
  match s with
  | EmptyString => EmptyString
  | String c s' =>
      if existsb (Ascii.eqb "/") (list_ascii_of_string s') then basename s'
      else if Ascii.eqb c "/" then s'
      else s
  end.


(** A text made of ASCII digits only. *)
Fixpoint all_digits (s : string) : bool :=
  match s with
  | EmptyString => true
  | String c s' => is_digit c && all_digits s'
  end.

(** The text is ASCII. *)
Definition is_ascii (s : string) : bool :=
  forallb (fun c => (nat_of_ascii c <? 128)%nat) (list_ascii_of_string s).

(** A text without a slash, as every file name is. *)
Definition slash_free (s : string) : bool :=
  negb (existsb (Ascii.eqb "/") (list_ascii_of_string s)).

(** The number a text of ASCII digits denotes, continuing from [acc]. *)
Fixpoint digits_number (acc : Z) (s : string) : Z :=
  match s with
  | EmptyString => acc
  | String c s' => digits_number (acc * 10 + (Z.of_nat (nat_of_ascii c) - 48)) s'
  end.

(** [s.replace('_', '')] *)
Fixpoint remove_underscores (s : string) : string :=
  match s with
  | EmptyString => EmptyString
  | String c s' =>
      if Ascii.eqb c "_" then remove_underscores s'
      else String c (remove_underscores s')
  end.

Module Orchestrator.

(** *** Module constants *)

Definition DEFAULT_MIN_WORKERS : Z := 1.
Definition DEFAULT_MAX_WORKERS : Z := 8.
Definition TEMP_SCALE_UP_THRESHOLD : Z := 70.
Definition TEMP_SCALE_DOWN_THRESHOLD : Z := 75.
Definition TEMP_EMERGENCY_THRESHOLD : Z := 80.
Definition GPU_UTIL_SCALE_UP_THRESHOLD : Z := 70.
Definition GPU_UTIL_SCALE_DOWN_THRESHOLD : Z := 85.
Definition MIN_MEMORY_FREE_GB : Q := 2.
Definition SCALE_COOLDOWN_SECONDS : Q := 60.

(** *** GPU monitor *)

(** The entries of the metrics dict the decisions read. *)
Record Metrics : Type := mkMetrics {
  temperature : Z;
  gpu_utilization : Z;
  memory_free_gb : Q
}.

(** [DynamicGPUMonitor] *)
Record Monitor : Type := mkMonitor {
  min_workers : Z;
  max_workers : Z;
  last_scale_time : Q
}.

(** [should_scale_up]; [now] is the reading of [time.time()], and
    [metrics = None] covers [if not metrics]. *)
Definition should_scale_up (self : Monitor) (now : Q)
    (metrics : option Metrics) (current_workers : Z) : bool :=
  match metrics with
  | None => false
  | Some mt =>
      if max_workers self <=? current_workers then false
      else if Qltb (now - last_scale_time self) SCALE_COOLDOWN_SECONDS then false
      else (temperature mt <? TEMP_SCALE_UP_THRESHOLD)
           && (gpu_utilization mt <? GPU_UTIL_SCALE_UP_THRESHOLD)
           && Qltb MIN_MEMORY_FREE_GB (memory_free_gb mt)
  end.

(** [should_scale_down] *)
Definition should_scale_down (self : Monitor) (metrics : option Metrics)
    (current_workers : Z) : bool :=
  match metrics with
  | None => false
  | Some mt =>
      if current_workers <=? min_workers self then false
      else (TEMP_SCALE_DOWN_THRESHOLD <? temperature mt)
           || (GPU_UTIL_SCALE_DOWN_THRESHOLD <? gpu_utilization mt)
           || Qltb (memory_free_gb mt) 1
  end.

(** [is_emergency] *)
Definition is_emergency (self : Monitor) (metrics : option Metrics) : bool :=
  match metrics with
  | None => false
  | Some mt => TEMP_EMERGENCY_THRESHOLD <=? temperature mt
  end.

(** [record_scaling] *)
Definition record_scaling (now : Q) (self : Monitor) : Monitor :=
  mkMonitor (min_workers self) (max_workers self) now.

(** The branch one pass of [_gpu_monitoring_thread] takes on a sample. *)
Inductive Decision : Type :=
| NO_METRICS
| EMERGENCY
| SCALE_DOWN
| SCALE_UP
| HOLD.

Definition monitoring_decision (self : Monitor) (now : Q)
    (metrics : option Metrics) (current_worker_count : Z) : Decision :=
  match metrics with
  | None => NO_METRICS
  | Some _ =>
      if is_emergency self metrics then EMERGENCY
      else if should_scale_down self metrics current_worker_count then SCALE_DOWN
      else if should_scale_up self now metrics current_worker_count then SCALE_UP
      else HOLD
  end.

(** *** Jobs and the processing queue *)

Record ProcessingJob : Type := mkProcessingJob {
  camera_id : string;
  video_path : string;
  priority : Z;
  duration : option Z;
  config_path : option string
}.

(** [self.video_name = os.path.basename(video_path)] *)
Definition video_name (job : ProcessingJob) : string :=
  basename (video_path job).

Inductive Level : Type := INFO | WARNING | ERROR.

(** A log record: level, camera, event tag, video name. *)
Record LogRecord : Type := mkLogRecord {
  log_level : Level;
  log_camera : string;
  log_event : string;
  log_video : string
}.

(** The fields of [ProcessingQueue] that [process_job] and the worker
    loop read or write. *)
Record ProcessingQueue : Type := mkProcessingQueue {
  gpu_monitor : Monitor;
  current_worker_count : Z;
  job_queue : list ProcessingJob;
  jobs_completed : Z;
  jobs_failed : Z;
  total_processing_time : Q;
  logged : list LogRecord
}.

(** What [subprocess.run] of the analysis runner came to: it returned
    with an exit code and captured stderr, or it raised. *)
Inductive RunResult : Type :=
| Completed (returncode : Z) (stderr : string)
| RunRaised.

Definition log_ (l : Level) (job : ProcessingJob) (event : string)
    (q : ProcessingQueue) : ProcessingQueue :=
  mkProcessingQueue (gpu_monitor q) (current_worker_count q) (job_queue q)
    (jobs_completed q) (jobs_failed q) (total_processing_time q)
    (logged q ++ [mkLogRecord l (camera_id job) event (video_name job)]).

(** [cmd] as [process_job] builds it, given the path of the runner. *)
Definition build_cmd (detection_script : string) (job : ProcessingJob)
    : list string :=
  ["python3"; detection_script; "--video"; video_path job]
  ++ match duration job with
     | Some d => if d =? 0 then [] else ["--duration"; py_str_int d]
     | None => []
     end.

(** [process_job]; [result] and [elapsed] are what the run of the
    subprocess came to and how long it took. *)
Definition process_job (job : ProcessingJob) (result : RunResult)
    (elapsed : Q) (q : ProcessingQueue) : ProcessingQueue * bool :=
  let q0 := log_ INFO job "START" q in
  match result with
  | Completed returncode stderr =>
      if returncode =? 0 then
        let q1 := log_ INFO job "SUCCESS" q0 in
        (mkProcessingQueue (gpu_monitor q1) (current_worker_count q1)
           (job_queue q1) (jobs_completed q1 + 1) (jobs_failed q1)
           (total_processing_time q1 + elapsed)%Q (logged q1), true)
      else
        let q1 := log_ ERROR job "FAILED" q0 in
        let q2 := log_ ERROR job "Error output" q1 in
        (mkProcessingQueue (gpu_monitor q2) (current_worker_count q2)
           (job_queue q2) (jobs_completed q2) (jobs_failed q2 + 1)
           (total_processing_time q2) (logged q2), false)
  | RunRaised =>
      let q1 := log_ ERROR job "EXCEPTION" q0 in
      (mkProcessingQueue (gpu_monitor q1) (current_worker_count q1)
         (job_queue q1) (jobs_completed q1) (jobs_failed q1 + 1)
         (total_processing_time q1) (logged q1), false)
  end.

(** [PriorityQueue.get]: a job of least priority, and the others. *)
Fixpoint get (jobs : list ProcessingJob)
    : option (ProcessingJob * list ProcessingJob) :=
  match jobs with
  | [] => None
  | j :: rest =>
      match get rest with
      | Some (k, others) =>
          if priority k <? priority j then Some (k, j :: others)
          else Some (j, rest)
      | None => Some (j, [])
      end
  end.

Definition set_job_queue (jobs : list ProcessingJob) (q : ProcessingQueue)
    : ProcessingQueue :=
  mkProcessingQueue (gpu_monitor q) (current_worker_count q) jobs
    (jobs_completed q) (jobs_failed q) (total_processing_time q) (logged q).

(** One pass of the [while] loop of [_worker_thread] in which the worker
    stays within the limit; the boolean tells whether a job was taken. *)
Definition worker_pass (worker_id : Z) (result : RunResult) (elapsed : Q)
    (q : ProcessingQueue) : ProcessingQueue * bool :=
  if current_worker_count q <=? worker_id then (q, false)
  else
    match get (job_queue q) with
    | None => (q, false)
    | Some (job, others) =>
        ((process_job job result elapsed (set_job_queue others q)).1, true)
    end.

(** [_add_worker], at clock reading [now]. *)
Definition _add_worker (now : Q) (q : ProcessingQueue) : ProcessingQueue :=
  mkProcessingQueue (record_scaling now (gpu_monitor q))
    (current_worker_count q + 1) (job_queue q) (jobs_completed q)
    (jobs_failed q) (total_processing_time q) (logged q).

(** [_remove_worker], at clock reading [now]. *)
Definition _remove_worker (now : Q) (q : ProcessingQueue) : ProcessingQueue :=
  if min_workers (gpu_monitor q) <? current_worker_count q then
    mkProcessingQueue (record_scaling now (gpu_monitor q))
      (current_worker_count q - 1) (job_queue q) (jobs_completed q)
      (jobs_failed q) (total_processing_time q) (logged q)
  else q.

(** One pass of the [while] loop of [_gpu_monitoring_thread] on a sample
    taken at clock reading [now]; the emergency branch runs
    [_remove_worker] until the minimum is reached. *)
Definition monitoring_pass (now : Q) (metrics : option Metrics)
    (q : ProcessingQueue) : ProcessingQueue :=
  match monitoring_decision (gpu_monitor q) now metrics
          (current_worker_count q) with
  | EMERGENCY =>
      Nat.iter (Z.to_nat (current_worker_count q - min_workers (gpu_monitor q)))
               (_remove_worker now) q
  | SCALE_DOWN => _remove_worker now q
  | SCALE_UP => _add_worker now q
  | NO_METRICS | HOLD => q
  end.

(** *** The analysis runner's duplicate check
    ([table_and_region_state_detection.py]) *)

(** [SELECT ... FROM sessions WHERE camera_id = ? AND video_file = ?],
    then [sys.exit(2)] when a row exists: the exit code, if the runner
    exits here. *)
Definition duplicate_check (sessions : list (string * string))
    (camera_id_ video_filename : string) : option Z :=
  if existsb (fun s => String.eqb s.1 camera_id_ && String.eqb s.2 video_filename)
             sessions
  then Some 2 else None.

(** *** Video discovery *)

Fixpoint string_drop (n : nat) (s : string) : string :=
  match n, s with
  | S n', String _ s' => string_drop n' s'
  | _, _ => s
  end.

(** [extract_camera_id]: [re.match(r'^(camera_\d+)', video_filename)] *)
Definition extract_camera_id (video_filename : string) : option string :=
  if String.prefix "camera_" video_filename then
    let '(digits, _) := span_digits (string_drop 7 video_filename) in
    if String.eqb digits "" then None else Some ("camera_" ++ digits)%string
  else None.

(** [re.search(r'(\d{8}_\d{6})', s)]: the leftmost match. *)
Fixpoint search_timestamp (s : string) : option string :=
  match s with
  | EmptyString => None
  | String _ s' =>
      let here :=
        match match_digits 8 s with
        | Some (d8, String u rest) =>
            if Ascii.eqb u "_" then
              match match_digits 6 rest with
              | Some (d6, _) => Some (d8 ++ "_" ++ d6)%string
              | None => None
              end
            else None
        | _ => None
        end in
      match here with
      | Some t => Some t
      | None => search_timestamp s'
      end
  end.

(** [extract_timestamp] *)
Definition extract_timestamp (video_filename : string) : string :=
  default "00000000_000000" (search_timestamp video_filename).

(** [re.match(r'^\d{8}$', part)]: eight digits, then the end of the text
    or a final newline. *)
Definition is_date_part (part : string) : bool :=
  match match_digits 8 part with
  | Some (_, rest) => String.eqb rest "" || String.eqb rest newline_
  | None => false
  end.

(** [re.search(r'_(\d{8})_', s)]: group 1 of the leftmost match. *)
Fixpoint search_date (s : string) : option string :=
  match s with
  | EmptyString => None
  | String c s' =>
      let here :=
        if Ascii.eqb c "_" then
          match match_digits 8 s' with
          | Some (d8, rest) => if String.prefix "_" rest then Some d8 else None
          | None => None
          end
        else None in
      match here with
      | Some d => Some d
      | None => search_date s'
      end
  end.

(** A path is the list of its components ([Path.parts]); its [name] is the
    last one and [str] joins them with slashes. *)
Definition path_name (parts : list string) : string := List.last parts "".

Definition path_str (parts : list string) : string := String.concat "/" parts.

(** [extract_date_from_path] *)
Definition extract_date_from_path (parts : list string) : option string :=
  match List.find is_date_part parts with
  | Some part => Some part
  | None => search_date (path_name parts)
  end.

(** [list.sort(key=...)]: stable, ascending. *)
Fixpoint insert_by (key : string -> string) (x : string) (l : list string)
    : list string :=
  match l with
  | [] => [x]
  | y :: l' =>
      if String.ltb (key x) (key y) then x :: y :: l'
      else y :: insert_by key x l'
  end.

Definition sort_by (key : string -> string) (l : list string) : list string :=
  fold_left (fun acc x => insert_by key x acc) l [].

(** The body of the [for video_file in videos_dir.rglob("*.mp4")] loop up
    to the append: the camera a file is filed under, or [None] when one of
    the [continue] branches is taken. *)
Definition admit_video (camera_filter : option (list string))
    (processed_videos : gset string) (today : string)
    (video_file : list string) : option string :=
  match extract_camera_id (path_name video_file) with
  | None => None
  | Some camera_id_ =>
      let filtered_out :=
        match camera_filter with
        | Some (c :: cs) => negb (bool_decide (camera_id_ ∈ c :: cs))
        | _ => false
        end in
      if filtered_out then None
      else
        let video_date := extract_date_from_path video_file in
        if bool_decide (video_date = Some today) then None
        else
          match video_date with
          | None | Some EmptyString => None
          | Some _ =>
              if bool_decide (path_name video_file ∈ processed_videos) then None
              else Some camera_id_
          end
  end.

(** [videos_by_camera[camera_id].append(str(video_file))] *)
Definition file_under (camera_id_ : string) (path : string)
    (videos_by_camera : gmap string (list string)) : gmap string (list string) :=
  <[camera_id_ := default [] (videos_by_camera !! camera_id_) ++ [path]]>
    videos_by_camera.

(** [discover_videos]: [found] is what [videos_dir.rglob("*.mp4")] yields,
    [logger] tells whether a logger was passed, [db_processed] is what
    [get_processed_videos] returns, [today] is
    [datetime.now().strftime("%Y%m%d")]. *)
Definition discover_videos (videos_dir_exists : bool)
    (found : list (list string)) (camera_filter : option (list string))
    (logger : bool) (db_processed : gset string) (today : string)
    : gmap string (list string) :=
  if negb videos_dir_exists then ∅
  else
    let processed_videos := if logger then db_processed else ∅ in
    let videos_by_camera :=
      fold_left
        (fun acc video_file =>
           match admit_video camera_filter processed_videos today video_file with
           | Some camera_id_ => file_under camera_id_ (path_str video_file) acc
           | None => acc
           end)
        found ∅ in
    sort_by (fun v => extract_timestamp (basename v)) <$> videos_by_camera.

(** *** Vocabulary of the statements about the dispatcher *)

(** The discovery emits path [v]. *)
Definition emitted (videos_by_camera : gmap string (list string)) (v : string)
    : Prop :=
  exists camera_id_ l, videos_by_camera !! camera_id_ = Some l /\ v ∈ l.

(** Calendar order on [YYYYMMDD] texts. *)
Definition date_before (d1 d2 : string) : bool := String.ltb d1 d2.

(** *** Sample data *)

Definition segment_35 (date time : string) : list string :=
  ["videos"; date; "camera_35"; ("camera_35_" ++ date ++ "_" ++ time ++ ".mp4")%string].

Definition job_35 : ProcessingJob :=
  mkProcessingJob "camera_35"
    "videos/20251022/camera_35/camera_35_20251022_195212.mp4"
    20251022195212 None None.

Definition idle_queue (jobs : list ProcessingJob) : ProcessingQueue :=
  mkProcessingQueue (mkMonitor 1 8 0) 1 jobs 0 0 0 [].

(** Two later videos of another camera. *)
Definition job_36 : ProcessingJob :=
  mkProcessingJob "camera_36"
    "videos/20251023/camera_36/camera_36_20251023_120000.mp4"
    20251023120000 None None.

Definition job_36_late : ProcessingJob :=
  mkProcessingJob "camera_36"
    "videos/20251023/camera_36/camera_36_20251023_180000.mp4"
    20251023180000 None None.


(** The scale-up rule, with the free-memory test left open: the monitor
    decides SCALE_UP exactly when the sample is cool and idle enough, the
    free memory passes [free_ok], the cooldown since the last scaling
    action has elapsed, and the pool is below its maximum. *)
Definition scale_up_rule (free_ok : Q -> Prop) : Prop :=
  forall (self : Monitor) (now : Q) (mt : Metrics) (workers : Z),
    monitoring_decision self now (Some mt) workers = SCALE_UP <->
    temperature mt < 70 /\ gpu_utilization mt < 70 /\
    free_ok (memory_free_gb mt) /\
    (60 <= now - last_scale_time self)%Q /\
    workers < max_workers self.


(** *** The monitoring thread over many samples *)

(** The monitoring thread over a run of samples, each taken at a clock
    reading. *)
Definition monitoring_run (samples : list (Q * option Metrics))
    (q : ProcessingQueue) : ProcessingQueue :=
  fold_left (fun q s => monitoring_pass s.1 s.2 q) samples q.

(** The pool is within the limits of its monitor. *)
Definition within_limits (q : ProcessingQueue) : Prop :=
  min_workers (gpu_monitor q) <= current_worker_count q
    <= max_workers (gpu_monitor q).

(** *** Vocabulary of the statements about discovery *)

(** The files among [found] that the loop of [discover_videos] files
    under [camera], as path texts, in the order found. *)
Definition admitted_for (camera_filter : option (list string))
    (processed_videos : gset string) (today : string)
    (found : list (list string)) (camera : string) : list string :=
  path_str <$>
  List.filter (fun video_file =>
                 bool_decide (admit_video camera_filter processed_videos today
                                          video_file = Some camera))
              found.

(** [x] sorts no later than [y] under [sorted(..., key=key)]: the key of
    [y] is not below the key of [x]. *)
Definition key_le (key : string -> string) (x y : string) : Prop :=
  String.ltb (key y) (key x) = false.

(** [v1] is not newer than [v2], going by the timestamps in their file
    names (the sort key of [discover_videos]). *)
Definition not_newer (v1 v2 : string) : Prop :=
  key_le (fun v => extract_timestamp (basename v)) v1 v2.

(** [get_processed_videos]: the [video_file] column of the sessions table
    ([NOT NULL] in the schema), as a set; empty when the database file
    does not exist, and when the query raises [sqlite3.Error]
    ([query_ok = false]).  A session is the pair of its [camera_id] and
    [video_file]. *)
Definition get_processed_videos (database_exists query_ok : bool)
    (sessions : list (string * string)) : gset string :=
  if negb database_exists then ∅
  else if query_ok then list_to_set (snd <$> sessions)
  else ∅.

(** *** A worker over many passes *)

(** A worker that stays within the limit, making one pass per entry of
    [results], which lists what each run of the subprocess came to and
    how long it took, in the order the jobs are taken. *)
Fixpoint worker_run (worker_id : Z) (results : list (RunResult * Q))
    (q : ProcessingQueue) : ProcessingQueue :=
  match results with
  | [] => q
  | (result, elapsed) :: rest =>
      worker_run worker_id rest (worker_pass worker_id result elapsed q).1
  end.

(** The videos whose processing was started, according to the log. *)
Definition started (log : list LogRecord) : list string :=
  log_video <$> List.filter (fun r => String.eqb (log_event r) "START") log.

(** The runs that ended with exit code 0. *)
Definition succeeded (results : list (RunResult * Q)) : list (RunResult * Q) :=
  List.filter (fun r => match r.1 with
                        | Completed returncode _ => returncode =? 0
                        | RunRaised => false
                        end) results.

(** *** Creating the jobs *)

(** [int(s)] on a text of ASCII digits; [None] is the [ValueError] raised
    on the empty text and on a text with any other character.  (Python
    also accepts a sign, surrounding blanks and single underscores
    between digits; no such text reaches the call modelled here.) *)
Definition int_of_digits (s : string) : option Z :=
  match s with
  | EmptyString => None
  | _ => if all_digits s then Some (digits_number 0 s) else None
  end.

(** The job [process_with_queue] creates for a video of a camera; [None]
    when computing the priority raises. *)
Definition job_for (camera_id_ video_path_ : string) (duration_ : option Z)
    (config_path_ : option string) : option ProcessingJob :=
  let timestamp := extract_timestamp (basename video_path_) in
  priority_ ← int_of_digits (remove_underscores timestamp);
  Some (mkProcessingJob camera_id_ video_path_ priority_ duration_ config_path_).

End Orchestrator.

Module Service.

(** *** Windows *)

(** An entry of [CAPTURE_WINDOWS]. *)
Record CaptureWindow : Type := mkCaptureWindow {
  start_hour : Z;
  start_minute : Z;
  end_hour : Z;
  end_minute : Z
}.

#[global] Instance CaptureWindow_eq_dec : EqDecision CaptureWindow.
Proof. solve_decision. Defined.

(** The fields of [datetime.now()] the service reads. *)
Record Clock : Type := mkClock {
  hour : Z;
  minute : Z;
  second : Z
}.

(** The defaults of [load_system_config]. *)
Definition default_capture_windows : list CaptureWindow :=
  [mkCaptureWindow 11 30 14 0; mkCaptureWindow 17 30 22 0].

Definition default_process_start_hour : Z := 0.
Definition default_process_end_hour : Z := 23.

(** [is_in_time_window], used for the processing window. *)
Definition is_in_time_window (start_hour_ end_hour_ : Z) (now : Clock) : bool :=
  let current_hour := hour now in
  if start_hour_ <? end_hour_ then
    (start_hour_ <=? current_hour) && (current_hour <=? end_hour_)
  else
    (start_hour_ <=? current_hour) || (current_hour <? end_hour_).

(** [is_in_capture_window]: the [for window in CAPTURE_WINDOWS] loop. *)
Fixpoint is_in_capture_window (CAPTURE_WINDOWS : list CaptureWindow)
    (now : Clock) : bool * option CaptureWindow :=
  match CAPTURE_WINDOWS with
  | [] => (false, None)
  | window :: rest =>
      let current_total_minutes := hour now * 60 + minute now in
      let start_total_minutes := start_hour window * 60 + start_minute window in
      let end_total_minutes := end_hour window * 60 + end_minute window in
      if (start_total_minutes <=? current_total_minutes)
         && (current_total_minutes <? end_total_minutes)
      then (true, Some window)
      else is_in_capture_window rest now
  end.

(** *** Start-up guard on the PID file *)

(** What [os.kill(pid, 0)] does: returns, raises [OSError] (or one of its
    subclasses), or raises something else. *)
Inductive KillOutcome : Type :=
| Delivered
| RaisedOSError
| RaisedOther.

(** An operation that changed the PID file: [unlink()], or
    [open(PID_FILE, 'w')] followed by [write]; [created] tells whether
    the [open] found no file and created one (otherwise it truncated the
    file that was there). *)
Inductive FileOp : Type :=
| UnlinkFile
| WriteFile (created : bool) (content : string).

(** The part of the host [start] looks at and changes: the content of
    the PID file if it exists, the answer to signal 0 for each pid, the
    pid of the service itself, and the operations that changed the PID
    file so far, oldest first. *)
Record Host : Type := mkHost {
  pid_file : option string;
  kill0 : Z -> KillOutcome;
  getpid : Z;
  file_ops : list FileOp
}.

(** How [start] goes: it prints "already running" and returns [False];
    or it writes the PID file, sets [running] and runs the service on the
    host as it then is; or an exception escapes before that. *)
Inductive StartOutcome : Type :=
| AlreadyRunning (old_pid : Z)
| Launched (h : Host)
| StartRaised.

(** [with open(PID_FILE, 'w') as f: f.write(str(os.getpid()))] *)
Definition write_pid_file (h : Host) : Host :=
  let content := py_str_int (getpid h) in
  mkHost (Some content) (kill0 h) (getpid h)
         (file_ops h ++ [WriteFile (bool_decide (pid_file h = None)) content]).

(** [PID_FILE.unlink()] *)
Definition unlink_pid_file (h : Host) : Host :=
  mkHost None (kill0 h) (getpid h) (file_ops h ++ [UnlinkFile]).

Section Start.

(** [int(text.strip())]: the integer, or [None] for [ValueError]. *)
Variable parse_pid : string -> option Z.

(** [start], up to the point where the service runs. *)
Definition start (h : Host) : StartOutcome :=
  match pid_file h with
  | Some content =>
      match parse_pid content with
      | None => StartRaised
      | Some old_pid =>
          match kill0 h old_pid with
          | Delivered => AlreadyRunning old_pid
          | RaisedOSError => Launched (write_pid_file (unlink_pid_file h))
          | RaisedOther => StartRaised
          end
      end
  | None => Launched (write_pid_file h)
  end.

End Start.

(** *** Vocabulary of the statements about the service *)

(** Minutes since local midnight. *)
Definition minutes_of (now : Clock) : Z := hour now * 60 + minute now.

Definition start_total (w : CaptureWindow) : Z :=
  start_hour w * 60 + start_minute w.

Definition end_total (w : CaptureWindow) : Z :=
  end_hour w * 60 + end_minute w.

(** A clock reading of a real time of day. *)
Definition valid_clock (now : Clock) : Prop :=
  0 <= hour now < 24 /\ 0 <= minute now < 60 /\ 0 <= second now < 60.

(** Half-open membership [start <= now < end] for the processing window,
    whose bounds are whole hours. *)
Definition processing_window_half_open : Prop :=
  forall start_hour_ end_hour_ now, valid_clock now ->
    (is_in_time_window start_hour_ end_hour_ now = true <->
     start_hour_ * 60 <= minutes_of now < end_hour_ * 60).

(** *** Sample data *)

(** Plain decimal text, surrounded by blanks or newlines. *)
Fixpoint digits_value (acc : Z) (s : string) : option Z :=
  match s with
  | EmptyString => Some acc
  | String c s' =>
      if is_digit c
      then digits_value (acc * 10 + Z.of_nat (nat_of_ascii c) - 48) s'
      else if forallb (fun c' => Ascii.eqb c' " " || Ascii.eqb c' (ascii_of_nat 10))
                      (list_ascii_of_string s)
      then Some acc else None
  end.

Definition decimal_pid (s : string) : option Z :=
  match s with
  | String c _ => if is_digit c then digits_value 0 s else None
  | EmptyString => None
  end.

(** A PID file left behind by pid 4242, which no longer exists. *)
Definition stale_host : Host :=
  mkHost (Some (String.append "4242" newline_))
         (fun _ => RaisedOSError) 5000 [].

(** A PID file of a service that is still running as pid 4242. *)
Definition busy_host : Host :=
  mkHost (Some "4242") (fun pid => if pid =? 4242 then Delivered else RaisedOSError)
         5000 [].


(** *** Stopping the recorder *)

(** What [Popen.wait(timeout=...)] does: the process exits in time, the
    wait raises [TimeoutExpired], or it raises something else. *)
Inductive WaitOutcome : Type :=
| Exited
| TimeoutExpired
| WaitRaised.

(** How the capture subprocess answers while [_stop_capture_process]
    runs: whether [self.capture_process] is set, whether [poll()] finds
    it running at entry, whether [terminate()] raises, how the wait that
    follows goes, whether the second [poll()] finds it running, whether
    [kill()] raises, and how the last wait goes.  ([poll] itself is
    taken not to raise.) *)
Record Stopping : Type := mkStopping {
  process_set : bool;
  running_at_entry : bool;
  terminate_raises : bool;
  wait_after_terminate : WaitOutcome;
  running_after_terminate : bool;
  kill_raises : bool;
  wait_after_kill : WaitOutcome
}.

(** The calls made on the subprocess, in order. *)
Inductive ProcessCall : Type :=
| CallPoll
| CallTerminate
| CallWait (timeout : Z)
| CallKill.

#[global] Instance ProcessCall_eq_dec : EqDecision ProcessCall.
Proof. solve_decision. Defined.

(** Step 2 of [_stop_capture_process]: the forced kill. *)
Definition force_kill (p : Stopping) : bool * list ProcessCall :=
  if running_after_terminate p then
    if kill_raises p then (false, [CallPoll; CallKill])
    else
      match wait_after_kill p with
      | Exited => (true, [CallPoll; CallKill; CallWait 5])
      | TimeoutExpired | WaitRaised => (false, [CallPoll; CallKill; CallWait 5])
      end
  else (true, [CallPoll]).

(** [_stop_capture_process]: the value returned and the calls made on
    the subprocess. *)
Definition _stop_capture_process (timeout : Z) (p : Stopping)
    : bool * list ProcessCall :=
  if negb (process_set p) then (true, [])
  else if negb (running_at_entry p) then (true, [CallPoll])
  else if terminate_raises p then
    let '(ok, calls) := force_kill p in
    (ok, [CallPoll; CallTerminate] ++ calls)
  else
    match wait_after_terminate p with
    | Exited => (true, [CallPoll; CallTerminate; CallWait timeout])
    | TimeoutExpired | WaitRaised =>
        let '(ok, calls) := force_kill p in
        (ok, [CallPoll; CallTerminate; CallWait timeout] ++ calls)
    end.

(** The signals sent, in order. *)
Definition signals (calls : list ProcessCall) : list ProcessCall :=
  List.filter (fun c => match c with
                        | CallTerminate | CallKill => true
                        | _ => false
                        end) calls.

(** The seconds spent in waits, at most. *)
Definition waited (calls : list ProcessCall) : Z :=
  foldr (fun c acc => match c with CallWait t => t + acc | _ => acc end) 0 calls.

(** *** Starting the recorder *)

(** A reading of [datetime.now()] with its microseconds. *)
Record Instant : Type := mkInstant {
  clock : Clock;
  microsecond : Z
}.

(** How [start_video_capture] goes. *)
Inductive CaptureStart : Type :=
| OutsideWindows
| CaptureAlreadyRunning
| StartCaptureRaised
| PastEndTime
| Spawned (duration : Z) (window : CaptureWindow)
| SpawnFailed.

(** [start_video_capture]: [reading] is the clock read by
    [is_in_capture_window], [capture_running] tells whether a recorder
    is set and still running, [now] is the second reading of
    [datetime.now()], [popen_ok] tells whether [Popen] returned.
    [now.replace(hour=..., minute=...)] raises [ValueError] on an hour
    outside 0..23 or a minute outside 0..59. *)
Definition start_video_capture (CAPTURE_WINDOWS : list CaptureWindow)
    (reading : Clock) (capture_running : bool) (now : Instant)
    (popen_ok : bool) : CaptureStart :=
  match is_in_capture_window CAPTURE_WINDOWS reading with
  | (false, _) => OutsideWindows
  | (true, None) =>
      if capture_running then CaptureAlreadyRunning else StartCaptureRaised
  | (true, Some window) =>
      if capture_running then CaptureAlreadyRunning
      else if negb ((0 <=? end_hour window) && (end_hour window <? 24)
                    && (0 <=? end_minute window) && (end_minute window <? 60))
      then StartCaptureRaised
      else
        let end_seconds := end_hour window * 3600 + end_minute window * 60 in
        let now_seconds :=
          hour (clock now) * 3600 + minute (clock now) * 60 + second (clock now) in
        (* end_time <= now, both on the same day *)
        if (end_seconds <? now_seconds)
           || ((end_seconds =? now_seconds) && (0 <=? microsecond now))
        then PastEndTime
        else
          let total_seconds :=
            (inject_Z (end_seconds - now_seconds)
             - inject_Z (microsecond now) / 1000000)%Q in
          let duration := py_int total_seconds in
          if popen_ok then Spawned duration window else SpawnFailed
  end.

(** A reading of a real time of day. *)
Definition valid_instant (now : Instant) : Prop :=
  valid_clock (clock now) /\ 0 <= microsecond now < 1000000.

(** Whole seconds since local midnight. *)
Definition seconds_of (now : Clock) : Z :=
  hour now * 3600 + minute now * 60 + second now.

End Service.

Module Detection.

(** [STATE_DEBOUNCE_SECONDS = 1.0] *)
Definition STATE_DEBOUNCE_SECONDS : Q := 1.

(** *** File names *)

(** [extract_camera_id_from_filename]: the pattern [^(camera_\d+)] of the
    dispatcher's [extract_camera_id], matched against the base name of
    the path, with ['camera_unknown'] when it does not match. *)
Definition extract_camera_id_from_filename (video_path : string) : string :=
  default "camera_unknown" (Orchestrator.extract_camera_id (basename video_path)).

(** *** Regions *)

(** A point [(x, y)] and a polygon, the list of its vertices. *)
Definition Point : Type := (Q * Q)%type.
Definition Polygon : Type := list Point.

(** The [for i in range(1, n + 1)] loop of [point_in_polygon]: [p1] is
    the current vertex, [vertices] the ones still to visit, [xinters] the
    local variable of that name ([None] while unassigned). *)
Fixpoint crossings (x y : Q) (p1 : Point) (vertices : list Point)
    (xinters : option Q) (inside : bool) : option bool :=
  match vertices with
  | [] => Some inside
  | p2 :: rest =>
      let '(p1x, p1y) := p1 in
      let '(p2x, p2y) := p2 in
      if Qltb (Qmin p1y p2y) y then
        if Qle_bool y (Qmax p1y p2y) then
          if Qle_bool x (Qmax p1x p2x) then
            let xinters' :=
              if negb (Qeq_bool p1y p2y)
              then Some ((y - p1y) * (p2x - p1x) / (p2y - p1y) + p1x)%Q
              else xinters in
            if Qeq_bool p1x p2x then
              crossings x y p2 rest xinters' (negb inside)
            else
              match xinters' with
              | Some xi =>
                  crossings x y p2 rest xinters'
                            (if Qle_bool x xi then negb inside else inside)
              | None => None
              end
          else crossings x y p2 rest xinters inside
        else crossings x y p2 rest xinters inside
      else crossings x y p2 rest xinters inside
  end.

(** [point_in_polygon]: ray casting; [None] when it raises, which
    [polygon[0]] does on an empty polygon. *)
Definition point_in_polygon (point : Point) (polygon : Polygon) : option bool :=
  let '(x, y) := point in
  match polygon with
  | [] => None
  | p0 :: rest => crossings x y p0 (rest ++ [p0]) None false
  end.

(** *** Tables *)

(** [class TableState(Enum)] *)
Inductive TableState : Type := IDLE | BUSY | CLEANING.

#[global] Instance TableState_eq_dec : EqDecision TableState.
Proof. solve_decision. Defined.

(** An entry of a [state_transitions] list: the clock reading and the
    two states (a table's by the member of the enumeration, where the
    source stores its [value]). *)
Record Transition (S : Type) : Type := mkTransition {
  tr_time : Q;
  tr_from : S;
  tr_to : S
}.
Arguments mkTransition {S} _ _ _.
Arguments tr_time {S} _.
Arguments tr_from {S} _.
Arguments tr_to {S} _.

(** [class Table] *)
Record Table : Type := mkTable {
  id : string;
  polygon : Polygon;
  state : TableState;
  customers_present : Z;
  waiters_present : Z;
  pending_state : option TableState;
  pending_state_start : option Q;
  sitting_area_ids : list string;
  state_transitions : list (Transition TableState)
}.

(** [Table.__init__] *)
Definition new_table (table_id : string) (polygon_ : Polygon) : Table :=
  mkTable table_id polygon_ IDLE 0 0 None None [] [].

(** [Table.update_counts] *)
Definition update_counts (customers waiters : Z) (self : Table) : Table :=
  mkTable (id self) (polygon self) (state self) customers waiters
    (pending_state self) (pending_state_start self) (sitting_area_ids self)
    (state_transitions self).

(** [Table.determine_state] *)
Definition determine_state (self : Table) : TableState :=
  if (customers_present self =? 0) && (waiters_present self =? 0) then IDLE
  else if (0 <? customers_present self) && (waiters_present self =? 0) then BUSY
  else if 0 <? waiters_present self then CLEANING
  else IDLE.

(** [Table.update_state]: the table and whether the state changed;
    [None] when [current_time - self.pending_state_start] raises because
    no start was recorded. *)
Definition update_state (current_time : Q) (self : Table)
    : option (Table * bool) :=
  let new_state := determine_state self in
  if bool_decide (new_state <> state self) then
    if bool_decide (pending_state self <> Some new_state) then
      Some (mkTable (id self) (polygon self) (state self)
              (customers_present self) (waiters_present self)
              (Some new_state) (Some current_time) (sitting_area_ids self)
              (state_transitions self), false)
    else
      match pending_state_start self with
      | Some start =>
          if Qle_bool STATE_DEBOUNCE_SECONDS (current_time - start) then
            let old_state := state self in
            Some (mkTable (id self) (polygon self) new_state
                    (customers_present self) (waiters_present self)
                    None None (sitting_area_ids self)
                    (state_transitions self
                     ++ [mkTransition current_time old_state new_state]),
                  true)
          else Some (self, false)
      | None => None
      end
  else
    Some (mkTable (id self) (polygon self) (state self)
            (customers_present self) (waiters_present self)
            None None (sitting_area_ids self) (state_transitions self), false).

(** *** The division *)

(** [class DivisionStateTracker]; the states are the texts ['red'],
    ['yellow'] and ['green']. *)
Record DivisionStateTracker : Type := mkDivisionStateTracker {
  current_state : string;
  div_pending_state : option string;
  div_pending_state_start : option Q;
  div_state_transitions : list (Transition string)
}.

(** [DivisionStateTracker.__init__] *)
Definition new_tracker : DivisionStateTracker :=
  mkDivisionStateTracker "red" None None [].

(** [DivisionStateTracker.determine_state] *)
Definition division_determine_state (walking_area_waiters service_area_waiters : Z)
    : string :=
  let total_waiters := walking_area_waiters + service_area_waiters in
  if total_waiters =? 0 then "red"
  else if 0 <? service_area_waiters then "yellow"
  else "green".

(** [DivisionStateTracker.update_state] *)
Definition division_update_state (walking_area_waiters service_area_waiters : Z)
    (current_time : Q) (self : DivisionStateTracker)
    : option (DivisionStateTracker * bool) :=
  let new_state :=
    division_determine_state walking_area_waiters service_area_waiters in
  if bool_decide (new_state <> current_state self) then
    if bool_decide (div_pending_state self <> Some new_state) then
      Some (mkDivisionStateTracker (current_state self) (Some new_state)
              (Some current_time) (div_state_transitions self), false)
    else
      match div_pending_state_start self with
      | Some start =>
          if Qle_bool STATE_DEBOUNCE_SECONDS (current_time - start) then
            let old_state := current_state self in
            Some (mkDivisionStateTracker new_state None None
                    (div_state_transitions self
                     ++ [mkTransition current_time old_state new_state]),
                  true)
          else Some (self, false)
      | None => None
      end
  else
    Some (mkDivisionStateTracker (current_state self) None None
            (div_state_transitions self), false).

(** *** Assigning detections to regions *)

(** A classified detection: the centre of its box and its class
    (['customer'], ['waiter'] or ['unknown']). *)
Record Detection : Type := mkDetection {
  center : Point;
  class : string
}.

(** [class SittingArea] *)
Record SittingArea : Type := mkSittingArea {
  sa_id : string;
  sa_polygon : Polygon;
  sa_table_id : string
}.

(** [class ServiceArea] *)
Record ServiceArea : Type := mkServiceArea {
  sv_id : string;
  sv_polygon : Polygon
}.

(** The first element of [l] whose polygon holds the point, by position,
    as the [for ...: if point_in_polygon(...): ...; break] loops find it. *)
Fixpoint first_holding {A : Type} (polygon_of : A -> Polygon) (center_ : Point)
    (l : list A) : option (option (nat * A)) :=
  match l with
  | [] => Some None
  | a :: rest =>
      inside ← point_in_polygon center_ (polygon_of a);
      if inside : bool then Some (Some (O, a))
      else
        found ← first_holding polygon_of center_ rest;
        Some (match found with
              | Some (i, b) => Some (S i, b)
              | None => None
              end)
  end.

(** The position of the first table with the given id. *)
Fixpoint table_index (table_id : string) (tables : list Table) : option nat :=
  match tables with
  | [] => None
  | t :: rest =>
      if String.eqb (id t) table_id then Some O
      else S <$> table_index table_id rest
  end.

(** [if class == 'customer': customers_present += 1
     elif class == 'waiter': waiters_present += 1] *)
Definition count_at_table (class_ : string) (t : Table) : Table :=
  if String.eqb class_ "customer"
  then update_counts (customers_present t + 1) (waiters_present t) t
  else if String.eqb class_ "waiter"
  then update_counts (customers_present t) (waiters_present t + 1) t
  else t.

(** The running state of the [for detection in division_detections]
    loop. *)
Record Tally : Type := mkTally {
  tally_tables : list Table;
  walking_area_waiters : Z;
  service_area_waiters : Z
}.

(** The body of that loop for one detection. *)
Definition assign_detection (sitting_areas : list SittingArea)
    (service_areas : list ServiceArea) (detection : Detection) (s : Tally)
    : option Tally :=
  let center_ := center detection in
  let tables := tally_tables s in
  at_table ← first_holding polygon center_ tables;
  match at_table with
  | Some (i, _) =>
      Some (mkTally (alter (count_at_table (class detection)) i tables)
                    (walking_area_waiters s) (service_area_waiters s))
  | None =>
      at_sitting ← first_holding sa_polygon center_ sitting_areas;
      let linked :=
        match at_sitting with
        | Some (_, sitting) => table_index (sa_table_id sitting) tables
        | None => None
        end in
      match linked with
      | Some i =>
          Some (mkTally (alter (count_at_table (class detection)) i tables)
                        (walking_area_waiters s) (service_area_waiters s))
      | None =>
          at_service ← first_holding sv_polygon center_ service_areas;
          match at_service with
          | Some _ =>
              Some (if String.eqb (class detection) "waiter"
                    then mkTally tables (walking_area_waiters s)
                                 (service_area_waiters s + 1)
                    else s)
          | None =>
              Some (if String.eqb (class detection) "waiter"
                    then mkTally tables (walking_area_waiters s + 1)
                                 (service_area_waiters s)
                    else s)
          end
      end
  end.

(** [[d for d in detections if point_in_polygon(d['center'], polygon)]] *)
Fixpoint detections_in (polygon_ : Polygon) (detections : list Detection)
    : option (list Detection) :=
  match detections with
  | [] => Some []
  | d :: rest =>
      inside ← point_in_polygon (center d) polygon_;
      kept ← detections_in polygon_ rest;
      Some (if inside : bool then d :: kept else kept)
  end.

(** [assign_detections_to_rois]: the tables with their new counts and
    the pair it returns. *)
Definition assign_detections_to_rois (division_polygon : Polygon)
    (tables : list Table) (sitting_areas : list SittingArea)
    (service_areas : list ServiceArea) (detections : list Detection)
    : option Tally :=
  division_detections ← detections_in division_polygon detections;
  foldl (fun acc detection =>
           s ← acc; assign_detection sitting_areas service_areas detection s)
        (Some (mkTally (update_counts 0 0 <$> tables) 0 0))
        division_detections.


(** *** Frames *)

(** What [process_video] holds while it runs. *)
Record Scene : Type := mkScene {
  division_polygon : Polygon;
  tables : list Table;
  sitting_areas : list SittingArea;
  service_areas : list ServiceArea;
  division_tracker : DivisionStateTracker
}.

(** One processed frame, given its classified detections and the clock
    reading used for the debounce: assign the detections, update every
    table, update the division.  Returned with the scene: the tables
    that changed state and whether the division did. *)
Definition process_detections (classified_detections : list Detection)
    (current_time : Q) (scene : Scene) : option (Scene * list Table * bool) :=
  tally ← assign_detections_to_rois (division_polygon scene) (tables scene)
            (sitting_areas scene) (service_areas scene) classified_detections;
  updated ← mapM (update_state current_time) (tally_tables tally);
  '(tracker, division_changed) ←
     division_update_state (walking_area_waiters tally)
       (service_area_waiters tally) current_time (division_tracker scene);
  Some (mkScene (division_polygon scene) (fst <$> updated)
                (sitting_areas scene) (service_areas scene) tracker,
        fst <$> List.filter snd updated, division_changed).

(** The first-frame preprocessing of [process_video]: the first frame is
    run [int(target_fps * STATE_DEBOUNCE_SECONDS)] times at simulated
    clock readings [initial_time + (i * time_step)], each operation
    rounded as [float] arithmetic rounds it; [target_fps] is the
    [--fps] argument, [initial_time] the reading of [time.time()];
    [first_frame_detections i] is what the detectors return in iteration
    [i].  [None] when an exception escapes; [1.0 / target_fps] raises on
    0.  (The state machines subtract one such reading from another;
    the difference of two doubles within a factor 2 of each other is a
    double, so that subtraction is exact.) *)
Definition warm_up (target_fps initial_time : Q)
    (first_frame_detections : nat -> list Detection) (scene : Scene)
    : option Scene :=
  let frames_for_debounce :=
    py_int (to_double (target_fps * STATE_DEBOUNCE_SECONDS)) in
  if Qeq_bool target_fps 0 then None
  else
    let time_step := to_double (1 / target_fps) in
    foldl (fun acc i =>
             scene ← acc;
             let simulated_time :=
               to_double (initial_time
                          + to_double (inject_Z (Z.of_nat i) * time_step)) in
             (fun r => r.1.1) <$>
               process_detections (first_frame_detections i) simulated_time scene)
          (Some scene) (seq 0 (Z.to_nat frames_for_debounce)).

(** *** Vocabulary of the statements about the state machines *)

(** The debouncing that [Table.update_state] and
    [DivisionStateTracker.update_state] both implement, on the four
    fields it reads and writes. *)
Section Debounce.

Context {S : Type} `{EqDecision S}.

Record Debounced : Type := mkDebounced {
  d_state : S;
  d_pending : option S;
  d_start : option Q;
  d_log : list (Transition S)
}.

Definition debounce (new_state : S) (current_time : Q) (d : Debounced)
    : option (Debounced * bool) :=
  if bool_decide (new_state <> d_state d) then
    if bool_decide (d_pending d <> Some new_state) then
      Some (mkDebounced (d_state d) (Some new_state) (Some current_time)
                        (d_log d), false)
    else
      match d_start d with
      | Some start =>
          if Qle_bool STATE_DEBOUNCE_SECONDS (current_time - start) then
            Some (mkDebounced new_state None None
                    (d_log d ++ [mkTransition current_time (d_state d) new_state]),
                  true)
          else Some (d, false)
      | None => None
      end
  else Some (mkDebounced (d_state d) None None (d_log d), false).

(** A run of observations, each the state determined on a frame and the
    clock reading of that frame. *)
Definition debounce_all (observations : list (S * Q)) (d : Debounced)
    : option Debounced :=
  foldl (fun acc o => d ← acc; fst <$> debounce o.1 o.2 d) (Some d)
        observations.

(** The transition [tr] was earned: the observations contain a run of
    consecutive frames that all determined the new state, the last of
    them at the time of the transition and the first at least
    [STATE_DEBOUNCE_SECONDS] earlier. *)
Definition held_for_a_second (observations : list (S * Q))
    (tr : Transition S) : Prop :=
  exists before first streak after,
    observations = before ++ (first :: streak) ++ after /\
    Forall (fun o => o.1 = tr_to tr) (first :: streak) /\
    (List.last streak first).2 = tr_time tr /\
    (STATE_DEBOUNCE_SECONDS <= tr_time tr - first.2)%Q.

(** The log leads from [s0] to [s]: each entry starts where the previous
    one ended and changes the state. *)
Fixpoint chained (s0 : S) (log : list (Transition S)) (s : S) : Prop :=
  match log with
  | [] => s0 = s
  | tr :: rest =>
      tr_from tr = s0 /\ tr_to tr <> s0 /\ chained (tr_to tr) rest s
  end.


(** What the debouncer knows after the observations [obs]: the pending
    state and its start go together, a pending state differs from the
    current one and has been determined on every frame since its start,
    the log is a chain from [s0], and every entry was earned. *)
Definition settled (s0 : S) (obs : list (S * Q)) (d : Debounced) : Prop :=
  (d_pending d = None <-> d_start d = None) /\
  (forall s t0, d_pending d = Some s -> d_start d = Some t0 ->
     s <> d_state d /\
     exists before first streak,
       obs = before ++ first :: streak /\
       Forall (fun o => o.1 = s) (first :: streak) /\ first.2 = t0) /\
  chained s0 (d_log d) (d_state d) /\
  Forall (held_for_a_second obs) (d_log d).

End Debounce.

Arguments Debounced S : clear implicits.

(** The debounced fields of a table. *)
Definition table_debounced (t : Table) : Debounced TableState :=
  mkDebounced (state t) (pending_state t) (pending_state_start t)
              (state_transitions t).

(** The debounced fields of the division tracker. *)
Definition tracker_debounced (t : DivisionStateTracker) : Debounced string :=
  mkDebounced (current_state t) (div_pending_state t)
              (div_pending_state_start t) (div_state_transitions t).

(** The state [determine_state] returns for given counts. *)
Definition state_of_counts (customers waiters : Z) : TableState :=
  determine_state (update_counts customers waiters (new_table "" [])).

(** One table over a run of frames, each given by the counts assigned to
    the table and the clock reading. *)
Definition table_run (frames : list (Z * Z * Q)) (t : Table) : option Table :=
  foldl (fun acc f =>
           t ← acc; fst <$> update_state f.2 (update_counts f.1.1 f.1.2 t))
        (Some t) frames.

(** The division over a run of frames, each given by the two waiter
    counts and the clock reading. *)
Definition tracker_run (frames : list (Z * Z * Q)) (t : DivisionStateTracker)
    : option DivisionStateTracker :=
  foldl (fun acc f =>
           t ← acc; fst <$> division_update_state f.1.1 f.1.2 f.2 t)
        (Some t) frames.


(** *** Vocabulary of the statements about the assignment *)

(** The sum of a count over the tables. *)
Definition total (count : Table -> Z) (tables_ : list Table) : Z :=
  foldr (fun t acc => count t + acc) 0 tables_.

(** The same table, possibly with other counts. *)
Definition same_table (t t' : Table) : Prop :=
  id t' = id t /\ polygon t' = polygon t /\ state t' = state t /\
  pending_state t' = pending_state t /\
  pending_state_start t' = pending_state_start t /\
  sitting_area_ids t' = sitting_area_ids t /\
  state_transitions t' = state_transitions t.

(** The detections of a class whose centre the polygon holds. *)
Definition inside_of_class (class_ : string) (polygon_ : Polygon)
    (detections : list Detection) : list Detection :=
  List.filter (fun d => bool_decide (point_in_polygon (center d) polygon_
                                     = Some true)
                        && String.eqb (class d) class_) detections.

(** Neither count of the table is negative. *)
Definition counts_nonnegative (t : Table) : Prop :=
  0 <= customers_present t /\ 0 <= waiters_present t.

(** Every region of the scene has at least one vertex. *)
Definition drawn (division_polygon_ : Polygon) (tables_ : list Table)
    (sitting_areas_ : list SittingArea) (service_areas_ : list ServiceArea)
    : Prop :=
  division_polygon_ <> [] /\
  Forall (fun t => polygon t <> []) tables_ /\
  Forall (fun a => sa_polygon a <> []) sitting_areas_ /\
  Forall (fun a => sv_polygon a <> []) service_areas_.

(** *** Vocabulary of the statements about the preprocessing *)

(** Nothing is pending, or what is pending started at [initial_time] or
    later. *)
Definition idle_since {S : Type} (initial_time : Q) (d : Debounced S) : Prop :=
  (d_pending d = None <-> d_start d = None) /\
  (forall t0, d_start d = Some t0 -> (initial_time <= t0)%Q).

(** The scene [scene'] shows the same states and the same logs as
    [scene]. *)
Definition same_states (scene scene' : Scene) : Prop :=
  state <$> tables scene' = state <$> tables scene /\
  state_transitions <$> tables scene' = state_transitions <$> tables scene /\
  current_state (division_tracker scene') = current_state (division_tracker scene) /\
  div_state_transitions (division_tracker scene')
    = div_state_transitions (division_tracker scene).

(** Nothing is pending anywhere in the scene, as when its trackers have
    just been created. *)
Definition nothing_pending (scene : Scene) : Prop :=
  Forall (fun t => pending_state t = None /\ pending_state_start t = None)
         (tables scene) /\
  div_pending_state (division_tracker scene) = None /\
  div_pending_state_start (division_tracker scene) = None.

(** What the preprocessing keeps of the scene it started from. *)
Definition kept_quiet (initial_time : Q) (scene0 scene : Scene) : Prop :=
  division_polygon scene = division_polygon scene0 /\
  sitting_areas scene = sitting_areas scene0 /\
  service_areas scene = service_areas scene0 /\
  Forall2 (fun t0 t =>
             polygon t = polygon t0 /\ state t = state t0 /\
             state_transitions t = state_transitions t0 /\
             idle_since initial_time (table_debounced t))
          (tables scene0) (tables scene) /\
  current_state (division_tracker scene) = current_state (division_tracker scene0) /\
  div_state_transitions (division_tracker scene)
    = div_state_transitions (division_tracker scene0) /\
  idle_since initial_time (tracker_debounced (division_tracker scene)).

(** *** Sample data *)

(** The square with corner [(x0, y0)] and the given side. *)
Definition square (x0 y0 side : Q) : Polygon :=
  [(x0, y0); (x0 + side, y0); (x0 + side, y0 + side); (x0, y0 + side)]%Q.

(** One table in a division of side 4, trackers newly created. *)
Definition sample_scene : Scene :=
  mkScene (square 0 0 4) [new_table "T1" (square 1 1 1)] [] [] new_tracker.

(** A customer at the table, a waiter in the walking area and a waiter
    outside the division. *)
Definition sample_detections : list Detection :=
  [mkDetection (3 # 2, 3 # 2) "customer"; mkDetection (3 # 1, 3 # 1) "waiter";
   mkDetection (5 # 1, 5 # 1) "waiter"].

End Detection.

(* ================================================================== *)
(** * Part II: properties                                                *)
(* ================================================================== *)

Lemma elem_of_List_filter {A : Type} (f : A -> bool) (l : list A) (x : A) :
  x ∈ List.filter f l <-> x ∈ l /\ f x = true.
Proof. rewrite !list_elem_of_In. apply filter_In. Qed.

Module SyncFacts.
Import Sync.

(** ** Pruning *)

Lemma delete_where_spec (w : Row -> bool) (table : list Row) (r : Row) :
  r ∈ delete_where w table <-> r ∈ table /\ w r = false.
Proof.
  unfold delete_where. rewrite elem_of_List_filter, negb_true_iff. tauto.
Qed.

Lemma cleanup_where_spec (c : Z) (r : Row) :
  cleanup_where c r = true <->
  r !! "synced_to_cloud" = Some (VInt 1) /\
  exists t, r !! "created_at" = Some (VInt t) /\ t < c.
Proof.
  unfold cleanup_where, sql_eq_int, sql_lt_time.
  rewrite andb_true_iff. split.
  - intros [H1 H2].
    destruct (r !! "synced_to_cloud") as [[| n | | |]|]; try discriminate.
    apply Z.eqb_eq in H1. subst n.
    destruct (r !! "created_at") as [[| t | | |]|]; try discriminate.
    apply Z.ltb_lt in H2. eauto.
  - intros [-> (t & -> & Ht)]. split; [reflexivity | now apply Z.ltb_lt].
Qed.

Lemma delete_where_retention_floor (h now : Z) (table : list Row) :
  retention_floor h now table
    (delete_where (cleanup_where (now - hours h)) table).
Proof.
  unfold retention_floor, hours. repeat split.
  - destruct (cleanup_where (now - h * 3600) r) eqn:Hw.
    + apply cleanup_where_spec in Hw. tauto.
    + exfalso. apply H0, delete_where_spec. auto.
  - destruct (cleanup_where (now - h * 3600) r) eqn:Hw.
    + apply cleanup_where_spec in Hw. destruct Hw as [_ (t & Hc & Hlt)].
      exists t. split; [assumption | lia].
    + exfalso. apply H0, delete_where_spec. auto.
  - intros r Hin H0. apply delete_where_spec. split; [assumption|].
    destruct (cleanup_where _ r) eqn:Hw; [|reflexivity].
    apply cleanup_where_spec in Hw. destruct Hw as [H1 _]. congruence.
  - intros r t Hin Hc Hage. apply delete_where_spec. split; [assumption|].
    destruct (cleanup_where _ r) eqn:Hw; [|reflexivity].
    apply cleanup_where_spec in Hw. destruct Hw as [_ (t' & Hc' & Hlt)].
    rewrite Hc in Hc'. injection Hc' as <-. lia.
  - intros r Hin. apply delete_where_spec in Hin. tauto.
Qed.

Lemma retention_floor_refl (h now : Z) (table : list Row) :
  retention_floor h now table table.
Proof. unfold retention_floor. repeat split; auto; contradiction. Qed.

(** C1.  In both event tables, [cleanup_synced_data] removes a row only if
    its [synced_to_cloud] is 1 and its [created_at] lies more than the
    retention period before the clock reading; a row whose flag is 0, and
    a row created within the retention period, stay in the table; and the
    pass neither adds nor rewrites rows. *)
Theorem cleanup_prunes_only_aged_synced_rows
    (retention_hours now : Z) (m : Manager) :
  let d := local_db m in
  let d' := local_db (cleanup_synced_data retention_hours now m) in
  retention_floor retention_hours now (division_states d) (division_states d') /\
  retention_floor retention_hours now (table_states d) (table_states d').
Proof.
  cbv zeta. unfold cleanup_synced_data.
  destruct (dry_run m); cbn.
  - split; apply retention_floor_refl.
  - split; apply delete_where_retention_floor.
Qed.

(** A pruning pass on the sample store with 24 h retention.  One second
    after row 3 (synced, created at 300) has aged past the retention it
    is the only row removed: rows 1 and 2 are older still but unsynced.
    At exactly 24 h of age nothing is removed. *)
Example cleanup_on_sample :
  division_states (local_db (cleanup_synced_data 24 (300 + 24 * 3600 + 1)
                                                 events_manager))
  = [division_row 1 0 100; division_row 2 0 200] /\
  division_states (local_db (cleanup_synced_data 24 (300 + 24 * 3600)
                                                 events_manager))
  = division_states events_db.
Proof. split; reflexivity. Qed.

(** ** The upload loop *)

Lemma batch_at_elem (records : list Row) (i : nat) (rec : Row) :
  rec ∈ batch_at records i -> rec ∈ records.
Proof.
  unfold batch_at. intros H.
  eapply elem_of_sublist; [exact H|].
  etransitivity; [apply sublist_take | apply sublist_drop].
Qed.

Lemma batches_of_elem (records batch : list Row) (rec : Row) :
  batch ∈ batches_of records -> rec ∈ batch -> rec ∈ records.
Proof.
  unfold batches_of. intros Hb Hr.
  apply list_elem_of_fmap in Hb. destruct Hb as (i & -> & _).
  eapply batch_at_elem; eassumption.
Qed.

Lemma pk_col_not_flag (t pk : string) :
  pk_col_of t = Some pk -> pk <> "synced_to_cloud".
Proof.
  unfold pk_col_of.
  destruct (String.eqb t "division_states"); [intros [= <-]; discriminate|].
  destruct (String.eqb t "table_states"); [intros [= <-]; discriminate|].
  discriminate.
Qed.

Lemma pk_col_truthy (t pk : string) :
  pk_col_of t = Some pk -> truthy_table (Some t) = Some t.
Proof.
  unfold pk_col_of, truthy_table.
  destruct (String.eqb t "") eqn:He; [|reflexivity].
  apply String.eqb_eq in He. subst t. discriminate.
Qed.

Lemma event_table_update (t pk : string) (f : list Row -> list Row) (d : LocalDb) :
  pk_col_of t = Some pk ->
  event_table t (update_table t f d) = f (event_table t d).
Proof.
  unfold pk_col_of, event_table, update_table.
  destruct (String.eqb t "division_states"); [reflexivity|].
  destruct (String.eqb t "table_states"); [reflexivity|discriminate].
Qed.

(** The states an iteration of the loop can end in. *)
Lemma upload_batch_cases (tn : string) (tf : Row -> option Row)
    (mt : option string) (batch : list Row) (m : Manager) (total : nat) :
  forall m' out, upload_batch tn tf mt batch m total = (m', out) ->
  (mapM tf batch = None /\ m' = m /\ out = None) \/
  (exists dicts ok total',
     mapM tf batch = Some dicts /\
     ok = accepts (supabase m) (length (requests (supabase m))) tn dicts /\
     accepts (supabase m') = accepts (supabase m) /\
     requests (supabase m') = requests (supabase m) ++ [mkRequest tn dicts ok] /\
     out = Some total' /\
     (local_db m' = local_db m \/
      (ok = true /\ exists t pk ids,
         truthy_table mt = Some t /\ pk_col_of t = Some pk /\
         batch_ids pk batch = Some ids /\
         local_db m' = update_table t (fmap (mark_row pk ids)) (local_db m)))).
Proof.
  intros m' out. unfold upload_batch.
  destruct (mapM tf batch) as [dicts|] eqn:Hd.
  2:{ intros [= <- <-]. left. auto. }
  unfold cloud_insert. cbn zeta.
  destruct (accepts (supabase m) (length (requests (supabase m))) tn dicts)
    eqn:Hok.
  - intros H. right. exists dicts, true.
    destruct (truthy_table mt) as [t|] eqn:Ht.
    + unfold _mark_batch_synced in H.
      destruct (pk_col_of t) as [pk|] eqn:Hpk.
      * destruct (batch_ids pk batch) as [ids|] eqn:Hids; cbn in H.
        -- injection H as <- <-. eexists. split; [reflexivity|]. split; [now rewrite Hok|].
           do 3 (split; [reflexivity|]).
           right. split; [reflexivity|]. exists t, pk, ids. auto.
        -- injection H as <- <-. eexists. split; [reflexivity|]. split; [now rewrite Hok|].
           do 3 (split; [reflexivity|]).
           left. reflexivity.
      * injection H as <- <-. eexists. split; [reflexivity|]. split; [now rewrite Hok|].
           do 3 (split; [reflexivity|]).
        left. reflexivity.
    + injection H as <- <-. eexists. split; [reflexivity|]. split; [now rewrite Hok|].
           do 3 (split; [reflexivity|]).
      left. reflexivity.
  - intros H. right. exists dicts, false.
    injection H as <- <-. eexists. split; [reflexivity|]. split; [now rewrite Hok|].
           do 3 (split; [reflexivity|]).
    left. reflexivity.
Qed.

(** A rejected batch leaves the local store as it was, counts one error,
    and lets the loop go on. *)
Lemma upload_batch_rejected (tn : string) (tf : Row -> option Row)
    (mt : option string) (batch dicts : list Row) (m : Manager) (total : nat) :
  mapM tf batch = Some dicts ->
  accepts (supabase m) (length (requests (supabase m))) tn dicts = false ->
  exists m', upload_batch tn tf mt batch m total = (m', Some total) /\
             local_db m' = local_db m /\
             errors (stats m') = errors (stats m) + 1.
Proof.
  intros Hd Hrej. unfold upload_batch, cloud_insert. rewrite Hd. cbn zeta.
  rewrite Hrej. eexists. split; [reflexivity|]. split; reflexivity.
Qed.

Lemma accepted_batches_cons (batch : list Row) (rest : list (list Row))
    (req : Request) (reqs : list Request) :
  accepted_batches (batch :: rest) (req :: reqs) =
  if req_accepted req then batch :: accepted_batches rest reqs
  else accepted_batches rest reqs.
Proof. unfold accepted_batches. cbn. now destruct (req_accepted req). Qed.

Lemma batch_ids_elem (pk : string) (batch : list Row) (ids : list Value)
    (x : Value) :
  batch_ids pk batch = Some ids -> x ∈ ids ->
  exists rec, rec ∈ batch /\ rec !! pk = Some x.
Proof.
  unfold batch_ids. intros H Hx. apply mapM_Some_1 in H.
  apply list_elem_of_lookup in Hx. destruct Hx as [i Hi].
  destruct (Forall2_lookup_r _ _ _ _ _ H Hi) as (rec & Hrec & Heq).
  exists rec. split; [|assumption].
  apply list_elem_of_lookup. eauto.
Qed.

Lemma sql_in_true (v : option Value) (ids : list Value) :
  sql_in v ids = true -> exists x, v = Some x /\ x ∈ ids.
Proof.
  unfold sql_in. destruct v as [x|]; [|discriminate].
  destruct x; try discriminate; intros H; apply bool_decide_eq_true in H; eauto.
Qed.

(** The cloud log grows by one request per batch, in order, each carrying
    the transformed rows of its batch; the loop returns unless a
    transform raises. *)
Lemma upload_loop_log (tn : string) (tf : Row -> option Row)
    (mt : option string) (batches : list (list Row)) :
  forall m total m' out,
  upload_loop tn tf mt batches m total = (m', out) ->
  exists new,
    requests (supabase m') = requests (supabase m) ++ new /\
    Forall2 (fun batch req => mapM tf batch = Some (req_rows req) /\
                              req_table req = tn)
            (take (length new) batches) new /\
    (Forall (fun b => is_Some (mapM tf b)) batches ->
     length new = length batches /\ is_Some out).
Proof.
  induction batches as [|batch rest IH]; intros m total m' out H; cbn in H.
  - injection H as <- <-. exists []. rewrite app_nil_r.
    split; [reflexivity|]. split; [constructor|]. intros _. split; eauto.
  - destruct (upload_batch tn tf mt batch m total) as [m1 out1] eqn:Hb.
    destruct (upload_batch_cases _ _ _ _ _ _ _ _ Hb)
      as [(Hn & -> & ->) | (dicts & ok & total' & Hd & _ & _ & Hreq & -> & _)].
    + injection H as <- <-. exists []. rewrite app_nil_r.
      split; [reflexivity|]. split; [constructor|].
      intros HF. inversion HF as [|? ? [? Hs] ?]; subst. congruence.
    + destruct (IH _ _ _ _ H) as (new & Hlog & HF2 & Hall).
      exists (mkRequest tn dicts ok :: new).
      split; [rewrite Hlog, Hreq, <- app_assoc; reflexivity|].
      split; [cbn; constructor; auto|].
      intros HF. inversion HF; subst.
      destruct (Hall ltac:(assumption)) as [Hlen Hout].
      split; [cbn; congruence | assumption].
Qed.

(** What the loop did to the event table it marks. *)
Lemma upload_loop_marks (tn : string) (tf : Row -> option Row)
    (t pk : string) (batches : list (list Row)) :
  pk_col_of t = Some pk ->
  forall m total m' out,
  upload_loop tn tf (Some t) batches m total = (m', out) ->
  exists new,
    requests (supabase m') = requests (supabase m) ++ new /\
    (forall r', r' ∈ event_table t (local_db m') ->
       r' ∈ event_table t (local_db m) \/
       (r' !! "synced_to_cloud" = Some (VInt 1) /\
        exists batch rec key, batch ∈ accepted_batches batches new /\
                              rec ∈ batch /\ rec !! pk = Some key /\
                              r' !! pk = Some key)) /\
    (forall r, r ∈ event_table t (local_db m) ->
       (forall batch rec, batch ∈ accepted_batches batches new ->
                          rec ∈ batch -> rec !! pk <> r !! pk) ->
       r ∈ event_table t (local_db m')) /\
    ((forall req, req ∈ new -> req_accepted req = false) ->
     local_db m' = local_db m).
Proof.
  intros Hpk.
  induction batches as [|batch rest IH]; intros m total m' out H; cbn in H.
  - injection H as <- <-. exists []. rewrite app_nil_r.
    repeat split; auto.
  - destruct (upload_batch tn tf (Some t) batch m total) as [m1 out1] eqn:Hb.
    destruct (upload_batch_cases _ _ _ _ _ _ _ _ Hb)
      as [(Hn & -> & ->) | (dicts & ok & total' & Hd & _ & _ & Hreq & -> & Hdb)].
    + injection H as <- <-. exists []. rewrite app_nil_r.
      repeat split; auto.
    + destruct (IH _ _ _ _ H) as (new & Hlog & Hmark & Hkeep & Hrej).
      exists (mkRequest tn dicts ok :: new).
      split; [rewrite Hlog, Hreq, <- app_assoc; reflexivity|].
      rewrite accepted_batches_cons. cbn [req_accepted].
      destruct Hdb as [Hsame | (-> & t' & pk' & ids & Ht & Hpk' & Hids & Hupd)].
      * (* the local store did not change in this iteration *)
        rewrite Hsame in *.
        split; [|split].
        -- intros r' Hr'.
           destruct (Hmark r' Hr') as [Hl | (H1 & b & rec & key & Hb1 & Hb2 & Hb3)];
             [left; assumption|].
           right. split; [assumption|]. exists b, rec, key.
           split; [|auto]. destruct ok; [apply elem_of_cons; auto | assumption].
        -- intros r Hr Hne. apply Hkeep; [assumption|].
           intros b rec Hb1. apply Hne.
           destruct ok; [apply elem_of_cons; auto | assumption].
        -- intros Hall. apply Hrej. intros req Hq. apply Hall, elem_of_cons. auto.
      * (* the batch was accepted and its rows marked *)
        rewrite (pk_col_truthy _ _ Hpk) in Ht. injection Ht as <-.
        rewrite Hpk in Hpk'. injection Hpk' as <-.
        assert (HT : event_table t (local_db m1)
                     = mark_row pk ids <$> event_table t (local_db m)).
        { rewrite Hupd. now apply event_table_update with (pk := pk). }
        split; [|split].
        -- intros r' Hr'.
           destruct (Hmark r' Hr') as [Hl | (H1 & b & rec & key & Hb1 & Hb2 & Hb3)].
           ++ rewrite HT in Hl. apply list_elem_of_fmap in Hl.
              destruct Hl as (r & -> & Hr). unfold mark_row.
              destruct (sql_in (r !! pk) ids) eqn:Hin; [|left; assumption].
              right. split; [apply lookup_insert_eq|].
              apply sql_in_true in Hin. destruct Hin as (x & Hx & Hxi).
              destruct (batch_ids_elem _ _ _ _ Hids Hxi) as (rec & Hrec & Hrpk).
              exists batch, rec, x. split; [apply elem_of_cons; auto|].
              split; [assumption|]. split; [assumption|].
              rewrite lookup_insert_ne by (symmetry; eapply pk_col_not_flag; eauto).
              assumption.
           ++ right. split; [assumption|]. exists b, rec, key.
              split; [apply elem_of_cons; auto | auto].
        -- intros r Hr Hne. apply Hkeep.
           ++ rewrite HT. apply list_elem_of_fmap. exists r. split; [|assumption].
              unfold mark_row.
              destruct (sql_in (r !! pk) ids) eqn:Hin; [|reflexivity].
              exfalso. apply sql_in_true in Hin. destruct Hin as (x & Hx & Hxi).
              destruct (batch_ids_elem _ _ _ _ Hids Hxi) as (rec & Hrec & Hrpk).
              apply (Hne batch rec); [apply elem_of_cons; auto | assumption | congruence].
           ++ intros b rec Hb1. apply Hne. apply elem_of_cons. auto.
        -- intros Hall.
           specialize (Hall (mkRequest tn dicts true) ltac:(apply elem_of_cons; auto)).
           discriminate.
Qed.

Lemma new_requests_app (m m' : Manager) (new : list Request) :
  requests (supabase m') = requests (supabase m) ++ new ->
  new_requests m m' = new.
Proof. unfold new_requests. intros ->. apply drop_app_length. Qed.

Lemma new_requests_same (m m' : Manager) :
  supabase m' = supabase m -> new_requests m m' = [].
Proof. unfold new_requests. intros ->. apply drop_all. Qed.

Lemma uploaded_elem (reqs : list Request) (d : Row) :
  d ∈ uploaded reqs <-> exists req, req ∈ reqs /\ d ∈ req_rows req.
Proof.
  unfold uploaded. rewrite list_elem_of_In, in_concat. split.
  - intros (l & Hl & Hd). apply list_elem_of_In, list_elem_of_fmap in Hl.
    destruct Hl as (req & -> & Hreq). exists req.
    split; [assumption | now apply list_elem_of_In].
  - intros (req & Hreq & Hd). exists (req_rows req).
    split; [|now apply list_elem_of_In].
    apply list_elem_of_In, list_elem_of_fmap. eauto.
Qed.

(** Every dict sent to the cloud by [_upload_in_batches] is the transform
    of one of the records it was given. *)
Lemma upload_in_batches_uploaded (records : list Row) (tn : string)
    (tf : Row -> option Row) (mt : option string) (m : Manager) (d : Row) :
  d ∈ uploaded (new_requests m (_upload_in_batches records tn tf mt m).1) ->
  exists rec, rec ∈ records /\ tf rec = Some d.
Proof.
  unfold _upload_in_batches. destruct (dry_run m).
  - cbn. rewrite new_requests_same by reflexivity. intros H.
    apply uploaded_elem in H. destruct H as (? & H & _).
    now apply elem_of_nil in H.
  - destruct (upload_loop tn tf mt (batches_of records) m 0%nat)
      as [m' out] eqn:Hl.
    destruct (upload_loop_log _ _ _ _ _ _ _ _ Hl) as (new & Hlog & HF2 & _).
    cbn. rewrite (new_requests_app _ _ _ Hlog). intros H.
    apply uploaded_elem in H. destruct H as (req & Hreq & Hd).
    apply list_elem_of_lookup in Hreq. destruct Hreq as [i Hi].
    destruct (Forall2_lookup_r _ _ _ _ _ HF2 Hi) as (batch & Hbi & Hm & _).
    apply mapM_Some_1 in Hm.
    apply list_elem_of_lookup in Hd. destruct Hd as [j Hj].
    destruct (Forall2_lookup_r _ _ _ _ _ Hm Hj) as (rec & Hrj & Htf).
    exists rec. split; [|assumption].
    apply (batches_of_elem records batch).
    + apply list_elem_of_lookup. exists i.
      apply lookup_take_Some in Hbi. tauto.
    + apply list_elem_of_lookup. eauto.
Qed.

Lemma cutoff_clause_spec (cutoff_time : option Z) (r : Row) :
  cutoff_clause cutoff_time r = true <-> in_window cutoff_time r.
Proof.
  unfold cutoff_clause, in_window, sql_ge_time.
  destruct cutoff_time as [c|]; [|tauto]. split.
  - destruct (r !! "created_at") as [[| t | | |]|]; try discriminate.
    intros H. apply Z.leb_le in H. eauto.
  - intros (t & -> & Ht). now apply Z.leb_le.
Qed.

Lemma unsynced_where_spec (cutoff_time : option Z) (r : Row) :
  sql_eq_int (r !! "synced_to_cloud") 0 && cutoff_clause cutoff_time r = true <->
  r !! "synced_to_cloud" = Some (VInt 0) /\ in_window cutoff_time r.
Proof.
  rewrite andb_true_iff, cutoff_clause_spec. unfold sql_eq_int.
  split; intros [H1 H2]; split; auto.
  - destruct (r !! "synced_to_cloud") as [[| n | | |]|]; try discriminate.
    apply Z.eqb_eq in H1. now subst.
  - now rewrite H1.
Qed.

(** In hourly mode the window is the last two hours. *)
Lemma hourly_window (now : Z) (r : Row) :
  in_window (Some (now - hours 2)) r <->
  exists t, r !! "created_at" = Some (VInt t) /\ now - t <= 7200.
Proof.
  unfold in_window, hours. split; intros (t & Ht & Hle); exists t;
    (split; [assumption | lia]).
Qed.

Lemma select_elem (cols : list string) (w : Row -> bool) (table : list Row)
    (rec : Row) :
  rec ∈ select cols w table <->
  exists r, r ∈ table /\ w r = true /\ rec = project cols r.
Proof.
  unfold select. rewrite list_elem_of_fmap. split.
  - intros (r & -> & Hr). apply elem_of_List_filter in Hr. exists r. tauto.
  - intros (r & Hr & Hw & ->). exists r. split; [reflexivity|].
    apply elem_of_List_filter. tauto.
Qed.

(** ** Which rows are read for upload *)

Lemma new_requests_set_stats (m m' : Manager) (st : Stats) :
  new_requests m (set_stats m' st) = new_requests m m'.
Proof. reflexivity. Qed.

Ltac sync_uploaded_tac :=
  match goal with
  | |- context [match ?sel with [] => _ | _ :: _ => _ end] =>
      let Hs := fresh "Hsel" in
      destruct sel eqn:Hs;
      [ cbn; rewrite new_requests_same by reflexivity; intros H;
        apply uploaded_elem in H; destruct H as (? & H & _);
        now apply elem_of_nil in H
      | rewrite <- Hs ]
  end.

Ltac through_upload H :=
  match type of H with
  | context [_upload_in_batches ?r ?tn ?tf ?mt ?m] =>
      let H' := fresh "Hup" in
      assert (H' : _ ∈ uploaded (new_requests m
                         (_upload_in_batches r tn tf mt m).1))
        by (destruct (_upload_in_batches r tn tf mt m) as [? [?|]]; exact H);
      clear H; rename H' into H
  end.

Lemma uploads_only_intro (P : option Z -> Row -> Prop)
    (table : LocalDb -> list Row) (w : option Z -> Row -> bool)
    (cols : list string) (tf : Row -> option Row) (tn : string)
    (mt : option string) (cutoff_time : option Z) (m : Manager) (d : Row) :
  (forall r, w cutoff_time r = true -> P cutoff_time r) ->
  d ∈ uploaded (new_requests m
        (_upload_in_batches (select cols (w cutoff_time) (table (local_db m)))
                            tn tf mt m).1) ->
  exists r, r ∈ table (local_db m) /\ P cutoff_time r /\
            tf (project cols r) = Some d.
Proof.
  intros HP H. apply upload_in_batches_uploaded in H.
  destruct H as (rec & Hrec & Htf). apply select_elem in Hrec.
  destruct Hrec as (r & Hr & Hw & ->). exists r. auto.
Qed.

Lemma sync_division_states_uploads :
  uploads_only unsynced_in_window division_states sync_division_states
               division_states_columns _transform_division_state.
Proof.
  intros cutoff_time m d. unfold sync_division_states. cbv zeta.
  sync_uploaded_tac.
  intros H. through_upload H.
  eapply (uploads_only_intro _ _ division_states_where); [|exact H].
  intros r. apply unsynced_where_spec.
Qed.

Lemma sync_table_states_uploads :
  uploads_only unsynced_in_window table_states sync_table_states
               table_states_columns _transform_table_state.
Proof.
  intros cutoff_time m d. unfold sync_table_states. cbv zeta.
  sync_uploaded_tac.
  intros H. through_upload H.
  eapply (uploads_only_intro _ _ table_states_where); [|exact H].
  intros r. apply unsynced_where_spec.
Qed.

Lemma sync_sessions_uploads :
  uploads_only in_window sessions sync_sessions
               sessions_columns _transform_session.
Proof.
  intros cutoff_time m d. unfold sync_sessions. cbv zeta.
  sync_uploaded_tac.
  intros H. through_upload H.
  eapply (uploads_only_intro _ _ sessions_where); [|exact H].
  intros r. unfold sessions_where. cbn. apply cutoff_clause_spec.
Qed.

Lemma sync_videos_uploads :
  uploads_only in_window videos sync_videos videos_columns _transform_video.
Proof.
  intros cutoff_time m d. unfold sync_videos. cbv zeta.
  sync_uploaded_tac.
  intros H. through_upload H.
  eapply (uploads_only_intro _ _ videos_where); [|exact H].
  intros r. unfold videos_where. cbn. apply cutoff_clause_spec.
Qed.

(** C7 (amended).  Every dict uploaded from [division_states] or
    [table_states] comes from a stored row whose [synced_to_cloud] is 0
    and, when a cutoff is given (hourly mode), whose [created_at] is at or
    after the cutoff.  Every dict uploaded from [sessions] or [videos]
    comes from a stored row inside that window.  Accordingly the WHERE
    clauses of the two event queries hold exactly of the unsynced rows
    inside the window, and those of [sessions] and [videos] are the
    window test alone: no flag is consulted. *)
Theorem event_rows_uploaded_only_if_unsynced :
  uploads_only unsynced_in_window division_states sync_division_states
               division_states_columns _transform_division_state /\
  uploads_only unsynced_in_window table_states sync_table_states
               table_states_columns _transform_table_state /\
  uploads_only in_window sessions sync_sessions
               sessions_columns _transform_session /\
  uploads_only in_window videos sync_videos videos_columns _transform_video /\
  (forall cutoff_time r,
     (division_states_where cutoff_time r = true
      <-> unsynced_in_window cutoff_time r) /\
     (table_states_where cutoff_time r = true
      <-> unsynced_in_window cutoff_time r) /\
     (sessions_where cutoff_time r = true <-> in_window cutoff_time r) /\
     (videos_where cutoff_time r = true <-> in_window cutoff_time r)).
Proof.
  split; [apply sync_division_states_uploads|].
  split; [apply sync_table_states_uploads|].
  split; [apply sync_sessions_uploads|].
  split; [apply sync_videos_uploads|].
  intros cutoff_time r.
  split; [apply unsynced_where_spec|]. split; [apply unsynced_where_spec|].
  unfold sessions_where, videos_where. cbn [andb].
  split; apply cutoff_clause_spec.
Qed.

(** C7 as stated fails for [sessions]: a run uploads session rows that
    carry no [synced_to_cloud = 0]. *)
Lemma sessions_uploaded_whatever_the_flag :
  ~ uploads_only unsynced_in_window sessions sync_sessions
                 sessions_columns _transform_session.
Proof.
  intros Hclaim.
  destruct (uploaded (new_requests sessions_manager
                        (sync_sessions None sessions_manager).1))
    as [|d ds] eqn:Hup.
  { apply (f_equal length) in Hup. vm_compute in Hup. discriminate. }
  destruct (Hclaim None sessions_manager d) as (r & Hr & [Hflag _] & _).
  { rewrite Hup. apply list_elem_of_here. }
  cbn in Hr. apply elem_of_cons in Hr. destruct Hr as [-> | Hr].
  - vm_compute in Hflag. discriminate.
  - apply list_elem_of_singleton in Hr. subst r.
    vm_compute in Hflag. discriminate.
Qed.

(** ** Marking *)

Lemma batches_transformable (tf : Row -> option Row) (records : list Row) :
  Forall (fun r => is_Some (tf r)) records ->
  Forall (fun b => is_Some (mapM tf b)) (batches_of records).
Proof.
  intros HF. apply Forall_forall. intros batch Hb.
  apply mapM_is_Some_2, Forall_forall. intros rec Hrec.
  rewrite Forall_forall in HF. apply HF.
  eapply batches_of_elem; eassumption.
Qed.

(** C2.  Rows are marked [synced_to_cloud = 1] only for batches whose
    cloud insert succeeded; a failed batch leaves the local store as it
    was, and the loop goes on to the remaining batches. *)
Theorem marks_only_after_cloud_acceptance (records : list Row)
    (table_name : string) (transform_fn : Row -> option Row)
    (t pk : string) (m : Manager) :
  pk_col_of t = Some pk ->
  marks_follow_acceptance records table_name transform_fn t pk m.
Proof.
  intros Hpk. unfold marks_follow_acceptance, _upload_in_batches. cbv zeta.
  destruct (dry_run m) eqn:Hdry.
  - cbn [fst snd]. rewrite new_requests_same by reflexivity.
    split; [auto|]. split; [auto|]. split; [auto|].
    split; [|discriminate].
    intros. eapply upload_batch_rejected; eassumption.
  - destruct (upload_loop table_name transform_fn (Some t)
                (batches_of records) m 0%nat) as [m' out] eqn:Hl.
    cbn [fst snd].
    destruct (upload_loop_marks _ _ _ _ _ Hpk _ _ _ _ Hl)
      as (new & Hlog & Hmark & Hkeep & Hrej).
    rewrite (new_requests_app _ _ _ Hlog).
    split; [assumption|]. split; [assumption|]. split; [assumption|].
    split; [intros; eapply upload_batch_rejected; eassumption|].
    intros _ HF.
    destruct (upload_loop_log _ _ _ _ _ _ _ _ Hl) as (new' & Hlog' & HF2 & Hall).
    assert (new' = new) as ->.
    { rewrite Hlog in Hlog'. now apply app_inv_head in Hlog'. }
    destruct (Hall (batches_transformable _ _ HF)) as [Hlen Hout].
    split; [assumption|].
    rewrite Hlen, firstn_all in HF2. exact HF2.
Qed.

Lemma marks_only_after_cloud_acceptance_witness :
  marks_follow_acceptance complete_records "ASE_division_states"
    _transform_division_state "division_states" "division_state_id"
    complete_manager /\
  let res := _upload_in_batches complete_records "ASE_division_states"
               _transform_division_state (Some "division_states")
               complete_manager in
  res.2 = Some 2%nat /\
  req_accepted <$> requests (supabase res.1) = [true] /\
  length (uploaded (requests (supabase res.1))) = 2%nat /\
  flags (division_states (local_db res.1))
    = [Some (VInt 1); Some (VInt 1); Some (VInt 0)] /\
  errors (stats res.1) = 0.
Proof.
  split; [apply marks_only_after_cloud_acceptance; reflexivity|].
  vm_compute. repeat split.
Defined.

(** With records that carry the key, an accepted batch is marked. *)
Example keyed_records_marked :
  let res := _upload_in_batches keyed_records "ASE_division_states"
               (fun r => Some r) (Some "division_states") events_manager in
  flags (division_states (local_db res.1))
    = [Some (VInt 1); Some (VInt 1); Some (VInt 1)] /\
  res.2 = Some 2%nat /\ errors (stats res.1) = 0.
Proof. vm_compute. repeat split. Qed.

(** With the same records and a cloud that rejects the insert, nothing
    is marked and the error is counted. *)
Example keyed_records_rejected :
  let m := mkManager false events_db (mkSupabase (fun _ _ _ => false) [])
                     (VText "site") no_stats in
  let res := _upload_in_batches keyed_records "ASE_division_states"
               (fun r => Some r) (Some "division_states") m in
  local_db res.1 = events_db /\ res.2 = Some 0%nat /\
  errors (stats res.1) = 1 /\ length (requests (supabase res.1)) = 1%nat.
Proof. vm_compute. repeat split. Qed.

(** Three batches of keyed records, the cloud rejecting the second:
    batches 1 and 3 are marked, the rows of batch 2 keep flag 0, one
    error is counted and all three inserts were issued. *)
Example one_bad_batch_of_three :
  let res := _upload_in_batches three_batches "ASE_table_states"
               (fun r => Some r) (Some "table_states") three_batches_manager in
  flags (table_states (local_db res.1))
    = replicate 1000 (Some (VInt 1)) ++ replicate 1000 (Some (VInt 0))
      ++ [Some (VInt 1)] /\
  res.2 = Some 1001%nat /\ errors (stats res.1) = 1 /\
  req_accepted <$> requests (supabase res.1) = [true; false; true].
Proof. vm_compute. repeat split. Qed.

(** ** The event queries do not select the key column *)

Lemma project_lookup_None (cols : list string) (r : Row) (c : string) :
  c ∉ cols -> project cols r !! c = None.
Proof.
  intros Hc. unfold project. apply not_elem_of_list_to_map_1.
  rewrite <- list_fmap_compose. intros H. apply Hc.
  apply list_elem_of_fmap in H. destruct H as (c' & -> & H). exact H.
Qed.

Lemma mark_row_nil (pk : string) (table : list Row) :
  mark_row pk [] <$> table = table.
Proof.
  induction table as [|r table IH]; [reflexivity|].
  cbn. rewrite IH. f_equal. unfold mark_row, sql_in.
  destruct (r !! pk) as [[]|]; try reflexivity;
    (rewrite bool_decide_eq_false_2; [reflexivity | apply not_elem_of_nil]).
Qed.

Lemma update_table_mark_nil (t pk : string) (d : LocalDb) :
  update_table t (fmap (mark_row pk [])) d = d.
Proof.
  unfold update_table. destruct d as [v s dv tb ss]. cbn.
  destruct (String.eqb t "division_states"); [now rewrite mark_row_nil|].
  destruct (String.eqb t "table_states"); [now rewrite mark_row_nil|].
  reflexivity.
Qed.

Lemma batch_ids_keyless (pk : string) (batch : list Row) (ids : list Value) :
  (forall rec, rec ∈ batch -> rec !! pk = None) ->
  batch_ids pk batch = Some ids -> ids = [].
Proof.
  intros Hk H. unfold batch_ids in H. apply mapM_Some_1 in H.
  destruct H as [|rec x batch' ids' Hx _]; [reflexivity|].
  rewrite (Hk rec) in Hx by apply list_elem_of_here. discriminate.
Qed.

(** When no record carries the key column, the loop never changes the
    local store: building [ids] raises for every batch. *)
Lemma upload_loop_keyless (tn : string) (tf : Row -> option Row)
    (mt : option string) (batches : list (list Row)) :
  (forall batch rec pk, batch ∈ batches -> rec ∈ batch -> rec !! pk = None
                        \/ forall t, pk_col_of t <> Some pk) ->
  forall m total m' out,
  upload_loop tn tf mt batches m total = (m', out) ->
  local_db m' = local_db m.
Proof.
  induction batches as [|batch rest IH]; intros Hk m total m' out H; cbn in H.
  - now injection H as <- <-.
  - destruct (upload_batch tn tf mt batch m total) as [m1 out1] eqn:Hb.
    assert (H1 : local_db m1 = local_db m).
    { destruct (upload_batch_cases _ _ _ _ _ _ _ _ Hb)
        as [(_ & -> & _) | (dicts & ok & total' & _ & _ & _ & _ & _ & Hdb)];
        [reflexivity|].
      destruct Hdb as [Hsame | (_ & t & pk & ids & _ & Hpk & Hids & Hupd)];
        [assumption|].
      assert (ids = []) as ->.
      { eapply batch_ids_keyless; [|exact Hids]. intros rec Hrec.
        destruct (Hk batch rec pk ltac:(apply list_elem_of_here) Hrec)
          as [Hn | Hn]; [assumption | now destruct (Hn t)]. }
      now rewrite Hupd, update_table_mark_nil. }
    destruct out1 as [total'|].
    + rewrite <- H1. eapply IH; [|exact H].
      intros b rec pk Hb'. apply Hk. now apply list_elem_of_further.
    + now injection H as <- <-.
Qed.

Lemma division_key_not_selected :
  ("division_state_id" ∉ division_states_columns) /\
  ("table_state_id" ∉ division_states_columns) /\
  ("division_state_id" ∉ table_states_columns) /\
  ("table_state_id" ∉ table_states_columns).
Proof.
  unfold division_states_columns, table_states_columns.
  repeat split; intros H;
    repeat (apply elem_of_cons in H; destruct H as [H|H]; [discriminate|]);
    now apply elem_of_nil in H.
Qed.

Lemma pk_col_values (t pk : string) :
  pk_col_of t = Some pk -> pk = "division_state_id" \/ pk = "table_state_id".
Proof.
  unfold pk_col_of.
  destruct (String.eqb t "division_states"); [intros [= <-]; auto|].
  destruct (String.eqb t "table_states"); [intros [= <-]; auto|discriminate].
Qed.

Lemma select_keyless (cols : list string) (w : Row -> bool)
    (table : list Row) (tn : string) (tf : Row -> option Row)
    (mt : option string) (m : Manager) :
  "division_state_id" ∉ cols -> "table_state_id" ∉ cols ->
  local_db (_upload_in_batches (select cols w table) tn tf mt m).1 = local_db m.
Proof.
  intros H1 H2. unfold _upload_in_batches.
  destruct (dry_run m); [reflexivity|].
  destruct (upload_loop _ _ _ _ _ _) as [m' out] eqn:Hl. cbn.
  eapply upload_loop_keyless; [|exact Hl].
  intros batch rec pk Hb Hrec.
  destruct (decide (pk = "division_state_id")) as [->|Hn1];
    [|destruct (decide (pk = "table_state_id")) as [->|Hn2]].
  - left. pose proof (batches_of_elem _ _ _ Hb Hrec) as Hin.
    apply select_elem in Hin. destruct Hin as (r & _ & _ & ->).
    now apply project_lookup_None.
  - left. pose proof (batches_of_elem _ _ _ Hb Hrec) as Hin.
    apply select_elem in Hin. destruct Hin as (r & _ & _ & ->).
    now apply project_lookup_None.
  - right. intros t Ht. apply pk_col_values in Ht. tauto.
Qed.

(** The two event syncs, as written, leave every local row unmarked: the
    rows their queries return have no key column, so marking raises after
    the cloud insert and the batch is counted as an error. *)
Lemma event_syncs_never_mark (cutoff_time : option Z) (m : Manager) :
  local_db (sync_division_states cutoff_time m).1 = local_db m /\
  local_db (sync_table_states cutoff_time m).1 = local_db m.
Proof.
  destruct division_key_not_selected as (Ha & Hb & Hc & Hd).
  split.
  - unfold sync_division_states. cbv zeta.
    destruct (select _ _ _) eqn:Hs; [reflexivity|]. rewrite <- Hs.
    pose proof (select_keyless division_states_columns
                  (division_states_where cutoff_time)
                  (division_states (local_db m)) "ASE_division_states"
                  _transform_division_state (Some "division_states") m Ha Hb)
      as Hk.
    destruct (_upload_in_batches _ _ _ _ m) as [m' [n|]]; exact Hk.
  - unfold sync_table_states. cbv zeta.
    destruct (select _ _ _) eqn:Hs; [reflexivity|]. rewrite <- Hs.
    pose proof (select_keyless table_states_columns
                  (table_states_where cutoff_time)
                  (table_states (local_db m)) "ASE_table_states"
                  _transform_table_state (Some "table_states") m Hc Hd)
      as Hk.
    destruct (_upload_in_batches _ _ _ _ m) as [m' [n|]]; exact Hk.
Qed.

(** Without a table to mark, the loop leaves the local store alone. *)
Lemma upload_loop_no_table (tn : string) (tf : Row -> option Row)
    (batches : list (list Row)) :
  forall m total m' out,
  upload_loop tn tf None batches m total = (m', out) ->
  local_db m' = local_db m.
Proof.
  induction batches as [|batch rest IH]; intros m total m' out H; cbn in H.
  - now injection H as <- <-.
  - destruct (upload_batch tn tf None batch m total) as [m1 out1] eqn:Hb.
    assert (H1 : local_db m1 = local_db m).
    { destruct (upload_batch_cases _ _ _ _ _ _ _ _ Hb)
        as [(_ & -> & _) | (dicts & ok & total' & _ & _ & _ & _ & _ & Hdb)];
        [reflexivity|].
      destruct Hdb as [Hsame | (_ & t & pk & ids & Ht & _)];
        [assumption | discriminate]. }
    destruct out1 as [total'|].
    + rewrite <- H1. eapply IH. exact H.
    + now injection H as <- <-.
Qed.

Lemma session_syncs_keep_store (cutoff_time : option Z) (m : Manager) :
  local_db (sync_videos cutoff_time m).1 = local_db m /\
  local_db (sync_sessions cutoff_time m).1 = local_db m.
Proof.
  split.
  - unfold sync_videos, _upload_in_batches. cbv zeta.
    destruct (select _ _ _) eqn:Hs; [reflexivity|]. rewrite <- Hs.
    destruct (dry_run m); [reflexivity|].
    destruct (upload_loop _ _ _ _ _ _) as [m' [n|]] eqn:Hl;
      apply upload_loop_no_table in Hl; exact Hl.
  - unfold sync_sessions, _upload_in_batches. cbv zeta.
    destruct (select _ _ _) eqn:Hs; [reflexivity|]. rewrite <- Hs.
    destruct (dry_run m); [reflexivity|].
    destruct (upload_loop _ _ _ _ _ _) as [m' [n|]] eqn:Hl;
      apply upload_loop_no_table in Hl; exact Hl.
Qed.

(** A whole hourly run changes the two event tables by its pruning pass
    alone, and a full run leaves them as they were. *)
Lemma replication_run_retention_floor (now now_cleanup now_log : Z)
    (m : Manager) :
  let d := local_db m in
  let hourly := local_db (sync_hourly now now_cleanup now_log m).1 in
  let full := local_db (sync_full now_log m).1 in
  retention_floor 24 now_cleanup (division_states d) (division_states hourly) /\
  retention_floor 24 now_cleanup (table_states d) (table_states hourly) /\
  division_states full = division_states d /\
  table_states full = table_states d.
Proof.
  cbv zeta. unfold sync_hourly, sync_full, and_then.
  split; [|split; [|split]].
  all: match goal with |- context [sync_videos ?c ?m0] =>
         pose proof (proj1 (session_syncs_keep_store c m0)) as H1;
         destruct (sync_videos c m0) as [m1 [[]|]]; cbn [fst] in *;
         [|rewrite H1; try apply retention_floor_refl; reflexivity];
         pose proof (proj2 (session_syncs_keep_store c m1)) as H2;
         destruct (sync_sessions c m1) as [m2 [[]|]]; cbn [fst] in *;
         [|rewrite H2, H1; try apply retention_floor_refl; reflexivity];
         pose proof (proj1 (event_syncs_never_mark c m2)) as H3;
         destruct (sync_division_states c m2) as [m3 [[]|]]; cbn [fst] in *;
         [|rewrite H3, H2, H1; try apply retention_floor_refl; reflexivity];
         pose proof (proj2 (event_syncs_never_mark c m3)) as H4;
         destruct (sync_table_states c m3) as [m4 [[]|]]; cbn [fst] in *;
         [|rewrite H4, H3, H2, H1; try apply retention_floor_refl; reflexivity];
         assert (H5 : local_db m4 = local_db m0) by congruence
       end.
  - unfold log_sync_status, cleanup_synced_data. rewrite <- H5.
    destruct (dry_run m4) eqn:Hd; cbn; rewrite ?Hd; cbn;
      [apply retention_floor_refl | apply delete_where_retention_floor].
  - unfold log_sync_status, cleanup_synced_data. rewrite <- H5.
    destruct (dry_run m4) eqn:Hd; cbn; rewrite ?Hd; cbn;
      [apply retention_floor_refl | apply delete_where_retention_floor].
  - unfold log_sync_status. rewrite <- H5. now destruct (dry_run m4).
  - unfold log_sync_status. rewrite <- H5. now destruct (dry_run m4).
Qed.

(** A run of the division sync on the sample store: the cloud receives
    the two unsynced rows, the local flags stay as they were, and the
    batch is counted as an error. *)
Example division_sync_on_sample :
  let res := sync_division_states None events_manager in
  flags (division_states (local_db res.1))
    = [Some (VInt 0); Some (VInt 0); Some (VInt 1)] /\
  length (uploaded (requests (supabase res.1))) = 2%nat /\
  req_accepted <$> requests (supabase res.1) = [true] /\
  errors (stats res.1) = 1 /\ division_states_synced (stats res.1) = 0.
Proof. vm_compute. repeat split. Qed.

End SyncFacts.

Module ServiceFacts.
Import Service.

(** ** Window membership *)

Lemma capture_window_test (w : CaptureWindow) (now : Clock) :
  (start_hour w * 60 + start_minute w <=? hour now * 60 + minute now)
  && (hour now * 60 + minute now <? end_hour w * 60 + end_minute w) = true
  <-> start_total w <= minutes_of now < end_total w.
Proof.
  unfold start_total, end_total, minutes_of.
  rewrite andb_true_iff, Z.leb_le, Z.ltb_lt. tauto.
Qed.

Lemma is_in_capture_window_spec (windows : list CaptureWindow) (now : Clock) :
  let r := is_in_capture_window windows now in
  (r.1 = true <->
   exists w, w ∈ windows /\ start_total w <= minutes_of now < end_total w) /\
  (forall w, r.2 = Some w ->
     r.1 = true /\ w ∈ windows /\ start_total w <= minutes_of now < end_total w) /\
  (r.1 = false -> r.2 = None).
Proof.
  induction windows as [|w0 rest IH]; cbn.
  - split; [|split]; try discriminate; auto.
    split; [discriminate|]. intros (w & Hw & _). now apply elem_of_nil in Hw.
  - destruct ((start_hour w0 * 60 + start_minute w0 <=? hour now * 60 + minute now)
              && (hour now * 60 + minute now <? end_hour w0 * 60 + end_minute w0))
      eqn:E.
    + apply capture_window_test in E. cbn. split; [|split].
      * split; [|reflexivity]. intros _. exists w0.
        split; [apply list_elem_of_here | assumption].
      * intros w [= <-]. split; [reflexivity|].
        split; [apply list_elem_of_here | assumption].
      * discriminate.
    + assert (Hn : ~ (start_total w0 <= minutes_of now < end_total w0)).
      { intros H. apply capture_window_test in H. congruence. }
      cbv zeta in IH. destruct IH as (IH1 & IH2 & IH3).
      split; [|split].
      * rewrite IH1. split.
        -- intros (w & Hw & Hin). exists w.
           split; [now apply list_elem_of_further | assumption].
        -- intros (w & Hw & Hin). apply elem_of_cons in Hw.
           destruct Hw as [-> | Hw]; [contradiction | eauto].
      * intros w Hw. destruct (IH2 w Hw) as (H1 & H2 & H3).
        split; [assumption|]. split; [now apply list_elem_of_further | assumption].
      * assumption.
Qed.

Lemma is_in_time_window_spec (start_hour_ end_hour_ : Z) (now : Clock) :
  (start_hour_ < end_hour_ ->
   (is_in_time_window start_hour_ end_hour_ now = true <->
    start_hour_ <= hour now <= end_hour_)) /\
  (end_hour_ <= start_hour_ ->
   (is_in_time_window start_hour_ end_hour_ now = true <->
    start_hour_ <= hour now \/ hour now < end_hour_)).
Proof.
  unfold is_in_time_window. cbv zeta.
  destruct (Z.ltb_spec start_hour_ end_hour_); split; intros Hord;
    try (exfalso; lia).
  - rewrite andb_true_iff, !Z.leb_le. tauto.
  - rewrite orb_true_iff, Z.leb_le, Z.ltb_lt. tauto.
Qed.

Lemma is_in_capture_window_first (windows : list CaptureWindow) (now : Clock)
    (w : CaptureWindow) :
  (is_in_capture_window windows now).2 = Some w ->
  exists before after,
    windows = before ++ w :: after /\
    Forall (fun w' => ~ (start_total w' <= minutes_of now < end_total w'))
           before.
Proof.
  induction windows as [|w0 rest IH]; cbn; [discriminate|].
  destruct ((start_hour w0 * 60 + start_minute w0 <=? hour now * 60 + minute now)
            && (hour now * 60 + minute now <? end_hour w0 * 60 + end_minute w0))
    eqn:E.
  - cbn. intros [= <-]. exists [], rest. split; [reflexivity | constructor].
  - intros Hw. destruct (IH Hw) as (before & after & -> & Hbefore).
    exists (w0 :: before), after. split; [reflexivity|].
    constructor; [|exact Hbefore].
    intros H. apply capture_window_test in H. congruence.
Qed.

(** C5 (amended).  A capture window is reported active exactly when
    [start <= now < end] in minutes since midnight, and the window
    returned with the answer is the first such window of the
    configuration: every window listed before it does not contain
    [now].  The processing window is tested
    on the hour alone and includes its end hour: for
    [start_hour < end_hour] it is active exactly when
    [start_hour <= hour <= end_hour]; otherwise (a window over midnight)
    exactly when [hour >= start_hour] or [hour < end_hour]. *)
Theorem window_membership :
  (forall windows now,
     let r := is_in_capture_window windows now in
     (r.1 = true <->
      exists w, w ∈ windows /\ start_total w <= minutes_of now < end_total w) /\
     (forall w, r.2 = Some w ->
        r.1 = true /\ w ∈ windows /\
        start_total w <= minutes_of now < end_total w) /\
     (forall w, r.2 = Some w ->
        exists before after,
          windows = before ++ w :: after /\
          Forall (fun w' =>
                    ~ (start_total w' <= minutes_of now < end_total w'))
                 before) /\
     (r.1 = true -> is_Some r.2) /\
     (r.1 = false -> r.2 = None)) /\
  (forall w now,
     is_in_capture_window [w] now = (true, Some w) <->
     start_total w <= minutes_of now < end_total w) /\
  (forall start_hour_ end_hour_ now,
     (start_hour_ < end_hour_ ->
      (is_in_time_window start_hour_ end_hour_ now = true <->
       start_hour_ <= hour now <= end_hour_)) /\
     (end_hour_ <= start_hour_ ->
      (is_in_time_window start_hour_ end_hour_ now = true <->
       start_hour_ <= hour now \/ hour now < end_hour_))).
Proof.
  split.
  { intros windows now.
    destruct (is_in_capture_window_spec windows now) as (H1 & H2 & H3).
    cbv zeta in *. split; [exact H1|]. split; [exact H2|].
    split; [intros w; apply is_in_capture_window_first|].
    split; [|exact H3].
    clear. induction windows as [|w0 rest IH]; cbn; [discriminate|].
    destruct (_ && _); [cbn; eauto | exact IH]. }
  split; [|exact is_in_time_window_spec].
  intros w now. cbn.
  destruct ((start_hour w * 60 + start_minute w <=? hour now * 60 + minute now)
            && (hour now * 60 + minute now <? end_hour w * 60 + end_minute w))
    eqn:E.
  - apply capture_window_test in E. tauto.
  - split; [discriminate|]. intros H. apply capture_window_test in H. congruence.
Qed.

(** The default capture windows at their edges: 11:30:00 and 13:59:59 are
    inside the first window, 14:00:00 is outside every window. *)
Example default_windows_edges :
  is_in_capture_window default_capture_windows (mkClock 11 30 0)
    = (true, Some (mkCaptureWindow 11 30 14 0)) /\
  is_in_capture_window default_capture_windows (mkClock 13 59 59)
    = (true, Some (mkCaptureWindow 11 30 14 0)) /\
  is_in_capture_window default_capture_windows (mkClock 14 0 0) = (false, None) /\
  is_in_capture_window default_capture_windows (mkClock 11 29 59) = (false, None).
Proof. repeat split. Qed.

(** C5 as stated fails for the processing window: with the default
    window 0 to 23, at 23:30 the window is still reported active. *)
Lemma processing_window_includes_end_hour :
  ~ processing_window_half_open.
Proof.
  intros H.
  specialize (H 0 23 (mkClock 23 30 0)).
  assert (Hv : valid_clock (mkClock 23 30 0)) by (unfold valid_clock; cbn; lia).
  destruct (H Hv) as [H1 _].
  assert (Hin : is_in_time_window 0 23 (mkClock 23 30 0) = true) by reflexivity.
  specialize (H1 Hin). unfold minutes_of in H1. cbn in H1. lia.
Qed.

(** ** Start-up guard *)

(** C10.  When the PID file exists and signal 0 to the recorded pid
    raises [OSError], [start] deletes the file and then creates it anew
    with its own pid (these two operations on the file, in this order,
    and no other), and launches; it returns "already running" only when
    the PID file exists and signal 0 to the recorded pid was delivered;
    and it deletes the file in no other case: a launch that unlinked the
    file started from a PID file whose pid answered signal 0 with
    [OSError]. *)
Theorem stale_pid_file_is_replaced (parse_pid : string -> option Z) (h : Host) :
  (forall content old_pid,
     pid_file h = Some content -> parse_pid content = Some old_pid ->
     kill0 h old_pid = RaisedOSError ->
     exists h',
       start parse_pid h = Launched h' /\
       file_ops h'
         = file_ops h ++ [UnlinkFile; WriteFile true (py_str_int (getpid h))] /\
       pid_file h' = Some (py_str_int (getpid h)) /\
       kill0 h' = kill0 h /\ getpid h' = getpid h) /\
  (forall old_pid,
     start parse_pid h = AlreadyRunning old_pid ->
     exists content,
       pid_file h = Some content /\ parse_pid content = Some old_pid /\
       kill0 h old_pid = Delivered) /\
  (forall h',
     start parse_pid h = Launched h' ->
     exists ops,
       file_ops h' = file_ops h ++ ops /\
       (UnlinkFile ∈ ops ->
        exists content old_pid,
          pid_file h = Some content /\ parse_pid content = Some old_pid /\
          kill0 h old_pid = RaisedOSError)).
Proof.
  split; [|split].
  - intros content old_pid Hf Hp Hk. unfold start. rewrite Hf, Hp, Hk.
    eexists. split; [reflexivity|].
    unfold write_pid_file, unlink_pid_file. cbn.
    rewrite <- app_assoc. repeat split.
  - intros old_pid. unfold start.
    destruct (pid_file h) as [content|]; [|discriminate].
    destruct (parse_pid content) as [pid|] eqn:Hp; [|discriminate].
    destruct (kill0 h pid) eqn:Hk; try discriminate.
    intros [= <-]. exists content. auto.
  - intros h'. unfold start.
    destruct (pid_file h) as [content|] eqn:Hf.
    + destruct (parse_pid content) as [pid|] eqn:Hp; [|discriminate].
      destruct (kill0 h pid) eqn:Hk; try discriminate.
      intros [= <-]. eexists. split.
      * unfold write_pid_file, unlink_pid_file. cbn.
        rewrite <- app_assoc. reflexivity.
      * intros _. exists content, pid. auto.
    + intros [= <-]. eexists. split; [reflexivity|].
      intros Hin. exfalso. unfold write_pid_file in Hin. cbn in Hin.
      apply list_elem_of_singleton in Hin. discriminate.
Qed.

Lemma stale_pid_file_is_replaced_witness :
  (exists h',
     start decimal_pid stale_host = Launched h' /\
     file_ops h' = [UnlinkFile; WriteFile true "5000"] /\
     pid_file h' = Some "5000") /\
  start decimal_pid busy_host = AlreadyRunning 4242.
Proof.
  split.
  - destruct (proj1 (stale_pid_file_is_replaced decimal_pid stale_host)
                    (String.append "4242" newline_) 4242)
      as (h' & Hs & Hops & Hf & _); try reflexivity.
    exists h'. auto.
  - reflexivity.
Defined.

End ServiceFacts.

Module CaptureFacts.
Import Capture.

Lemma ffmpeg_cmd_t (self : Recorder) (output_path : string) :
  option_value "-t" (ffmpeg_cmd self output_path)
  = Some (py_str_int (segment_duration self)).
Proof. reflexivity. Qed.

(** Whatever remains of the session, every subprocess the loop starts is
    told to stop after the full segment length. *)
Lemma recording_loop_configured (duration_seconds : Z) (its : list Iteration) :
  forall self self' segs,
  recording_loop duration_seconds its self = (self', segs) ->
  Forall (fun seg => configured_seconds seg
                     = Some (py_str_int (segment_duration self))) segs.
Proof.
  induction its as [|it rest IH]; intros self self' segs H; cbn in H.
  - injection H as <- <-. constructor.
  - destruct (it_is_capturing it); cbn in H; [|injection H as <- <-; constructor].
    destruct (Qle_bool _ _); [injection H as <- <-; constructor|].
    destruct (it_popen_ok it); [|injection H as <- <-; constructor].
    destruct (_wait_for_segment _ _) as [self2 success] eqn:Hw.
    destruct (recording_loop _ rest _) as [self3 segs'] eqn:Hr.
    injection H as <- <-.
    assert (Hsd : segment_duration (next_segment self2) = segment_duration self).
    { unfold _wait_for_segment in Hw.
      destruct (it_return_code it) as [[| |]|]; injection Hw as <- <-; reflexivity. }
    constructor.
    + reflexivity.
    + rewrite <- Hsd. eapply IH. exact Hr.
Qed.

(** C3 at a session of 90 s recorded in segments of 60 s: when the second
    segment starts 30 s remain and the loop computes
    [min(60, 30) = 30], yet the subprocess is started with [-t 60]. *)
Theorem final_segment_not_capped :
  exists first last_,
    (recording_loop 90 ninety_seconds camera_35).2 = [first; last_] /\
    (seg_remaining_duration last_ == 30)%Q /\
    (seg_current_segment_duration last_ == 30)%Q /\
    configured_seconds last_ = Some "60" /\
    configured_seconds first = Some "60".
Proof.
  eexists. eexists. split; [vm_compute; reflexivity|].
  repeat split; vm_compute; reflexivity.
Qed.

End CaptureFacts.

Lemma Qltb_true (a b : Q) : Qltb a b = true <-> (a < b)%Q.
Proof.
  unfold Qltb. rewrite negb_true_iff. split.
  - intros H. apply Qnot_le_lt. intros Hle.
    apply Qle_bool_iff in Hle. congruence.
  - intros H. destruct (Qle_bool b a) eqn:E; [|reflexivity].
    apply Qle_bool_iff in E. exfalso. eapply Qlt_not_le; eassumption.
Qed.

Lemma Qltb_false (a b : Q) : Qltb a b = false <-> (b <= a)%Q.
Proof.
  unfold Qltb. rewrite negb_false_iff. apply Qle_bool_iff.
Qed.

Module OrchestratorFacts.
Import Orchestrator.

(** ** The "already processed" exit code *)

(** The runner exits with code 2 on a segment that already has a session. *)
Lemma duplicate_exits_2 (sessions : list (string * string))
    (camera_id_ video_filename : string) :
  In (camera_id_, video_filename) sessions ->
  duplicate_check sessions camera_id_ video_filename = Some 2.
Proof.
  intros Hin. unfold duplicate_check.
  assert (H : existsb (fun s => String.eqb s.1 camera_id_
                                && String.eqb s.2 video_filename) sessions = true).
  { apply existsb_exists. exists (camera_id_, video_filename).
    split; [assumption|]. cbn. now rewrite !String.eqb_refl. }
  now rewrite H.
Qed.

(** C4 on the code.  When the runner returns exit code 2 the dispatcher
    takes the same branch as for any non-zero code: the job is logged as
    FAILED at error level, [jobs_failed] grows by one, [jobs_completed]
    does not, and [process_job] returns [False].  The job is not put back
    on the queue. *)
Theorem exit_code_2_counted_as_failure (job : ProcessingJob) (stderr : string)
    (elapsed : Q) (q : ProcessingQueue) :
  let res := process_job job (Completed 2 stderr) elapsed q in
  res.2 = false /\
  jobs_failed res.1 = jobs_failed q + 1 /\
  jobs_completed res.1 = jobs_completed q /\
  job_queue res.1 = job_queue q /\
  logged res.1 = logged q ++
    [mkLogRecord INFO (camera_id job) "START" (video_name job);
     mkLogRecord ERROR (camera_id job) "FAILED" (video_name job);
     mkLogRecord ERROR (camera_id job) "Error output" (video_name job)].
Proof.
  cbn. repeat split. now rewrite <- !app_assoc.
Qed.

(** The same on a worker with one queued segment that already has a
    session: after the pass the queue is empty (no retry) and the job is
    counted among the failures. *)
Example duplicate_segment_pass :
  duplicate_check [("camera_35", "camera_35_20251022_195212.mp4")]
                  (camera_id job_35) (video_name job_35) = Some 2 /\
  let res := worker_pass 0 (Completed 2 "already processed") 1
                         (idle_queue [job_35]) in
  job_queue res.1 = [] /\ jobs_failed res.1 = 1 /\ jobs_completed res.1 = 0.
Proof. vm_compute. repeat split. Qed.

(** ** Scaling decisions *)

Lemma should_scale_up_spec (self : Monitor) (now : Q) (mt : Metrics)
    (workers : Z) :
  should_scale_up self now (Some mt) workers = true <->
  temperature mt < 70 /\ gpu_utilization mt < 70 /\
  (2 < memory_free_gb mt)%Q /\
  (60 <= now - last_scale_time self)%Q /\
  workers < max_workers self.
Proof.
  unfold should_scale_up, TEMP_SCALE_UP_THRESHOLD, GPU_UTIL_SCALE_UP_THRESHOLD,
    MIN_MEMORY_FREE_GB, SCALE_COOLDOWN_SECONDS.
  destruct (Z.leb_spec (max_workers self) workers).
  { split; [discriminate | lia]. }
  destruct (Qltb (now - last_scale_time self) 60) eqn:Hcool.
  { apply Qltb_true in Hcool. split; [discriminate|].
    intros (_ & _ & _ & Hc & _). exfalso. eapply Qlt_not_le; eassumption. }
  apply Qltb_false in Hcool.
  rewrite !andb_true_iff, !Z.ltb_lt, Qltb_true. tauto.
Qed.

Lemma scale_up_not_preempted (self : Monitor) (mt : Metrics) (workers : Z) :
  temperature mt < 70 -> gpu_utilization mt < 70 ->
  (2 < memory_free_gb mt)%Q ->
  is_emergency self (Some mt) = false /\
  should_scale_down self (Some mt) workers = false.
Proof.
  intros Ht Hu Hf.
  unfold is_emergency, should_scale_down, TEMP_EMERGENCY_THRESHOLD,
    TEMP_SCALE_DOWN_THRESHOLD, GPU_UTIL_SCALE_DOWN_THRESHOLD.
  split; [apply Z.leb_gt; lia|].
  destruct (workers <=? min_workers self); [reflexivity|].
  rewrite !orb_false_iff. repeat split.
  - apply Z.ltb_ge. lia.
  - apply Z.ltb_ge. lia.
  - apply Qltb_false. lra.
Qed.

(** C6 (amended).  The monitor takes the SCALE_UP branch exactly when
    temperature < 70, utilization < 70, free memory is strictly above
    2 GB, at least 60 s have passed since the last scaling action, and the
    worker count is below the maximum. *)
Theorem scale_up_iff_strictly_above_2gb :
  scale_up_rule (fun free => (2 < free)%Q).
Proof.
  intros self now mt workers. rewrite <- should_scale_up_spec.
  unfold monitoring_decision. split.
  - destruct (is_emergency _ _); [discriminate|].
    destruct (should_scale_down _ _ _); [discriminate|].
    destruct (should_scale_up _ _ _ _); [reflexivity | discriminate].
  - intros H. pose proof H as H'. apply should_scale_up_spec in H'.
    destruct H' as (Ht & Hu & Hf & _).
    destruct (scale_up_not_preempted self mt workers Ht Hu Hf) as [-> ->].
    now rewrite H.
Qed.

(** The cooldown on a favourable sample repeated at 0 s, 29 s and 60 s
    after the first worker was added: 1, 1, then 2 workers.  An
    over-temperature sample shrinks six workers to the minimum at once. *)
Example cooldown_and_emergency :
  let favourable := Some (mkMetrics 65 50 3) in
  let q0 := idle_queue [] in
  let q1 := monitoring_pass 0 favourable q0 in
  let q2 := monitoring_pass 29 favourable q1 in
  let q3 := monitoring_pass 60 favourable q2 in
  (current_worker_count q1, current_worker_count q2, current_worker_count q3)
    = (1, 1, 2) /\
  current_worker_count
    (monitoring_pass 500 (Some (mkMetrics 81 40 5))
       (mkProcessingQueue (mkMonitor 1 8 0) 6 [] 0 0 0 [])) = 1.
Proof. vm_compute. split; reflexivity. Qed.

(** C6 as stated fails: with exactly 2 GB free and every other condition
    met, the monitor holds. *)
Lemma exactly_2gb_holds :
  ~ scale_up_rule (fun free => (2 <= free)%Q).
Proof.
  intros Hrule.
  specialize (Hrule (mkMonitor 1 8 0) 100%Q (mkMetrics 65 50 2) 1).
  destruct Hrule as [_ Hrule].
  assert (H : monitoring_decision (mkMonitor 1 8 0) 100 (Some (mkMetrics 65 50 2)) 1
              = SCALE_UP).
  { apply Hrule. cbn. repeat split; try lia; try lra. }
  vm_compute in H. discriminate.
Qed.

(** ** Video discovery *)

Lemma insert_by_elem (key : string -> string) (x v : string) (l : list string) :
  v ∈ insert_by key x l <-> v = x \/ v ∈ l.
Proof.
  induction l as [|y l IH]; cbn.
  - rewrite list_elem_of_singleton, elem_of_nil. tauto.
  - destruct (String.ltb (key x) (key y)).
    + rewrite !elem_of_cons. tauto.
    + rewrite !elem_of_cons, IH. tauto.
Qed.

Lemma sort_by_elem (key : string -> string) (v : string) (l : list string) :
  v ∈ sort_by key l <-> v ∈ l.
Proof.
  unfold sort_by.
  assert (H : forall acc, v ∈ fold_left (fun acc x => insert_by key x acc) l acc
                          <-> v ∈ acc \/ v ∈ l).
  { induction l as [|x l IH]; intros acc; cbn.
    - rewrite elem_of_nil. tauto.
    - rewrite IH, insert_by_elem, elem_of_cons. tauto. }
  rewrite H, elem_of_nil. tauto.
Qed.

Lemma file_under_emitted (cam path v : string)
    (acc : gmap string (list string)) :
  emitted (file_under cam path acc) v <-> emitted acc v \/ v = path.
Proof.
  unfold emitted, file_under. split.
  - intros (c & l & Hl & Hv).
    destruct (decide (cam = c)) as [->|Hne].
    + rewrite lookup_insert_eq in Hl. injection Hl as <-.
      apply elem_of_app in Hv. destruct Hv as [Hv | Hv].
      * left. exists c. destruct (acc !! c) as [l0|] eqn:E.
        -- exists l0. auto.
        -- cbn in Hv. now apply elem_of_nil in Hv.
      * right. now apply list_elem_of_singleton in Hv.
    + rewrite lookup_insert_ne in Hl by assumption. left. eauto.
  - intros [(c & l & Hl & Hv) | ->].
    + destruct (decide (cam = c)) as [->|Hne].
      * eexists c, _. rewrite lookup_insert_eq. split; [reflexivity|].
        rewrite Hl. cbn. apply elem_of_app. auto.
      * exists c, l. rewrite lookup_insert_ne by assumption. auto.
    + eexists cam, _. rewrite lookup_insert_eq. split; [reflexivity|].
      apply elem_of_app. right. apply list_elem_of_here.
Qed.

(** A path is emitted exactly when it is the path of a file found on disk
    that passes every filter of the loop body. *)
Lemma discover_videos_emitted (found : list (list string))
    (camera_filter : option (list string)) (logger : bool)
    (db_processed : gset string) (today v : string) :
  emitted (discover_videos true found camera_filter logger db_processed today) v
  <->
  exists video_file,
    video_file ∈ found /\ path_str video_file = v /\
    is_Some (admit_video camera_filter (if logger then db_processed else ∅)
                         today video_file).
Proof.
  unfold discover_videos. cbn [negb]. cbv zeta.
  set (processed := if logger then db_processed else ∅).
  set (step := fun acc video_file =>
         match admit_video camera_filter processed today video_file with
         | Some camera_id_ => file_under camera_id_ (path_str video_file) acc
         | None => acc
         end).
  assert (Hfold : forall acc,
            emitted (fold_left step found acc) v <->
            emitted acc v \/
            exists video_file, video_file ∈ found /\ path_str video_file = v /\
              is_Some (admit_video camera_filter processed today video_file)).
  { induction found as [|f found IH]; intros acc; cbn [fold_left].
    - split; [auto|]. intros [H | (f & Hf & _)]; [assumption|].
      now apply elem_of_nil in Hf.
    - rewrite IH. unfold step.
      destruct (admit_video camera_filter processed today f) as [cam|] eqn:Ha.
      + rewrite file_under_emitted. split.
        * intros [[H | ->] | (g & Hg & Hv & Hs)]; [auto| |].
          -- right. exists f. rewrite Ha. split; [apply list_elem_of_here|].
             split; [reflexivity | eauto].
          -- right. exists g. split; [now apply list_elem_of_further | auto].
        * intros [H | (g & Hg & Hv & Hs)]; [auto|].
          apply elem_of_cons in Hg. destruct Hg as [-> | Hg].
          -- left. right. now symmetry.
          -- right. eauto.
      + split.
        * intros [H | (g & Hg & Hv & Hs)]; [auto|].
          right. exists g. split; [now apply list_elem_of_further | auto].
        * intros [H | (g & Hg & Hv & Hs)]; [auto|].
          apply elem_of_cons in Hg. destruct Hg as [-> | Hg].
          -- rewrite Ha in Hs. now destruct Hs.
          -- right. eauto. }
  assert (Hsort : forall m : gmap string (list string),
            emitted (sort_by (fun v0 => extract_timestamp (basename v0)) <$> m) v
            <-> emitted m v).
  { intros m. unfold emitted. split.
    - intros (c & l & Hl & Hv). rewrite lookup_fmap in Hl.
      destruct (m !! c) as [l0|] eqn:E; [|discriminate].
      injection Hl as <-. apply sort_by_elem in Hv. eauto.
    - intros (c & l & Hl & Hv). eexists c, _. rewrite lookup_fmap, Hl.
      split; [reflexivity|]. now apply sort_by_elem. }
  rewrite Hsort, Hfold. split.
  - intros [(c & l & Hl & _) | H]; [|assumption].
    rewrite lookup_empty in Hl. discriminate.
  - auto.
Qed.

(** A file that passes the filters has a date, and that date differs
    from today's; nothing else is asked of the date. *)
Lemma admit_video_date (camera_filter : option (list string))
    (processed : gset string) (today : string) (video_file : list string) :
  is_Some (admit_video camera_filter processed today video_file) ->
  exists d, extract_date_from_path video_file = Some d /\ d <> today.
Proof.
  unfold admit_video. intros [cam H].
  destruct (extract_camera_id _) as [c|]; [|discriminate].
  destruct (match camera_filter with Some (_ :: _) => _ | _ => _ end);
    [discriminate|].
  destruct (bool_decide (extract_date_from_path video_file = Some today)) eqn:E;
    [discriminate|].
  apply bool_decide_eq_false in E.
  destruct (extract_date_from_path video_file) as [d|]; [|discriminate].
  exists d. split; [reflexivity | congruence].
Qed.

(** The part of C8 the code keeps: a segment dated today is never
    emitted. *)
Lemma today_never_emitted (found : list (list string))
    (camera_filter : option (list string)) (logger : bool)
    (db_processed : gset string) (today v : string) :
  emitted (discover_videos true found camera_filter logger db_processed today) v ->
  exists video_file d,
    video_file ∈ found /\ path_str video_file = v /\
    extract_date_from_path video_file = Some d /\ d <> today.
Proof.
  intros H. apply discover_videos_emitted in H.
  destruct H as (f & Hf & Hv & Ha).
  destruct (admit_video_date _ _ _ _ Ha) as (d & Hd & Hne).
  exists f, d. auto.
Qed.

(** The date of a file is the first eight-digit component of its path,
    which need not be the directory that encloses it: under a root that
    has such a component, a segment recorded today is emitted. *)
Example ancestor_component_taken_as_date :
  let video_file :=
    ["srv"; "20200101"; "videos"; "20251116"; "camera_35";
     "camera_35_20251116_120000.mp4"] in
  extract_date_from_path video_file = Some "20200101" /\
  admit_video None ∅ "20251116" video_file = Some "camera_35".
Proof. split; reflexivity. Qed.

(** C8 on the code.  With today = 20251116, a segment under the date
    directory 20251117, which is not earlier than today, is emitted. *)
Theorem later_dated_segment_emitted :
  let video_file := segment_35 "20251117" "120000" in
  extract_date_from_path video_file = Some "20251117" /\
  date_before "20251117" "20251116" = false /\
  emitted (discover_videos true [video_file] None true ∅ "20251116")
          "videos/20251117/camera_35/camera_35_20251117_120000.mp4".
Proof.
  cbv zeta. split; [reflexivity|]. split; [reflexivity|].
  apply discover_videos_emitted. exists (segment_35 "20251117" "120000").
  split; [apply list_elem_of_here|]. split; [reflexivity|].
  vm_compute. eauto.
Qed.

End OrchestratorFacts.

Module BatchWriterFacts.
Import BatchWriter.

Lemma commit_executemany (rows : list Insert) (c : Connection) :
  pending c = [] -> rows <> [] ->
  commit (executemany rows c) = mkConnection [] (committed c ++ [rows]).
Proof.
  intros Hp Hr. unfold commit, executemany. cbn. rewrite Hp. cbn.
  destruct rows; [contradiction | reflexivity].
Qed.

Lemma flush_division_states_nonempty (w : Writer) :
  pending (conn w) = [] -> division_states_buffer w <> [] ->
  flush_division_states w =
  mkWriter (mkConnection [] (committed (conn w)
                             ++ [IntoDivisionStates <$> division_states_buffer w]))
           (batch_size w) [] (table_states_buffer w)
           (total_division_inserts w
            + Z.of_nat (length (division_states_buffer w)))
           (total_table_inserts w) (total_commits w + 1).
Proof.
  intros Hp Hb. unfold flush_division_states.
  destruct (division_states_buffer w) as [|x buf] eqn:E; [contradiction|].
  rewrite commit_executemany by (assumption || discriminate). reflexivity.
Qed.

Lemma flush_table_states_nonempty (w : Writer) :
  pending (conn w) = [] -> table_states_buffer w <> [] ->
  flush_table_states w =
  mkWriter (mkConnection [] (committed (conn w)
                             ++ [IntoTableStates <$> table_states_buffer w]))
           (batch_size w) (division_states_buffer w) []
           (total_division_inserts w)
           (total_table_inserts w + Z.of_nat (length (table_states_buffer w)))
           (total_commits w + 1).
Proof.
  intros Hp Hb. unfold flush_table_states.
  destruct (table_states_buffer w) as [|x buf] eqn:E; [contradiction|].
  rewrite commit_executemany by (assumption || discriminate). reflexivity.
Qed.

Lemma filter_division_of_division (buf : list DivisionTuple) :
  List.filter is_division (IntoDivisionStates <$> buf) = IntoDivisionStates <$> buf.
Proof. induction buf as [|x buf IH]; cbn; [reflexivity | now rewrite IH]. Qed.

Lemma filter_table_of_division (buf : list DivisionTuple) :
  List.filter is_table (IntoDivisionStates <$> buf) = [].
Proof. induction buf as [|x buf IH]; cbn; [reflexivity | exact IH]. Qed.

Lemma filter_table_of_table (buf : list TableTuple) :
  List.filter is_table (IntoTableStates <$> buf) = IntoTableStates <$> buf.
Proof. induction buf as [|x buf IH]; cbn; [reflexivity | now rewrite IH]. Qed.

Lemma filter_division_of_table (buf : list TableTuple) :
  List.filter is_division (IntoTableStates <$> buf) = [].
Proof. induction buf as [|x buf IH]; cbn; [reflexivity | exact IH]. Qed.













(** It also fails after a flush that raised.  With a batch size of 2:
    the second enqueue reaches the threshold, its flush raises and the
    buffer keeps both rows; the third enqueue then commits all three rows
    in one transaction. *)
Example failed_flush_then_oversized_commit :
  let w := add_division_state (test_division_args 2)
             (add_division_state_flush_raises (test_division_args 1)
                (add_division_state (test_division_args 0) (init fresh 2))) in
  length <$> committed (conn w) = [3%nat] /\ batch_size w = 2 /\
  division_states_buffer w = [].
Proof. vm_compute. repeat split. Qed.

(** The self-test of the source: with a batch size of 10, 25 rows of each
    kind followed by [flush_all] are committed as two full transactions
    per kind and then one of 5 rows per kind, six commits in all, and
    nothing stays buffered. *)
Example self_test_commits :
  let w := run test_calls (init fresh 10) in
  length <$> committed (conn w) = [10; 10; 10; 10; 5; 5]%nat /\
  total_commits w = 6 /\
  total_division_inserts w = 25 /\ total_table_inserts w = 25 /\
  division_states_buffer w = [] /\ table_states_buffer w = [].
Proof. vm_compute. repeat split. Qed.

End BatchWriterFacts.

(** ** Facts about texts *)

Lemma append_cons (c : ascii) (s t : string) :
  (String c s ++ t)%string = String c (s ++ t).
Proof. reflexivity. Qed.

Lemma append_nil (t : string) : (EmptyString ++ t)%string = t.
Proof. reflexivity. Qed.

Lemma string_app_assoc (a b c : string) :
  ((a ++ b) ++ c = a ++ (b ++ c))%string.
Proof.
  induction a as [|x a IH]; [reflexivity|].
  rewrite !append_cons. f_equal. exact IH.
Qed.

Lemma match_digits_all (ds rest : string) :
  all_digits ds = true ->
  match_digits (String.length ds) (ds ++ rest) = Some (ds, rest).
Proof.
  induction ds as [|c ds IH]; [reflexivity|].
  intros H. cbn in H. apply andb_true_iff in H as [Hc Hds].
  rewrite append_cons. cbn [String.length match_digits].
  now rewrite Hc, (IH Hds).
Qed.

Lemma match_digits_short (n : nat) (ds : string) (c : ascii) (rest : string) :
  all_digits ds = true -> (String.length ds < n)%nat -> is_digit c = false ->
  match_digits n (ds ++ String c rest) = None.
Proof.
  revert n. induction ds as [|d ds IH]; intros n Hds Hlen Hc; cbn in Hds, Hlen.
  - destruct n as [|n]; [lia|]. rewrite append_nil. cbn. now rewrite Hc.
  - apply andb_true_iff in Hds as [Hd Hds].
    destruct n as [|n]; [lia|]. rewrite append_cons. cbn [match_digits].
    rewrite Hd. now rewrite (IH n Hds ltac:(lia) Hc).
Qed.

Lemma span_digits_all (ds : string) (c : ascii) (rest : string) :
  all_digits ds = true -> is_digit c = false ->
  span_digits (ds ++ String c rest) = (ds, String c rest).
Proof.
  intros Hds Hc. induction ds as [|d ds IH]; cbn in Hds.
  - rewrite append_nil. cbn. now rewrite Hc.
  - apply andb_true_iff in Hds as [Hd Hds].
    rewrite append_cons. cbn [span_digits]. now rewrite Hd, (IH Hds).
Qed.

Lemma ascii_compare_N (a b : ascii) :
  Ascii.compare a b = (N_of_ascii a ?= N_of_ascii b)%N.
Proof. reflexivity. Qed.

Lemma string_compare_cons (a b : ascii) (s t : string) :
  String.compare (String a s) (String b t)
  = match Ascii.compare a b with
    | Eq => String.compare s t
    | c => c
    end.
Proof. cbn. now destruct (Ascii.compare a b). Qed.

Lemma string_compare_refl (s : string) : String.compare s s = Eq.
Proof.
  induction s as [|a s IH]; [reflexivity|].
  rewrite string_compare_cons, ascii_compare_N, N.compare_refl. exact IH.
Qed.

Lemma string_le_trans (a b c : string) :
  String.compare a b <> Gt -> String.compare b c <> Gt ->
  String.compare a c <> Gt.
Proof.
  revert b c. induction a as [|x a IH]; intros [|y b] [|z c];
    cbn [String.compare]; try congruence.
  fold (String.compare a b) (String.compare b c) (String.compare a c).
  change (match Ascii.compare x y with Eq => String.compare a b | c0 => c0 end
          <> Gt ->
          match Ascii.compare y z with Eq => String.compare b c | c0 => c0 end
          <> Gt ->
          match Ascii.compare x z with Eq => String.compare a c | c0 => c0 end
          <> Gt).
  rewrite !ascii_compare_N.
  destruct (N.compare_spec (N_of_ascii x) (N_of_ascii y)) as [Exy|Lxy|Gxy];
    destruct (N.compare_spec (N_of_ascii y) (N_of_ascii z)) as [Eyz|Lyz|Gyz];
    destruct (N.compare_spec (N_of_ascii x) (N_of_ascii z)) as [Exz|Lxz|Gxz];
    try congruence; try lia.
  apply IH.
Qed.

Lemma string_ltb_false_iff (a b : string) :
  String.ltb b a = false <-> String.compare a b <> Gt.
Proof.
  unfold String.ltb. rewrite (String.compare_antisym b a).
  destruct (String.compare a b); cbn; split; congruence.
Qed.

Lemma match_digits_shape (n : nat) (s ds rest : string) :
  match_digits n s = Some (ds, rest) ->
  all_digits ds = true /\ String.length ds = n /\ s = (ds ++ rest)%string.
Proof.
  revert s ds rest. induction n as [|n IH]; intros s ds rest H; cbn in H.
  - injection H as <- <-. auto.
  - destruct s as [|c s]; [discriminate|].
    destruct (is_digit c) eqn:Hc; [|discriminate].
    destruct (match_digits n s) as [[ds' rest']|] eqn:Hm; [|discriminate].
    injection H as <- <-. destruct (IH _ _ _ Hm) as (Ha & Hl & ->).
    cbn. rewrite Hc, Ha, Hl. auto.
Qed.

Lemma digit_not_underscore (c : ascii) :
  is_digit c = true -> Ascii.eqb c "_" = false.
Proof.
  intros H. destruct (Ascii.eqb_spec c "_") as [->|]; [discriminate | reflexivity].
Qed.

Lemma remove_underscores_digits (ds rest : string) :
  all_digits ds = true ->
  remove_underscores (ds ++ rest) = (ds ++ remove_underscores rest)%string.
Proof.
  induction ds as [|c ds IH]; intros H; [reflexivity|].
  cbn in H. apply andb_true_iff in H as [Hc Hds].
  rewrite !append_cons. cbn [remove_underscores].
  now rewrite (digit_not_underscore c Hc), (IH Hds).
Qed.

Lemma all_digits_app (a b : string) :
  all_digits (a ++ b) = all_digits a && all_digits b.
Proof.
  induction a as [|c a IH]; [reflexivity|].
  rewrite append_cons. cbn [all_digits]. now rewrite IH, andb_assoc.
Qed.

Lemma length_append (a b : string) :
  String.length (a ++ b) = (String.length a + String.length b)%nat.
Proof.
  induction a as [|c a IH]; [reflexivity|].
  rewrite append_cons. cbn [String.length]. now rewrite IH.
Qed.

Lemma digit_value (c : ascii) :
  is_digit c = true ->
  0 <= Z.of_nat (nat_of_ascii c) - 48 <= 9 /\
  Z.of_nat (nat_of_ascii c) = Z.of_N (N_of_ascii c).
Proof.
  unfold is_digit. intros H. apply andb_true_iff in H as [H1 H2].
  apply Nat.leb_le in H1, H2. split; [lia|].
  unfold nat_of_ascii. now rewrite N_nat_Z.
Qed.

(** On digit texts of one length, the order of the texts is the order of
    the numbers. *)
Lemma digits_number_compare (a : string) :
  forall b acca accb,
  all_digits a = true -> all_digits b = true ->
  String.length a = String.length b ->
  (digits_number acca a ?= digits_number accb b)
  = match acca ?= accb with
    | Eq => String.compare a b
    | c => c
    end.
Proof.
  induction a as [|x a IH]; intros [|y b] acca accb Ha Hb Hl;
    try discriminate.
  - cbn. now destruct (acca ?= accb).
  - cbn in Ha, Hb, Hl. apply andb_true_iff in Ha as [Hx Ha].
    apply andb_true_iff in Hb as [Hy Hb].
    cbn [digits_number]. rewrite (IH b _ _ Ha Hb ltac:(lia)).
    rewrite string_compare_cons, ascii_compare_N.
    destruct (digit_value x Hx) as [Bx Ex], (digit_value y Hy) as [By Ey].
    rewrite <- N2Z.inj_compare, <- Ex, <- Ey.
    destruct (Z.compare_spec acca accb) as [E|L|G].
    + subst accb.
      destruct (Z.compare_spec (Z.of_nat (nat_of_ascii x))
                               (Z.of_nat (nat_of_ascii y))) as [E'|L'|G'].
      * rewrite E', Z.compare_refl. reflexivity.
      * assert ((acca * 10 + (Z.of_nat (nat_of_ascii x) - 48)
                 ?= acca * 10 + (Z.of_nat (nat_of_ascii y) - 48)) = Lt) as ->
          by (apply Z.compare_lt_iff; lia). reflexivity.
      * assert ((acca * 10 + (Z.of_nat (nat_of_ascii x) - 48)
                 ?= acca * 10 + (Z.of_nat (nat_of_ascii y) - 48)) = Gt) as ->
          by (apply Z.compare_gt_iff; lia). reflexivity.
    + assert ((acca * 10 + (Z.of_nat (nat_of_ascii x) - 48)
               ?= accb * 10 + (Z.of_nat (nat_of_ascii y) - 48)) = Lt) as ->
        by (apply Z.compare_lt_iff; lia). reflexivity.
    + assert ((acca * 10 + (Z.of_nat (nat_of_ascii x) - 48)
               ?= accb * 10 + (Z.of_nat (nat_of_ascii y) - 48)) = Gt) as ->
        by (apply Z.compare_gt_iff; lia). reflexivity.
Qed.

Lemma string_compare_app (a : string) :
  forall b x y, String.length a = String.length b ->
  String.compare (a ++ x) (b ++ y)
  = match String.compare a b with
    | Eq => String.compare x y
    | c => c
    end.
Proof.
  induction a as [|c a IH]; intros [|d b] x y Hl; try discriminate.
  - reflexivity.
  - rewrite !append_cons, !string_compare_cons.
    destruct (Ascii.compare c d); try reflexivity.
    apply IH. cbn in Hl. lia.
Qed.

Lemma digits_number_bound (s : string) :
  forall acc, all_digits s = true -> 0 <= acc ->
  0 <= digits_number acc s < (acc + 1) * 10 ^ Z.of_nat (String.length s).
Proof.
  induction s as [|c s IH]; intros acc Hs Hacc.
  - cbn. lia.
  - cbn in Hs. apply andb_true_iff in Hs as [Hc Hs].
    destruct (digit_value c Hc) as [Bc _].
    cbn [digits_number String.length].
    specialize (IH (acc * 10 + (Z.of_nat (nat_of_ascii c) - 48)) Hs ltac:(lia)).
    rewrite Nat2Z.inj_succ, Z.pow_succ_r by lia.
    assert (0 < 10 ^ Z.of_nat (String.length s)) by (apply Z.pow_pos_nonneg; lia).
    nia.
Qed.

Lemma find_after_misses {A : Type} (f : A -> bool) (l1 l2 : list A) :
  Forall (fun x => f x = false) l1 ->
  List.find f (l1 ++ l2) = List.find f l2.
Proof.
  induction 1 as [|x l Hx _ IH]; [reflexivity|]. cbn. now rewrite Hx.
Qed.

Lemma foldl_failed {A B : Type} (f : B -> A -> option A) (l : list B) :
  foldl (fun acc b => a ← acc; f b a) None l = None.
Proof. induction l as [|b l IH]; [reflexivity | exact IH]. Qed.

Module SyncRunFacts.
Import Sync SyncFacts.

Lemma batch_cover (n : nat) (l : list Row) (m : nat) :
  concat ((fun k => take n (drop (k * n) l)) <$> seq 0 m) = take (m * n) l.
Proof.
  induction m as [|m IH].
  - reflexivity.
  - rewrite seq_S, fmap_app, concat_app, IH. cbn [fmap list_fmap concat].
    rewrite app_nil_r, Nat.add_0_l, take_take_drop. f_equal. lia.
Qed.

Lemma batch_count (len : nat) :
  let m := Nat.div (len + (BATCH_SIZE - 1)) BATCH_SIZE in
  (len <= m * BATCH_SIZE)%nat /\
  (forall k, (k < m)%nat -> (k * BATCH_SIZE < len)%nat).
Proof.
  unfold BATCH_SIZE. cbv zeta.
  pose proof (Nat.div_mod_eq (len + (1000 - 1)) 1000) as E.
  pose proof (Nat.mod_upper_bound (len + (1000 - 1)) 1000 ltac:(lia)) as B.
  set (m := Nat.div (len + (1000 - 1)) 1000) in *.
  set (r := Nat.modulo (len + (1000 - 1)) 1000) in *.
  clearbody m r. split; [lia|]. intros k Hk. nia.
Qed.

Lemma batches_of_fmap (records : list Row) :
  batches_of records
  = (fun k => take BATCH_SIZE (drop (k * BATCH_SIZE) records))
      <$> seq 0 (Nat.div (length records + (BATCH_SIZE - 1)) BATCH_SIZE).
Proof.
  unfold batches_of, batch_starts, batch_at.
  rewrite <- list_fmap_compose. reflexivity.
Qed.

Lemma batches_of_nonempty (records batch : list Row) :
  batch ∈ batches_of records -> batch <> [].
Proof.
  rewrite batches_of_fmap. intros Hb.
  destruct (batch_count (length records)) as [_ Hlow].
  apply list_elem_of_fmap in Hb. destruct Hb as (k & -> & Hk).
  apply elem_of_seq in Hk. specialize (Hlow k ltac:(lia)).
  intros E. apply (f_equal length) in E.
  rewrite length_take, length_drop in E. cbn [length] in E.
  unfold BATCH_SIZE in *. lia.
Qed.

(** [_upload_in_batches] cuts the records into consecutive slices: put
    end to end the batches are the records, no batch is empty, none holds
    more than [BATCH_SIZE] records, and every batch before the last is
    full. *)
Theorem batches_partition_records (records : list Row) :
  concat (batches_of records) = records /\
  Forall (fun batch => (1 <= length batch <= BATCH_SIZE)%nat)
         (batches_of records) /\
  (forall i batch, batches_of records !! i = Some batch ->
     (S i < length (batches_of records))%nat ->
     length batch = BATCH_SIZE).
Proof.
  rewrite batches_of_fmap.
  destruct (batch_count (length records)) as [Hup Hlow].
  set (m := Nat.div (length records + (BATCH_SIZE - 1)) BATCH_SIZE) in *.
  clearbody m. split; [|split].
  - rewrite batch_cover. now apply take_ge.
  - apply Forall_forall. intros batch Hb.
    apply list_elem_of_fmap in Hb. destruct Hb as (k & -> & Hk).
    apply elem_of_seq in Hk. specialize (Hlow k ltac:(lia)).
    rewrite length_take, length_drop. unfold BATCH_SIZE in *. lia.
  - intros i batch Hi Hlt. rewrite length_fmap, length_seq in Hlt.
    rewrite list_lookup_fmap in Hi.
    rewrite lookup_seq_lt in Hi by lia. cbn in Hi. injection Hi as <-.
    specialize (Hlow (S i) Hlt).
    rewrite length_take, length_drop. unfold BATCH_SIZE in *. lia.
Qed.

(** ** Accounting of a batched upload *)

Lemma upload_loop_unmarked (tn : string) (tf : Row -> option Row)
    (batches : list (list Row)) :
  Forall (fun b => is_Some (mapM tf b)) batches ->
  forall m total, exists m' new,
    upload_loop tn tf None batches m total
      = (m', Some (total + length (concat (accepted_batches batches new)))%nat) /\
    requests (supabase m') = requests (supabase m) ++ new /\
    length new = length batches /\
    errors (stats m')
      = errors (stats m)
        + Z.of_nat (length (List.filter (fun r => negb (req_accepted r)) new)) /\
    local_db m' = local_db m.
Proof.
  induction 1 as [|batch rest [dicts Hd] _ IH]; intros m total.
  - exists m, []. cbn. rewrite app_nil_r, Nat.add_0_r, Z.add_0_r. auto.
  - cbn [upload_loop]. unfold upload_batch. rewrite Hd.
    unfold cloud_insert. cbn [truthy_table].
    set (ok := accepts (supabase m) (length (requests (supabase m))) tn dicts).
    destruct ok eqn:Hok.
    + match goal with |- context [upload_loop _ _ _ rest ?m1 ?t1] =>
        destruct (IH m1 t1) as (m' & new & Hl & Hreq & Hlen & Herr & Hdb) end.
      exists m', (mkRequest tn dicts true :: new).
      rewrite Hl, accepted_batches_cons. cbn in *.
      rewrite Hreq, <- app_assoc, length_app.
      repeat split; try congruence; try lia.
      do 2 f_equal. lia.
    + match goal with |- context [upload_loop _ _ _ rest ?m1 ?t1] =>
        destruct (IH m1 t1) as (m' & new & Hl & Hreq & Hlen & Herr & Hdb) end.
      exists m', (mkRequest tn dicts false :: new).
      rewrite Hl, accepted_batches_cons. cbn in *.
      rewrite Hreq, <- app_assoc.
      repeat split; try congruence; try lia.
Qed.

(** A batched upload that marks nothing (sessions, videos), outside
    dry-run and on records that all transform: one insert per batch; the
    count returned is the number of records in the batches the cloud
    accepted, the error counter grows by the number of rejected batches,
    and the local store is not touched. *)
Theorem unmarked_upload_accounting (records : list Row) (table_name : string)
    (transform_fn : Row -> option Row) (m : Manager) :
  dry_run m = false ->
  Forall (fun r => is_Some (transform_fn r)) records ->
  let res := _upload_in_batches records table_name transform_fn None m in
  let new := new_requests m res.1 in
  length new = length (batches_of records) /\
  res.2 = Some (length (concat (accepted_batches (batches_of records) new))) /\
  errors (stats res.1)
    = errors (stats m)
      + Z.of_nat (length (List.filter (fun r => negb (req_accepted r)) new)) /\
  local_db res.1 = local_db m.
Proof.
  intros Hdry HF. cbv zeta. unfold _upload_in_batches. rewrite Hdry.
  destruct (upload_loop_unmarked table_name transform_fn (batches_of records)
              (batches_transformable _ _ HF) m 0%nat)
    as (m' & new & Hl & Hreq & Hlen & Herr & Hdb).
  rewrite Hl. cbn [fst snd].
  rewrite (new_requests_app _ _ _ Hreq). auto.
Qed.

(** ** The rows a query returns always transform *)

Lemma project_lookup_is_Some (cols : list string) (r : Row) (c : string) :
  c ∈ cols -> is_Some (project cols r !! c).
Proof.
  intros Hc. unfold project.
  destruct (list_to_map _ !! c) eqn:E; [eauto|].
  apply not_elem_of_list_to_map_2 in E. exfalso. apply E.
  rewrite <- list_fmap_compose. apply list_elem_of_fmap.
  exists c. split; [reflexivity | assumption].
Qed.

Lemma build_dict_is_Some (keys : list string) (row : Row) :
  Forall (fun k => is_Some (row !! k)) keys -> is_Some (build_dict keys row).
Proof.
  intros HF. unfold build_dict. apply fmap_is_Some, mapM_is_Some_2.
  eapply Forall_impl; [exact HF|]. intros k [v Hv]. cbn. rewrite Hv. eauto.
Qed.

Lemma build_dict_project (keys cols : list string) (r : Row) :
  keys ⊆ cols -> is_Some (build_dict keys (project cols r)).
Proof.
  intros Hsub. apply build_dict_is_Some, Forall_forall.
  intros k Hk. apply project_lookup_is_Some, Hsub, Hk.
Qed.

Lemma transforms_defined (r : Row) :
  is_Some (_transform_video (project videos_columns r)) /\
  is_Some (_transform_session (project sessions_columns r)) /\
  is_Some (_transform_division_state (project division_states_columns r)) /\
  is_Some (_transform_table_state (project table_states_columns r)).
Proof.
  split; [|split; [|split]].
  - unfold _transform_video.
    destruct (build_dict_project
      ["camera_id"; "video_filename"; "video_date"; "start_time"; "end_time";
       "duration_seconds"; "file_size_bytes"; "fps"; "resolution";
       "is_processed"; "storage_location"] videos_columns r) as [d ->].
    { intros k Hk. unfold videos_columns.
      repeat (apply elem_of_cons in Hk as [->|Hk]);
        [ set_solver .. | now apply elem_of_nil in Hk ]. }
    destruct (project_lookup_is_Some videos_columns r "is_processed")
      as [p ->]; [unfold videos_columns; set_solver|].
    cbn. eauto.
  - apply build_dict_project. unfold sessions_columns. set_solver.
  - apply build_dict_project. unfold division_states_columns. set_solver.
  - apply build_dict_project. unfold table_states_columns. set_solver.
Qed.

Lemma select_transformable (cols : list string) (w : Row -> bool)
    (table : list Row) (tf : Row -> option Row) :
  (forall r, is_Some (tf (project cols r))) ->
  Forall (fun rec => is_Some (tf rec)) (select cols w table).
Proof.
  intros H. apply Forall_forall. intros rec Hrec.
  apply select_elem in Hrec. destruct Hrec as (r & _ & _ & ->). apply H.
Qed.

(** ** Event batches: the mark step raises on the rows of the query *)

Lemma batch_ids_first_keyless (pk : string) (batch : list Row) :
  batch <> [] -> (forall rec, rec ∈ batch -> rec !! pk = None) ->
  batch_ids pk batch = None.
Proof.
  intros Hne Hk. destruct batch as [|rec rest]; [congruence|].
  unfold batch_ids. cbn. rewrite (Hk rec); [reflexivity | apply list_elem_of_here].
Qed.

Lemma upload_loop_keyless_errors (tn : string) (tf : Row -> option Row)
    (t pk : string) (batches : list (list Row)) :
  pk_col_of t = Some pk ->
  Forall (fun b => is_Some (mapM tf b) /\ b <> [] /\
                   forall rec, rec ∈ b -> rec !! pk = None) batches ->
  forall m total, exists m' new,
    upload_loop tn tf (Some t) batches m total = (m', Some total) /\
    requests (supabase m') = requests (supabase m) ++ new /\
    Forall2 (fun b req => mapM tf b = Some (req_rows req)) batches new /\
    errors (stats m') = errors (stats m) + Z.of_nat (length batches) /\
    local_db m' = local_db m /\ dry_run m' = dry_run m.
Proof.
  intros Hpk. induction 1 as [|batch rest ([dicts Hd] & Hne & Hk) _ IH];
    intros m total.
  - exists m, []. cbn. rewrite app_nil_r, Z.add_0_r.
    repeat split; auto.
  - cbn [upload_loop]. unfold upload_batch. rewrite Hd.
    unfold cloud_insert. rewrite (pk_col_truthy _ _ Hpk).
    unfold _mark_batch_synced. rewrite Hpk.
    rewrite (batch_ids_first_keyless pk batch Hne Hk). cbn [mbind option_bind].
    set (ok := accepts (supabase m) (length (requests (supabase m))) tn dicts).
    assert (Hstep : forall X Y : Manager * option nat,
              X = Y -> (if ok then X else Y) = Y)
      by (intros X Y ->; now destruct ok).
    rewrite Hstep by reflexivity. clear Hstep.
    match goal with |- context [upload_loop _ _ _ rest ?m1 ?t1] =>
      destruct (IH m1 t1) as (m' & new & Hl & Hreq & HF2 & Herr & Hdb & Hdry) end.
    exists m', (mkRequest tn dicts ok :: new).
    rewrite Hl. cbn in *. rewrite Hreq, <- app_assoc.
    repeat split; try congruence; try lia.
    constructor; [exact Hd | exact HF2].
Qed.

Lemma same_batches_same_rows (tf : Row -> option Row)
    (batches : list (list Row)) (new1 new2 : list Request) :
  Forall2 (fun b req => mapM tf b = Some (req_rows req)) batches new1 ->
  Forall2 (fun b req => mapM tf b = Some (req_rows req)) batches new2 ->
  uploaded new1 = uploaded new2.
Proof.
  intros H1. revert new2.
  induction H1 as [|b r1 bs rs1 Hb _ IH]; intros new2 H2;
    inversion H2 as [|? r2 ? rs2 Hb2 Hrest]; subst; [reflexivity|].
  unfold uploaded in *. cbn. f_equal; [congruence | now apply IH].
Qed.

Lemma keyless_batches (cols : list string) (w : Row -> bool)
    (table : list Row) (tf : Row -> option Row) (pk : string) :
  (forall r, is_Some (tf (project cols r))) -> pk ∉ cols ->
  Forall (fun b => is_Some (mapM tf b) /\ b <> [] /\
                   forall rec, rec ∈ b -> rec !! pk = None)
         (batches_of (select cols w table)).
Proof.
  intros Htf Hpk.
  pose proof (batches_transformable tf _ (select_transformable cols w table tf Htf))
    as Hsome.
  rewrite Forall_forall in *. intros b Hb. split; [now apply Hsome|]. split.
  - eapply batches_of_nonempty, Hb.
  - intros rec Hrec. pose proof (batches_of_elem _ _ _ Hb Hrec) as Hin.
    apply select_elem in Hin. destruct Hin as (r & _ & _ & ->).
    now apply project_lookup_None.
Qed.

Lemma sync_event_resent (sync : option Z -> Manager -> Outcome unit)
    (cols : list string) (where_ : option Z -> Row -> bool)
    (table : LocalDb -> list Row) (counter : Stats -> Z)
    (tn t pk : string) (tf : Row -> option Row)
    (put : Stats -> Z -> Stats) :
  pk_col_of t = Some pk -> pk ∉ cols ->
  (forall r, is_Some (tf (project cols r))) ->
  (forall s n, counter (put s n) = n /\ errors (put s n) = errors s) ->
  (forall cutoff_time m,
     sync cutoff_time m =
     match select cols (where_ cutoff_time) (table (local_db m)) with
     | [] => (m, Some tt)
     | _ =>
         match _upload_in_batches
                 (select cols (where_ cutoff_time) (table (local_db m)))
                 tn tf (Some t) m with
         | (m', Some total_uploaded) =>
             (set_stats m' (put (stats m') (Z.of_nat total_uploaded)), Some tt)
         | (m', None) => (m', None)
         end
     end) ->
  resent_every_run sync cols where_ table counter.
Proof.
  intros Hpk Hcols Htf Hput Hsync cutoff_time m Hdry. cbv zeta.
  assert (Hrun : forall m0, dry_run m0 = false -> local_db m0 = local_db m ->
            exists m' new,
              let sel := select cols (where_ cutoff_time) (table (local_db m)) in
              sync cutoff_time m0
                = (if bool_decide (sel = []) then m0
                   else set_stats m' (put (stats m') 0), Some tt) /\
              requests (supabase m') = requests (supabase m0) ++ new /\
              Forall2 (fun b req => mapM tf b = Some (req_rows req))
                      (batches_of sel) new /\
              errors (stats m')
                = errors (stats m0) + Z.of_nat (length (batches_of sel)) /\
              local_db m' = local_db m0 /\ dry_run m' = dry_run m0 /\
              (sel = [] -> m' = m0)).
  { intros m0 Hdry0 Hdb0. cbv zeta. rewrite Hsync, Hdb0.
    destruct (select cols (where_ cutoff_time) (table (local_db m))) eqn:Hs.
    - exists m0, []. rewrite app_nil_r, Z.add_0_r.
      repeat split; auto.
    - rewrite <- Hs. unfold _upload_in_batches. rewrite Hdry0.
      destruct (upload_loop_keyless_errors tn tf t pk _ Hpk
                  (keyless_batches cols (where_ cutoff_time)
                     (table (local_db m)) tf pk Htf Hcols) m0 0%nat)
        as (m' & new & Hl & Hreq & HF2 & Herr & Hdb & Hd').
      exists m', new. rewrite Hl. rewrite bool_decide_eq_false_2 by congruence.
      repeat split; auto; congruence. }
  destruct (Hrun m Hdry eq_refl) as (m1 & new1 & E1 & Hreq1 & HF1 & Herr1 & Hdb1
                                     & Hdry1 & Hnil1).
  cbv zeta in E1. rewrite E1. cbn [fst snd].
  set (sel := select cols (where_ cutoff_time) (table (local_db m))) in *.
  set (m1' := if bool_decide (sel = []) then m
              else set_stats m1 (put (stats m1) 0)).
  assert (Hsup : supabase m1' = supabase m1 /\ local_db m1' = local_db m
                 /\ dry_run m1' = false
                 /\ errors (stats m1') = errors (stats m1)).
  { unfold m1'. case_bool_decide as Hsel.
    - rewrite (Hnil1 Hsel). auto.
    - cbn. destruct (Hput (stats m1) 0) as [_ ->].
      repeat split; congruence. }
  destruct Hsup as (Hsup & Hdb1' & Hdry1' & Herr1').
  destruct (Hrun m1' Hdry1' Hdb1') as (m2 & new2 & E2 & Hreq2 & HF2 & _).
  cbv zeta in E2. fold sel in E2, HF2. rewrite E2. cbn [fst snd].
  assert (Hn1 : new_requests m m1' = new1).
  { apply new_requests_app. now rewrite Hsup. }
  assert (Hn2 : new_requests m1'
                  (if bool_decide (sel = []) then m1'
                   else set_stats m2 (put (stats m2) 0)) = new2).
  { case_bool_decide as Hsel.
    - subst sel. rewrite Hsel in HF2. cbn in HF2. inversion HF2; subst.
      now apply new_requests_same.
    - now apply new_requests_app. }
  rewrite Hn1, Hn2.
  split; [reflexivity|]. split; [assumption|].
  split; [symmetry; eapply Forall2_length, HF1|].
  split; [lia|]. split.
  - intros Hne. unfold m1'. rewrite bool_decide_eq_false_2 by assumption.
    cbn. now destruct (Hput (stats m1) 0) as [-> _].
  - eapply same_batches_same_rows; eassumption.
Qed.

Lemma division_sync_resent :
  resent_every_run sync_division_states division_states_columns
    division_states_where division_states division_states_synced.
Proof.
  destruct division_key_not_selected as (Ha & _ & _ & Hd).
  apply (sync_event_resent _ _ _ _ _ "ASE_division_states" "division_states"
           "division_state_id" _transform_division_state
           (fun s n => mkStats n (table_states_synced s) (sessions_synced s)
                               (videos_synced s) (errors s)));
    [reflexivity | exact Ha
    | intros r; exact (proj1 (proj2 (proj2 (transforms_defined r))))
    | intros s n; split; reflexivity | ].
  intros c m. unfold sync_division_states. cbv zeta.
  destruct (select _ _ _); [reflexivity|].
  now destruct (_upload_in_batches _ _ _ _ _) as [m' [n|]].
Qed.

Lemma table_sync_resent :
  resent_every_run sync_table_states table_states_columns
    table_states_where table_states table_states_synced.
Proof.
  destruct division_key_not_selected as (Ha & _ & _ & Hd).
  apply (sync_event_resent _ _ _ _ _ "ASE_table_states" "table_states"
           "table_state_id" _transform_table_state
           (fun s n => mkStats (division_states_synced s) n (sessions_synced s)
                               (videos_synced s) (errors s)));
    [reflexivity | exact Hd
    | intros r; exact (proj2 (proj2 (proj2 (transforms_defined r))))
    | intros s n; split; reflexivity | ].
  intros c m. unfold sync_table_states. cbv zeta.
  destruct (select _ _ _); [reflexivity|].
  now destruct (_upload_in_batches _ _ _ _ _) as [m' [n|]].
Qed.

Lemma set_stats_id (m : Manager) : set_stats m (stats m) = m.
Proof. now destruct m. Qed.

Lemma dry_syncs (cutoff_time : option Z) (m : Manager)
    (k : Manager -> Outcome unit) :
  dry_run m = true ->
  and_then (sync_videos cutoff_time m) (fun m1 =>
  and_then (sync_sessions cutoff_time m1) (fun m2 =>
  and_then (sync_division_states cutoff_time m2) (fun m3 =>
  and_then (sync_table_states cutoff_time m3) k)))
  = k (set_stats m (dry_run_stats cutoff_time m)).
Proof.
  intros Hdry. unfold dry_run_stats.
  unfold sync_videos, sync_sessions, sync_division_states, sync_table_states,
    _upload_in_batches. cbv zeta.
  destruct m as [dr d c loc s]. cbn in Hdry. subst dr.
  destruct s as [sd st ss sv se]. cbn [dry_run local_db stats].
  destruct (select videos_columns _ (videos d)) eqn:Ev;
  destruct (select sessions_columns _ (sessions d)) eqn:Es;
  destruct (select division_states_columns _ (division_states d)) eqn:Ed;
  destruct (select table_states_columns _ (table_states d)) eqn:Et;
  cbn [and_then set_stats stats dry_run local_db supabase location_id
       division_states_synced table_states_synced sessions_synced videos_synced
       errors would_upload];
  rewrite ?Ev, ?Es, ?Ed, ?Et;
  cbn [and_then set_stats stats dry_run local_db supabase location_id
       division_states_synced table_states_synced sessions_synced videos_synced
       errors would_upload];
  rewrite ?Ev, ?Es, ?Ed, ?Et;
  cbn [and_then set_stats stats dry_run local_db supabase location_id
       division_states_synced table_states_synced sessions_synced videos_synced
       errors would_upload];
  rewrite ?Ev, ?Es, ?Ed, ?Et;
  cbn [and_then set_stats stats dry_run local_db supabase location_id
       division_states_synced table_states_synced sessions_synced videos_synced
       errors would_upload];
  reflexivity.
Qed.

(** A dry run whose queries execute, hourly or full, returns without
    touching the local store or the cloud; all it changes are the
    counters. *)
Lemma executed_dry_run (now now_cleanup now_log : Z) (m : Manager) :
  dry_run m = true ->
  let hourly := sync_hourly now now_cleanup now_log m in
  let full := sync_full now_log m in
  hourly.2 = Some tt /\ full.2 = Some tt /\
  local_db hourly.1 = local_db m /\ local_db full.1 = local_db m /\
  supabase hourly.1 = supabase m /\ supabase full.1 = supabase m /\
  stats hourly.1 = dry_run_stats (Some (now - hours 2)) m /\
  stats full.1 = dry_run_stats None m.
Proof.
  intros Hdry. unfold sync_hourly, sync_full. cbv zeta.
  rewrite !dry_syncs by assumption.
  assert (Hd : forall st, dry_run (set_stats m st) = true) by (intros; exact Hdry).
  unfold log_sync_status, cleanup_synced_data. rewrite !Hd. repeat split.
Qed.

(** ** What every step of a run keeps *)

Lemma upload_batch_frame (tn : string) (tf : Row -> option Row)
    (mt : option string) (batch : list Row) (m : Manager) (total : nat) :
  let res := upload_batch tn tf mt batch m total in
  dry_run res.1 = dry_run m /\ location_id res.1 = location_id m /\
  errors (stats m) <= errors (stats res.1).
Proof.
  unfold upload_batch, cloud_insert, _mark_batch_synced.
  destruct (mapM tf batch) as [dicts|]; cbn; [|repeat split; lia].
  destruct (accepts _ _ _ _); cbn; [|repeat split; lia].
  destruct (truthy_table mt) as [t|]; cbn; [|repeat split; lia].
  destruct (pk_col_of t) as [pk|]; cbn; [|repeat split; lia].
  destruct (batch_ids pk batch); cbn; repeat split; lia.
Qed.

Lemma upload_loop_frame (tn : string) (tf : Row -> option Row)
    (mt : option string) (batches : list (list Row)) :
  forall m total,
  let res := upload_loop tn tf mt batches m total in
  dry_run res.1 = dry_run m /\ location_id res.1 = location_id m /\
  errors (stats m) <= errors (stats res.1).
Proof.
  induction batches as [|batch rest IH]; intros m total; cbn.
  - repeat split; lia.
  - pose proof (upload_batch_frame tn tf mt batch m total) as Hb.
    destruct (upload_batch tn tf mt batch m total) as [m1 [total'|]];
      cbn in Hb; [|exact Hb].
    specialize (IH m1 total'). cbv zeta in IH.
    destruct IH as (-> & -> & IH). repeat split; try tauto. lia.
Qed.

Lemma upload_in_batches_frame (records : list Row) (tn : string)
    (tf : Row -> option Row) (mt : option string) (m : Manager) :
  Forall (fun r => is_Some (tf r)) records ->
  let res := _upload_in_batches records tn tf mt m in
  is_Some res.2 /\
  dry_run res.1 = dry_run m /\ location_id res.1 = location_id m /\
  errors (stats m) <= errors (stats res.1).
Proof.
  intros HF. unfold _upload_in_batches.
  destruct (dry_run m) eqn:Hdry; cbv zeta; cbn [fst snd];
    [rewrite Hdry; repeat split; eauto; lia|].
  pose proof (upload_loop_frame tn tf mt (batches_of records) m 0%nat) as Hfr.
  destruct (upload_loop tn tf mt (batches_of records) m 0%nat) as [m' out] eqn:Hl.
  cbv zeta in Hfr. cbn [fst snd] in *. split; [|rewrite <- Hdry; exact Hfr].
  destruct (upload_loop_log _ _ _ _ _ _ _ _ Hl) as (new & _ & _ & Hall).
  apply Hall, batches_transformable, HF.
Qed.

Lemma sync_frames :
  sync_frame sync_videos /\ sync_frame sync_sessions /\
  sync_frame sync_division_states /\ sync_frame sync_table_states.
Proof.
  repeat split;
    try apply (proj1 (session_syncs_keep_store cutoff_time m));
    try apply (proj2 (session_syncs_keep_store cutoff_time m));
    try apply (proj1 (event_syncs_never_mark cutoff_time m));
    try apply (proj2 (event_syncs_never_mark cutoff_time m));
    unfold sync_videos, sync_sessions, sync_division_states, sync_table_states;
    cbv zeta;
    (destruct (select _ _ _) eqn:Hs; [cbn; first [reflexivity | lia]|]);
    rewrite <- Hs;
    match goal with
    | |- context [_upload_in_batches (select ?cols ?w ?t) ?tn ?tf ?mt ?m0] =>
        let H := fresh in
        assert (H : forall r, is_Some (tf (project cols r)))
          by (intros r; first
                [ exact (proj1 (transforms_defined r))
                | exact (proj1 (proj2 (transforms_defined r)))
                | exact (proj1 (proj2 (proj2 (transforms_defined r))))
                | exact (proj2 (proj2 (proj2 (transforms_defined r)))) ]);
        pose proof (upload_in_batches_frame (select cols w t) tn tf mt m0
                      (select_transformable cols w t tf H)) as Hfr;
        cbv zeta in Hfr;
        destruct (_upload_in_batches (select cols w t) tn tf mt m0)
          as [m' [n|]];
        cbn in Hfr |- *;
        destruct Hfr as ([? ?] & ? & ? & ?);
        first [reflexivity | assumption | discriminate]
    end.
Qed.

(** ** Whole runs outside dry-run *)

Lemma and_then_returns (a : Outcome unit) (k : Manager -> Outcome unit) :
  a.2 = Some tt -> and_then a k = k a.1.
Proof. destruct a as [m [[]|]]; [reflexivity | discriminate]. Qed.

(** The four table syncs of a run, in order. *)
Lemma four_syncs (cutoff_time : option Z) (m : Manager)
    (k : Manager -> Outcome unit) :
  exists m4,
    and_then (sync_videos cutoff_time m) (fun m1 =>
    and_then (sync_sessions cutoff_time m1) (fun m2 =>
    and_then (sync_division_states cutoff_time m2) (fun m3 =>
    and_then (sync_table_states cutoff_time m3) k))) = k m4 /\
    local_db m4 = local_db m /\ dry_run m4 = dry_run m /\
    location_id m4 = location_id m /\
    errors (stats m) <= errors (stats m4) /\
    (dry_run m = false ->
     errors (stats m)
     + Z.of_nat (length (batches_of
         (select division_states_columns (division_states_where cutoff_time)
                 (division_states (local_db m)))))
     + Z.of_nat (length (batches_of
         (select table_states_columns (table_states_where cutoff_time)
                 (table_states (local_db m)))))
     <= errors (stats m4)).
Proof.
  destruct sync_frames as (Hv & Hs & Hd & Ht).
  destruct (Hv cutoff_time m) as (R1 & D1 & Y1 & L1 & E1).
  set (m1 := (sync_videos cutoff_time m).1) in *.
  destruct (Hs cutoff_time m1) as (R2 & D2 & Y2 & L2 & E2).
  set (m2 := (sync_sessions cutoff_time m1).1) in *.
  destruct (Hd cutoff_time m2) as (R3 & D3 & Y3 & L3 & E3).
  set (m3 := (sync_division_states cutoff_time m2).1) in *.
  destruct (Ht cutoff_time m3) as (R4 & D4 & Y4 & L4 & E4).
  set (m4 := (sync_table_states cutoff_time m3).1) in *.
  exists m4.
  rewrite (and_then_returns _ _ R1). fold m1.
  rewrite (and_then_returns _ _ R2). fold m2.
  rewrite (and_then_returns _ _ R3). fold m3.
  rewrite (and_then_returns _ _ R4). fold m4.
  split; [reflexivity|].
  split; [congruence|]. split; [congruence|]. split; [congruence|].
  split; [lia|]. intros Hdry.
  destruct (division_sync_resent cutoff_time m2 ltac:(congruence))
    as (_ & _ & _ & X3 & _).
  destruct (table_sync_resent cutoff_time m3 ltac:(congruence))
    as (_ & _ & _ & X4 & _).
  fold m3 in X3. fold m4 in X4.
  rewrite D2, D1 in X3. rewrite D3, D2, D1 in X4. lia.
Qed.

Lemma batches_of_concat (records : list Row) :
  concat (batches_of records) = records.
Proof.
  rewrite batches_of_fmap, batch_cover.
  apply take_ge, (proj1 (batch_count (length records))).
Qed.

Lemma batches_of_selected (records : list Row) :
  records <> [] -> (1 <= length (batches_of records))%nat.
Proof.
  intros Hne. pose proof (batches_of_concat records) as Hc.
  destruct (batches_of records); cbn in *; [congruence | lia].
Qed.

Lemma log_sync_status_row (sync_type : string) (now : Z) (m : Manager) :
  dry_run m = false ->
  let m' := log_sync_status sync_type now m in
  stats m' = stats m /\
  videos (local_db m') = videos (local_db m) /\
  sessions (local_db m') = sessions (local_db m) /\
  division_states (local_db m') = division_states (local_db m) /\
  table_states (local_db m') = table_states (local_db m) /\
  exists row,
    sync_status (local_db m') = sync_status (local_db m) ++ [row] /\
    audit_of sync_type now (location_id m) (stats m) row.
Proof.
  intros Hdry. unfold log_sync_status. rewrite Hdry. cbn.
  repeat split; try reflexivity.
  eexists. split; [reflexivity|].
  unfold audit_of, audit_row. cbv zeta.
  repeat split; repeat (first [ rewrite lookup_insert_eq
                              | rewrite lookup_insert_ne by discriminate ]);
    reflexivity.
Qed.

(** Outside dry-run a run whose statements all execute returns and
    appends exactly one audit row. *)
Lemma executed_run_logs_once (now now_cleanup now_log : Z)
    (m : Manager) :
  dry_run m = false ->
  logged_once "hourly" now_log m (sync_hourly now now_cleanup now_log m) /\
  logged_once "full" now_log m (sync_full now_log m).
Proof.
  intros Hdry. unfold sync_hourly, sync_full, logged_once. cbv zeta. split.
  - destruct (four_syncs (Some (now - hours 2)) m
                (fun m4 => (log_sync_status "hourly" now_log
                              (cleanup_synced_data 24 now_cleanup m4), Some tt)))
      as (m4 & -> & Hdb & Hd4 & Hloc & _). cbn [fst snd].
    split; [reflexivity|].
    assert (Hc : dry_run (cleanup_synced_data 24 now_cleanup m4) = false)
      by (unfold cleanup_synced_data; rewrite Hd4, Hdry; cbn; congruence).
    destruct (log_sync_status_row "hourly" now_log _ Hc)
      as (Hst & _ & _ & _ & _ & row & Hrow & Haud).
    exists row. rewrite Hrow, Hst. split.
    + f_equal. unfold cleanup_synced_data. rewrite Hd4, Hdry. cbn.
      now rewrite Hdb.
    + replace (location_id m)
        with (location_id (cleanup_synced_data 24 now_cleanup m4)); [exact Haud|].
      unfold cleanup_synced_data. rewrite Hd4, Hdry. cbn. exact Hloc.
  - destruct (four_syncs None m
                (fun m4 => (log_sync_status "full" now_log m4, Some tt)))
      as (m4 & -> & Hdb & Hd4 & Hloc & _). cbn [fst snd].
    split; [reflexivity|].
    destruct (log_sync_status_row "full" now_log m4 ltac:(congruence))
      as (Hst & _ & _ & _ & _ & row & Hrow & Haud).
    exists row. rewrite Hrow, Hst, Hdb, <- Hloc. auto.
Qed.

Lemma selected_event_batches (cols : list string) (cutoff_time : option Z)
    (table : list Row) (r : Row) :
  r ∈ table -> unsynced_in_window cutoff_time r ->
  (1 <= length (batches_of
     (select cols (fun r => sql_eq_int (r !! "synced_to_cloud") 0
                            && cutoff_clause cutoff_time r) table)))%nat.
Proof.
  intros Hr Hu. apply batches_of_selected. intros Hnil.
  assert (Hin : project cols r ∈ select cols
            (fun r => sql_eq_int (r !! "synced_to_cloud") 0
                      && cutoff_clause cutoff_time r) table).
  { apply select_elem. exists r. repeat split; [assumption|].
    now apply unsynced_where_spec. }
  rewrite Hnil in Hin. now apply elem_of_nil in Hin.
Qed.

(** Outside dry-run a run whose statements all execute, and that finds
    an unsynced event row inside its time window, is logged "partial". *)
Lemma executed_run_logs_partial (now now_cleanup now_log : Z)
    (m : Manager) (r : Row) :
  dry_run m = false -> 0 <= errors (stats m) ->
  r ∈ division_states (local_db m) \/ r ∈ table_states (local_db m) ->
  r !! "synced_to_cloud" = Some (VInt 0) ->
  let full := (sync_full now_log m).1 in
  let hourly := (sync_hourly now now_cleanup now_log m).1 in
  (exists row, last (sync_status (local_db full)) = Some row /\
               row !! "status" = Some (VText "partial")) /\
  division_states (local_db full) = division_states (local_db m) /\
  table_states (local_db full) = table_states (local_db m) /\
  (in_window (Some (now - hours 2)) r ->
   exists row, last (sync_status (local_db hourly)) = Some row /\
               row !! "status" = Some (VText "partial")).
Proof.
  intros Hdry Herr Hr Hflag. cbv zeta.
  assert (Hpartial : forall cutoff_time m4 sync_type row,
    in_window cutoff_time r ->
    errors (stats m)
     + Z.of_nat (length (batches_of
         (select division_states_columns (division_states_where cutoff_time)
                 (division_states (local_db m)))))
     + Z.of_nat (length (batches_of
         (select table_states_columns (table_states_where cutoff_time)
                 (table_states (local_db m)))))
     <= errors (stats m4) ->
    audit_of sync_type now_log (location_id m) (stats m4) row ->
    row !! "status" = Some (VText "partial")).
  { intros c m4 ty row Hw Hle (_ & _ & _ & _ & Hst). rewrite Hst.
    assert (1 <= errors (stats m4)).
    { destruct Hr as [Hr|Hr].
      - pose proof (selected_event_batches division_states_columns c _ r Hr
                      (conj Hflag Hw)) as H1.
        unfold division_states_where in Hle. lia.
      - pose proof (selected_event_batches table_states_columns c _ r Hr
                      (conj Hflag Hw)) as H1.
        unfold table_states_where in Hle. lia. }
    destruct (errors (stats m4) =? 0) eqn:E; [apply Z.eqb_eq in E; lia|].
    reflexivity. }
  unfold sync_full, sync_hourly. cbv zeta.
  destruct (four_syncs None m
              (fun m4 => (log_sync_status "full" now_log m4, Some tt)))
    as (m4 & -> & Hdb & Hd4 & Hloc & _ & Hle). cbn [fst snd].
  destruct (log_sync_status_row "full" now_log m4 ltac:(congruence))
    as (Hst & _ & _ & Hdiv & Htab & row & Hrow & Haud).
  split; [|split; [congruence|split; [congruence|]]].
  - exists row. rewrite Hrow, last_snoc. split; [reflexivity|].
    apply (Hpartial None m4 "full" row I (Hle Hdry)). now rewrite <- Hloc.
  - intros Hw.
    destruct (four_syncs (Some (now - hours 2)) m
                (fun m4 => (log_sync_status "hourly" now_log
                              (cleanup_synced_data 24 now_cleanup m4), Some tt)))
      as (m4' & -> & Hdb' & Hd4' & Hloc' & _ & Hle'). cbn [fst snd].
    assert (Hc : dry_run (cleanup_synced_data 24 now_cleanup m4') = false)
      by (unfold cleanup_synced_data; rewrite Hd4', Hdry; cbn; congruence).
    destruct (log_sync_status_row "hourly" now_log _ Hc)
      as (_ & _ & _ & _ & _ & row' & Hrow' & Haud').
    exists row'. rewrite Hrow', last_snoc. split; [reflexivity|].
    apply (Hpartial (Some (now - hours 2)) m4' "hourly" row' Hw (Hle' Hdry)).
    replace (location_id m)
      with (location_id (cleanup_synced_data 24 now_cleanup m4')).
    + replace (stats m4') with (stats (cleanup_synced_data 24 now_cleanup m4'));
        [exact Haud'|].
      unfold cleanup_synced_data. now rewrite Hd4', Hdry.
    + unfold cleanup_synced_data. rewrite Hd4', Hdry. exact Hloc'.
Qed.

Lemma unmarked_upload_accounting_witness :
  let res := _upload_in_batches (sessions (local_db sessions_manager))
               "ASE_sessions" (fun r => Some r) None sessions_manager in
  length (new_requests sessions_manager res.1)
    = length (batches_of (sessions (local_db sessions_manager))) /\
  res.2 = Some (length (concat (accepted_batches
                  (batches_of (sessions (local_db sessions_manager)))
                  (new_requests sessions_manager res.1)))) /\
  errors (stats res.1)
    = errors (stats sessions_manager)
      + Z.of_nat (length (List.filter (fun r => negb (req_accepted r))
                            (new_requests sessions_manager res.1))) /\
  local_db res.1 = local_db sessions_manager.
Proof.
  apply (unmarked_upload_accounting (sessions (local_db sessions_manager))
           "ASE_sessions" (fun r => Some r) sessions_manager).
  - reflexivity.
  - apply Forall_forall. intros r _. eauto.
Defined.

(** ** Runs on a database file *)

Lemma executes_app (table : option (list string)) (named named' : list string) :
  executes table (named ++ named')
  = executes table named && executes table named'.
Proof. destruct table; [apply forallb_app | reflexivity]. Qed.

Lemma syncs_on_supported (schema : Schema) :
  supports_queries schema ->
  forall cutoff_time m,
    sync_videos_on schema cutoff_time m = sync_videos cutoff_time m /\
    sync_sessions_on schema cutoff_time m = sync_sessions cutoff_time m /\
    sync_division_states_on schema cutoff_time m
      = sync_division_states cutoff_time m /\
    sync_table_states_on schema cutoff_time m
      = sync_table_states cutoff_time m.
Proof.
  intros Hq c m. destruct (Hq c) as (Hv & Hs & Hd & Ht).
  unfold sync_videos_on, sync_sessions_on, sync_division_states_on,
    sync_table_states_on.
  rewrite Hv, Hs, Hd, Ht. repeat split.
Qed.

Lemma and_then_ext (a : Outcome unit) (k k' : Manager -> Outcome unit) :
  (forall m, k m = k' m) -> and_then a k = and_then a k'.
Proof. intros H. destruct a as [m [[]|]]; cbn; auto. Qed.

(** On a file that supports the queries the four table syncs go as if
    the queries could not fail. *)
Lemma four_syncs_on (schema : Schema) (cutoff_time : option Z) (m : Manager)
    (k : Manager -> Outcome unit) :
  supports_queries schema ->
  and_then (sync_videos_on schema cutoff_time m) (fun m1 =>
  and_then (sync_sessions_on schema cutoff_time m1) (fun m2 =>
  and_then (sync_division_states_on schema cutoff_time m2) (fun m3 =>
  and_then (sync_table_states_on schema cutoff_time m3) k)))
  = and_then (sync_videos cutoff_time m) (fun m1 =>
    and_then (sync_sessions cutoff_time m1) (fun m2 =>
    and_then (sync_division_states cutoff_time m2) (fun m3 =>
    and_then (sync_table_states cutoff_time m3) k))).
Proof.
  intros Hq.
  rewrite (proj1 (syncs_on_supported schema Hq cutoff_time m)).
  apply and_then_ext; intros m1.
  rewrite (proj1 (proj2 (syncs_on_supported schema Hq cutoff_time m1))).
  apply and_then_ext; intros m2.
  rewrite (proj1 (proj2 (proj2 (syncs_on_supported schema Hq cutoff_time m2)))).
  apply and_then_ext; intros m3.
  now rewrite (proj2 (proj2 (proj2 (syncs_on_supported schema Hq cutoff_time m3)))).
Qed.

Lemma cleanup_on_supported (schema : Schema) (retention_hours now : Z)
    (m : Manager) :
  executes (division_states_schema schema) cleanup_columns = true ->
  executes (table_states_schema schema) cleanup_columns = true ->
  cleanup_synced_data_on schema retention_hours now m
  = (cleanup_synced_data retention_hours now m, Some tt).
Proof.
  intros Hd Ht. unfold cleanup_synced_data_on, cleanup_synced_data.
  rewrite Hd, Ht. now destruct (dry_run m).
Qed.

Lemma log_on_supported (schema : Schema) (sync_type : string) (now : Z)
    (m : Manager) :
  executes (sync_status_schema schema) sync_status_columns = true ->
  (forall row, sync_status_accepts schema row = true) ->
  log_sync_status_on schema sync_type now m
  = (log_sync_status sync_type now m, Some tt).
Proof.
  intros Hs Ha. unfold log_sync_status_on, log_sync_status.
  rewrite Hs, Ha. now destruct (dry_run m).
Qed.

(** On a file that supports every statement, a run goes as if no
    statement could fail. *)
Lemma runs_on_supported (schema : Schema) (now now_cleanup now_log : Z)
    (m : Manager) :
  supports_run schema ->
  sync_hourly_on schema now now_cleanup now_log m
    = sync_hourly now now_cleanup now_log m /\
  sync_full_on schema now_log m = sync_full now_log m.
Proof.
  intros (Hq & Hd & Ht & Hs & Ha).
  unfold sync_hourly_on, sync_full_on, sync_hourly, sync_full. cbv zeta.
  rewrite !four_syncs_on by assumption. split.
  - do 4 (apply and_then_ext; intros ?).
    rewrite cleanup_on_supported by assumption. cbn [and_then].
    now apply log_on_supported.
  - do 4 (apply and_then_ext; intros ?). now apply log_on_supported.
Qed.

(** A run on a file without the [videos] table, or on one whose
    [videos] table lacks a column of the first query, stops at that
    query, dry-run or not: the exception leaves [sync_hourly] and
    [sync_full] before anything is sent, marked, pruned or logged. *)
Lemma first_query_stops_the_run (schema : Schema)
    (now now_cleanup now_log : Z) (m : Manager) :
  executes (videos_schema schema) videos_columns = false ->
  sync_hourly_on schema now now_cleanup now_log m = (m, None) /\
  sync_full_on schema now_log m = (m, None).
Proof.
  intros Hv. unfold sync_hourly_on, sync_full_on, sync_videos_on. cbv zeta.
  rewrite !executes_app, Hv. split; reflexivity.
Qed.

(** So it is on a file that holds only what the detection runner
    creates. *)
Example runner_file_stops_every_run (now now_cleanup now_log : Z)
    (m : Manager) :
  sync_hourly_on runner_schema now now_cleanup now_log m = (m, None) /\
  sync_full_on runner_schema now_log m = (m, None).
Proof. now apply first_query_stops_the_run. Qed.

Lemma replication_schema_supports_run : supports_run replication_schema.
Proof.
  split; [intros [c|]; repeat split; reflexivity|].
  split; [reflexivity|]. split; [reflexivity|]. split; [reflexivity|].
  intros row. reflexivity.
Qed.

(** On a file that has the tables and columns the queries name, the two
    event syncs outside dry-run never record an upload: the rows their
    queries return lack the key column the mark step indexes, so every
    batch, whatever the cloud answered, ends in the error branch.  The
    sync returns, the local store is left as it was (no row is marked),
    the error counter grows by the number of batches, the synced counter
    is set to 0, and the next run selects and sends the same rows
    again. *)
Theorem event_rows_resent_every_run (schema : Schema) :
  supports_queries schema ->
  resent_every_run (sync_division_states_on schema) division_states_columns
    division_states_where division_states division_states_synced /\
  resent_every_run (sync_table_states_on schema) table_states_columns
    table_states_where table_states table_states_synced.
Proof.
  intros Hq. split; intros c m Hdry; cbv zeta.
  - rewrite !(proj1 (proj2 (proj2 (syncs_on_supported schema Hq c _)))).
    exact (division_sync_resent c m Hdry).
  - rewrite !(proj2 (proj2 (proj2 (syncs_on_supported schema Hq c _)))).
    exact (table_sync_resent c m Hdry).
Qed.

Lemma event_rows_resent_every_run_witness :
  let res := sync_division_states_on replication_schema None events_manager in
  res.2 = Some tt /\ local_db res.1 = local_db events_manager /\
  errors (stats res.1) = 1 /\ division_states_synced (stats res.1) = 0.
Proof.
  destruct (proj1 (event_rows_resent_every_run replication_schema
                     (proj1 replication_schema_supports_run))
              None events_manager eq_refl)
    as (H1 & H2 & _ & H4 & H5 & _).
  cbv zeta. split; [exact H1|]. split; [exact H2|]. split.
  - rewrite H4. reflexivity.
  - apply H5. discriminate.
Defined.

(** A dry run, hourly or full, on a file that has the tables and columns
    the four queries name returns without touching the local store or
    the cloud: no row is marked, pruned or logged and no insert is
    issued.  All it changes are the counters, which report for each table
    the number of rows the run would have sent.  (The pruning and the
    audit return at once in dry-run, so the file needs nothing for
    them.) *)
Theorem dry_run_changes_nothing (schema : Schema)
    (now now_cleanup now_log : Z) (m : Manager) :
  dry_run m = true -> supports_queries schema ->
  let hourly := sync_hourly_on schema now now_cleanup now_log m in
  let full := sync_full_on schema now_log m in
  hourly.2 = Some tt /\ full.2 = Some tt /\
  local_db hourly.1 = local_db m /\ local_db full.1 = local_db m /\
  supabase hourly.1 = supabase m /\ supabase full.1 = supabase m /\
  stats hourly.1 = dry_run_stats (Some (now - hours 2)) m /\
  stats full.1 = dry_run_stats None m.
Proof.
  intros Hdry Hq. cbv zeta.
  assert (Hh : sync_hourly_on schema now now_cleanup now_log m
               = sync_hourly now now_cleanup now_log m).
  { unfold sync_hourly_on, sync_hourly. cbv zeta.
    rewrite four_syncs_on by assumption. rewrite !dry_syncs by assumption.
    unfold cleanup_synced_data_on, log_sync_status_on, cleanup_synced_data,
      log_sync_status.
    cbn [dry_run set_stats and_then]. rewrite Hdry.
    cbn [dry_run set_stats and_then]. now rewrite Hdry. }
  assert (Hf : sync_full_on schema now_log m = sync_full now_log m).
  { unfold sync_full_on, sync_full.
    rewrite four_syncs_on by assumption. rewrite !dry_syncs by assumption.
    unfold log_sync_status_on, log_sync_status.
    cbn [dry_run set_stats]. now rewrite Hdry. }
  rewrite Hh, Hf. exact (executed_dry_run now now_cleanup now_log m Hdry).
Qed.

Lemma dry_run_changes_nothing_witness :
  let m := mkManager true events_db (mkSupabase accept_all []) (VText "site")
                     no_stats in
  let full := sync_full_on replication_schema 5000 m in
  full.2 = Some tt /\ local_db full.1 = events_db /\
  requests (supabase full.1) = [] /\
  division_states_synced (stats full.1) = 2.
Proof.
  pose proof (dry_run_changes_nothing replication_schema 5000 5000 5000
                (mkManager true events_db (mkSupabase accept_all [])
                           (VText "site") no_stats) eq_refl
                (proj1 replication_schema_supports_run)) as H.
  cbv zeta in H. destruct H as (_ & H2 & _ & H4 & _ & H6 & _ & H8).
  cbv zeta. rewrite H2, H4, H6, H8. repeat split.
Defined.

(** Outside dry-run, on a file that has the tables and columns every
    statement of the run names and whose [sync_status] table accepts the
    audit row, every run, hourly or full, returns: no exception escapes
    the table syncs, because each transform only reads columns its query
    selects.  The run appends exactly one row to [sync_status], stamped
    with the mode, the clock reading and the location, whose count is the
    sum of the four counters and whose status is "success" when the
    error counter is 0 and "partial" otherwise. *)
Theorem every_run_returns_and_logs_once (schema : Schema)
    (now now_cleanup now_log : Z) (m : Manager) :
  dry_run m = false -> supports_run schema ->
  logged_once "hourly" now_log m
    (sync_hourly_on schema now now_cleanup now_log m) /\
  logged_once "full" now_log m (sync_full_on schema now_log m).
Proof.
  intros Hdry Hs.
  destruct (runs_on_supported schema now now_cleanup now_log m Hs) as [-> ->].
  exact (executed_run_logs_once now now_cleanup now_log m Hdry).
Qed.

Lemma every_run_returns_and_logs_once_witness :
  logged_once "full" 5000 events_manager
    (sync_full_on replication_schema 5000 events_manager).
Proof.
  exact (proj2 (every_run_returns_and_logs_once replication_schema
                  5000 5000 5000 events_manager eq_refl
                  replication_schema_supports_run)).
Defined.

(** On such a file, a run outside dry-run that finds an unsynced event
    row inside its time window is logged "partial", whatever the cloud
    answered: with an error counter that started at 0 or above, the
    audit row the run appends never says "success"; and after a full
    run both event tables are exactly as they were, the row that was
    found still unsynced.  (The hourly run looks at the last two hours
    only.) *)
Theorem unsynced_events_log_partial (schema : Schema)
    (now now_cleanup now_log : Z) (m : Manager) (r : Row) :
  dry_run m = false -> 0 <= errors (stats m) -> supports_run schema ->
  r ∈ division_states (local_db m) \/ r ∈ table_states (local_db m) ->
  r !! "synced_to_cloud" = Some (VInt 0) ->
  let full := (sync_full_on schema now_log m).1 in
  let hourly := (sync_hourly_on schema now now_cleanup now_log m).1 in
  (exists row, last (sync_status (local_db full)) = Some row /\
               row !! "status" = Some (VText "partial")) /\
  division_states (local_db full) = division_states (local_db m) /\
  table_states (local_db full) = table_states (local_db m) /\
  (in_window (Some (now - hours 2)) r ->
   exists row, last (sync_status (local_db hourly)) = Some row /\
               row !! "status" = Some (VText "partial")).
Proof.
  intros Hdry Herr Hs Hr Hflag. cbv zeta.
  destruct (runs_on_supported schema now now_cleanup now_log m Hs) as [-> ->].
  exact (executed_run_logs_partial now now_cleanup now_log m r Hdry Herr Hr Hflag).
Qed.

Lemma unsynced_events_log_partial_witness :
  exists row,
    last (sync_status
            (local_db (sync_full_on replication_schema 5000 events_manager).1))
      = Some row /\
    row !! "status" = Some (VText "partial").
Proof.
  refine (proj1 (unsynced_events_log_partial replication_schema 5000 5000 5000
                   events_manager (division_row 1 0 100) _ _
                   replication_schema_supports_run _ _)).
  - reflexivity.
  - cbn. lia.
  - left. apply list_elem_of_here.
  - reflexivity.
Defined.

End SyncRunFacts.

Module WriterCounterFacts.
Import BatchWriter BatchWriterFacts.

Lemma counted_flush_division (w : Writer) :
  counted w -> Forall one_kind (committed (conn w)) ->
  counted (flush_division_states w) /\
  Forall one_kind (committed (conn (flush_division_states w))).
Proof.
  intros (Hd & Ht & Hc & Hp) Hk.
  destruct (division_states_buffer w) as [|x buf] eqn:Hb.
  - unfold flush_division_states. rewrite Hb. repeat split; assumption.
  - rewrite flush_division_states_nonempty by (assumption || congruence).
    rewrite Hb. unfold counted. cbn [conn committed pending
      total_division_inserts total_table_inserts total_commits].
    rewrite concat_app, !List.filter_app, !length_app.
    cbn [concat]. rewrite app_nil_r.
    rewrite filter_division_of_division, filter_table_of_division.
    rewrite length_fmap. cbn [length].
    split; [repeat split; lia|].
    apply Forall_app. split; [assumption|]. constructor; [|constructor].
    left. apply Forall_forall. intros i Hi.
    apply list_elem_of_fmap in Hi. now destruct Hi as (? & -> & _).
Qed.

Lemma counted_flush_table (w : Writer) :
  counted w -> Forall one_kind (committed (conn w)) ->
  counted (flush_table_states w) /\
  Forall one_kind (committed (conn (flush_table_states w))).
Proof.
  intros (Hd & Ht & Hc & Hp) Hk.
  destruct (table_states_buffer w) as [|x buf] eqn:Hb.
  - unfold flush_table_states. rewrite Hb. repeat split; assumption.
  - rewrite flush_table_states_nonempty by (assumption || congruence).
    rewrite Hb. unfold counted. cbn [conn committed pending
      total_division_inserts total_table_inserts total_commits].
    rewrite concat_app, !List.filter_app, !length_app.
    cbn [concat]. rewrite app_nil_r.
    rewrite filter_table_of_table, filter_division_of_table.
    rewrite length_fmap. cbn [length].
    split; [repeat split; lia|].
    apply Forall_app. split; [assumption|]. constructor; [|constructor].
    right. apply Forall_forall. intros i Hi.
    apply list_elem_of_fmap in Hi. now destruct Hi as (? & -> & _).
Qed.

Lemma counted_call (c : Call) (w : Writer) :
  counted w -> Forall one_kind (committed (conn w)) ->
  counted (call c w) /\ Forall one_kind (committed (conn (call c w))).
Proof.
  intros Hc Hk. destruct c as [a | a | | |]; cbn [call].
  - unfold add_division_state. cbv zeta.
    match goal with |- context [if ?b then _ else _] => destruct b end;
      [apply counted_flush_division; assumption | split; assumption].
  - unfold add_table_state. cbv zeta.
    match goal with |- context [if ?b then _ else _] => destruct b end;
      [apply counted_flush_table; assumption | split; assumption].
  - now apply counted_flush_division.
  - now apply counted_flush_table.
  - unfold flush_all.
    destruct (counted_flush_division w Hc Hk) as [Hc' Hk'].
    now apply counted_flush_table.
Qed.

Lemma counted_run (calls : list Call) :
  forall w, counted w -> Forall one_kind (committed (conn w)) ->
  counted (run calls w) /\ Forall one_kind (committed (conn (run calls w))).
Proof.
  induction calls as [|c calls IH]; intros w Hc Hk; [split; assumption|].
  cbn. destruct (counted_call c w Hc Hk) as [Hc' Hk']. now apply IH.
Qed.

Lemma counted_init (size : Z) :
  counted (init fresh size) /\
  Forall one_kind (committed (conn (init fresh size))).
Proof. repeat split; constructor. Qed.

(** Whatever calls were made on a writer created on a fresh connection,
    and whatever its batch size, its counters tell the truth about the
    store: [total_division_inserts] and [total_table_inserts] are the
    numbers of rows of each kind committed so far (buffered rows are not
    counted), [total_commits] is the number of transactions, and no
    insert is left outside a committed transaction. *)
Theorem counters_match_committed_rows (size : Z) (calls : list Call) :
  counted (run calls (init fresh size)).
Proof.
  destruct (counted_init size) as [Hc Hk].
  exact (proj1 (counted_run calls _ Hc Hk)).
Qed.

(** Division rows and table rows never share a transaction: every
    transaction a writer commits, starting from a fresh connection, holds
    rows of one table only. *)
Theorem transactions_hold_one_kind (size : Z) (calls : list Call) :
  Forall one_kind (committed (conn (run calls (init fresh size)))).
Proof.
  destruct (counted_init size) as [Hc Hk].
  exact (proj2 (counted_run calls _ Hc Hk)).
Qed.

(** [flush_all] settles the writer: afterwards both buffers are empty, a
    second [flush_all] changes nothing, and on a writer whose buffers are
    already empty it is the identity (no empty transaction is committed,
    no counter moves). *)
Theorem flush_all_settles (w : Writer) :
  division_states_buffer (flush_all w) = [] /\
  table_states_buffer (flush_all w) = [] /\
  flush_all (flush_all w) = flush_all w /\
  (division_states_buffer w = [] -> table_states_buffer w = [] ->
   flush_all w = w).
Proof.
  assert (Hid : forall w0, division_states_buffer w0 = [] ->
                  table_states_buffer w0 = [] -> flush_all w0 = w0).
  { intros w0 H1 H2. unfold flush_all, flush_division_states. rewrite H1.
    unfold flush_table_states. now rewrite H2. }
  assert (H12 : division_states_buffer (flush_all w) = [] /\
                table_states_buffer (flush_all w) = []).
  { unfold flush_all, flush_table_states, flush_division_states.
    destruct (division_states_buffer w) eqn:Hd;
      destruct (table_states_buffer w) eqn:Ht; cbn;
      rewrite ?Hd, ?Ht; cbn; auto. }
  destruct H12 as [H1 H2]. auto.
Qed.

End WriterCounterFacts.

Module RecorderFacts.
Import Capture CaptureFacts.

Lemma wait_for_segment_counts (return_code : option Z) (self : Recorder) :
  let self' := (_wait_for_segment return_code self).1 in
  successful_segments self' + failed_segments self'
    = successful_segments self + failed_segments self + 1 /\
  successful_segments self <= successful_segments self' /\
  failed_segments self <= failed_segments self' /\
  current_segment self' = current_segment self /\
  connection_attempts self' = connection_attempts self /\
  segment_duration self' = segment_duration self /\
  rtsp_url self' = rtsp_url self.
Proof.
  unfold _wait_for_segment.
  destruct return_code as [[| |]|]; cbn; repeat split; lia.
Qed.

Lemma loop_stops (duration_seconds : Z) (it : Iteration)
    (rest : list Iteration) (self self' : Recorder) :
  starts_segment duration_seconds it = false ->
  connection_attempts self'
    = connection_attempts self
      + (if reaches_popen duration_seconds it then 1 else 0) ->
  current_segment self' = current_segment self ->
  successful_segments self' = successful_segments self ->
  failed_segments self' = failed_segments self ->
  segment_duration self' = segment_duration self ->
  rtsp_url self' = rtsp_url self ->
  loop_accounted duration_seconds (it :: rest) self self' [].
Proof.
  intros Hstart Hatt Hcur Hs Hf Hsd Hurl. unfold loop_accounted. cbn.
  split; [reflexivity|]. split; [constructor|].
  split; [lia|]. split; [lia|]. split; [lia|]. split; [lia|].
  split; [assumption|]. split; [assumption|].
  exists [], (it :: rest). split; [reflexivity|]. split; [constructor|].
  split; [reflexivity|]. split; [assumption | lia].
Qed.

(** However the environment answers (clock readings, [Popen] failures,
    exit codes), the recording loop keeps its books: segment numbers are
    consecutive, a segment is only started while part of the requested
    duration remains, every started segment is counted exactly once as a
    success or as a failure, one segment is started for every iteration
    up to the first that stops the loop, and the number of connection
    attempts grows by exactly the number of segments started, plus one
    when, and only when, a [Popen] that raised ended the loop. *)
Theorem recording_loop_keeps_count (duration_seconds : Z)
    (its : list Iteration) (self : Recorder) :
  loop_accounted duration_seconds its self
    (recording_loop duration_seconds its self).1
    (recording_loop duration_seconds its self).2.
Proof.
  revert self.
  induction its as [|it rest IH]; intros self; cbn [recording_loop].
  { unfold loop_accounted. cbn.
    split; [reflexivity|]. split; [constructor|].
    split; [lia|]. split; [lia|]. split; [lia|]. split; [lia|].
    split; [reflexivity|]. split; [reflexivity|].
    exists [], []. repeat split; try constructor. cbn. lia. }
  destruct (it_is_capturing it) eqn:Hcap; cbn [negb].
  2: { apply loop_stops; try reflexivity.
       - unfold starts_segment, reaches_popen. now rewrite Hcap.
       - unfold reaches_popen. rewrite Hcap. cbn. lia. }
  destruct (Qle_bool _ _) eqn:Hq.
  { apply loop_stops; try reflexivity.
    - unfold starts_segment, reaches_popen. now rewrite Hcap, Hq.
    - unfold reaches_popen. rewrite Hcap, Hq. cbn. lia. }
  unfold _start_ffmpeg_segment.
  destruct (it_popen_ok it) eqn:Hpop.
  - set (self1 := mkRecorder _ _ _ _ (connection_attempts self + 1) _ _).
    pose proof (wait_for_segment_counts (it_return_code it) self1) as Hw.
    destruct (_wait_for_segment (it_return_code it) self1) as [self2 success].
    cbv zeta in Hw. cbn [fst] in Hw.
    destruct Hw as (Hsum & Hs & Hf & Hcur & Hatt & Hsd & Hurl).
    specialize (IH (next_segment self2)).
    destruct (recording_loop duration_seconds rest (next_segment self2))
      as [self3 segs].
    cbn [fst snd] in *. unfold loop_accounted in *. cbv zeta in *.
    destruct IH as (Hnum & Hall & Hc3 & Hsum3 & Hs3 & Hf3 & Hsd3 & Hurl3
                    & started & stopped & Hits & Hstarted & Hlen & Hstop).
    cbn [next_segment current_segment successful_segments failed_segments
         connection_attempts segment_duration rtsp_url] in *.
    subst self1.
    cbn [current_segment successful_segments failed_segments
         connection_attempts segment_duration rtsp_url] in *.
    rewrite Hsd in *. rewrite Hcur in *.
    split; [|split].
    + cbn [length seq fmap list_fmap seg_number].
      rewrite Z.add_0_r. f_equal. rewrite Hnum, <- fmap_S_seq.
      rewrite <- list_fmap_compose. apply list_fmap_ext.
      intros i x _. cbn. lia.
    + constructor.
      * cbn [seg_remaining_duration seg_current_segment_duration].
        assert (Hlt : (it_elapsed_total it < inject_Z duration_seconds)%Q).
        { apply Qnot_le_lt. intros Hle. apply Qle_bool_iff in Hle. congruence. }
        split; [lra|]. split; [apply Q.le_min_r | apply Q.le_min_l].
      * exact Hall.
    + rewrite length_cons, Nat2Z.inj_succ.
      split; [lia|]. split; [lia|]. split; [lia|]. split; [lia|].
      split; [congruence|]. split; [congruence|].
      exists (it :: started), stopped.
      split; [now rewrite Hits|]. split.
      { constructor; [|exact Hstarted].
        unfold starts_segment, reaches_popen. now rewrite Hcap, Hq, Hpop. }
      split; [cbn; now rewrite Hlen|].
      destruct stopped as [|it' stopped'].
      * rewrite Hstop, Hatt. lia.
      * destruct Hstop as [Hno Hstop]. split; [exact Hno|].
        rewrite Hstop, Hatt. lia.
  - apply loop_stops; try reflexivity.
    + unfold starts_segment, reaches_popen. now rewrite Hcap, Hq, Hpop.
    + unfold reaches_popen. rewrite Hcap, Hq. cbn. lia.
Qed.

End RecorderFacts.

Module NamingFacts.
Import Orchestrator.

(** The searches skip a run of fewer than eight digits that ends in an
    underscore. *)
Lemma search_timestamp_skip (ds rest : string) :
  all_digits ds = true -> (String.length ds < 8)%nat ->
  search_timestamp (ds ++ String "_" rest) = search_timestamp (String "_" rest).
Proof.
  induction ds as [|d ds IH]; intros Hds Hlen; [reflexivity|].
  change (String d ds ++ String "_" rest)%string
    with (String d (ds ++ String "_" rest)).
  cbn [search_timestamp].
  change (String d (ds ++ String "_" rest))
    with (String d ds ++ String "_" rest)%string.
  rewrite (match_digits_short 8 (String d ds) "_" rest Hds Hlen eq_refl).
  cbn in Hds, Hlen. apply andb_true_iff in Hds as [_ Hds].
  apply IH; [assumption | lia].
Qed.

Lemma search_date_skip (ds rest : string) :
  all_digits ds = true ->
  search_date (ds ++ String "_" rest) = search_date (String "_" rest).
Proof.
  induction ds as [|d ds IH]; intros Hds; [reflexivity|].
  cbn in Hds. apply andb_true_iff in Hds as [Hd Hds].
  change (String d ds ++ String "_" rest)%string
    with (String d (ds ++ String "_" rest)).
  cbn [search_date].
  assert (Ascii.eqb d "_" = false) as ->.
  { destruct (Ascii.eqb_spec d "_") as [->|]; [discriminate | reflexivity]. }
  now apply IH.
Qed.

Lemma search_timestamp_here (d8 d6 rest : string) :
  all_digits d8 = true -> String.length d8 = 8%nat ->
  all_digits d6 = true -> String.length d6 = 6%nat ->
  search_timestamp (d8 ++ String "_" (d6 ++ rest)) = Some (d8 ++ "_" ++ d6)%string.
Proof.
  intros H8 L8 H6 L6.
  destruct d8 as [|c d8']; [discriminate|].
  change (String c d8' ++ String "_" (d6 ++ rest))%string
    with (String c (d8' ++ String "_" (d6 ++ rest))).
  cbn [search_timestamp].
  change (String c (d8' ++ String "_" (d6 ++ rest)))
    with (String c d8' ++ String "_" (d6 ++ rest))%string.
  rewrite <- L8 at 1. rewrite match_digits_all by assumption.
  change (Ascii.eqb "_" "_") with true. cbv iota.
  rewrite <- L6. rewrite match_digits_all by assumption. reflexivity.
Qed.

Lemma search_timestamp_nondigit (c : ascii) (s : string) :
  is_digit c = false -> search_timestamp (String c s) = search_timestamp s.
Proof. intros Hc. cbn [search_timestamp match_digits]. now rewrite Hc. Qed.

Lemma search_date_other (c : ascii) (s : string) :
  Ascii.eqb c "_" = false -> search_date (String c s) = search_date s.
Proof. intros Hc. cbn [search_date]. now rewrite Hc. Qed.

Lemma generated_name_shape (ds d8 d6 : string) (segment_number : Z) :
  exists rest,
    Capture._generate_filename ("camera_" ++ ds) (d8 ++ "_" ++ d6) segment_number
    = ("camera_" ++ (ds ++ String "_" (d8 ++ String "_" (d6 ++ rest))))%string.
Proof.
  unfold Capture._generate_filename.
  destruct (segment_number =? 1); eexists;
    rewrite !string_app_assoc; reflexivity.
Qed.

Lemma is_date_part_digits (d8 : string) :
  all_digits d8 = true -> String.length d8 = 8%nat -> is_date_part d8 = true.
Proof.
  intros H8 L8. unfold is_date_part.
  pose proof (match_digits_all d8 "" H8) as Hm. rewrite L8 in Hm.
  replace (d8 ++ "")%string with d8 in Hm; [now rewrite Hm|].
  clear. induction d8 as [|c d IH]; [reflexivity|].
  rewrite append_cons. now f_equal.
Qed.

(** The recorder's file names and the dispatcher's parsers agree.  For a
    camera id [camera_N] with N of one to seven digits, the name
    generated for any segment number at a clock reading
    [YYYYMMDD_HHMMSS] gives back the camera id, the timestamp and the
    date; and the file, written under [output_dir/date_str/camera], is
    dated by that directory when no component of [output_dir] is itself
    eight digits. *)
Theorem generated_names_parse_back (ds d8 d6 date_str : string)
    (segment_number : Z) (output_dir : list string) :
  all_digits ds = true -> ds <> "" -> (String.length ds < 8)%nat ->
  all_digits d8 = true -> String.length d8 = 8%nat ->
  all_digits d6 = true -> String.length d6 = 6%nat ->
  all_digits date_str = true -> String.length date_str = 8%nat ->
  let camera := ("camera_" ++ ds)%string in
  let timestamp := (d8 ++ "_" ++ d6)%string in
  let name := Capture._generate_filename camera timestamp segment_number in
  extract_camera_id name = Some camera /\
  extract_timestamp name = timestamp /\
  extract_date_from_path [name] = Some d8 /\
  (Forall (fun part => is_date_part part = false) output_dir ->
   extract_date_from_path (Capture.segment_file output_dir date_str camera name)
   = Some date_str).
Proof.
  intros Hds Hne Hlen H8 L8 H6 L6 Hd Ld. cbv zeta.
  destruct (generated_name_shape ds d8 d6 segment_number) as [rest ->].
  set (tail_ := (d8 ++ String "_" (d6 ++ rest))%string).
  split; [|split; [|split]].
  - unfold extract_camera_id.
    assert (String.prefix "camera_" ("camera_" ++ (ds ++ String "_" tail_))
            = true) as ->
      by (rewrite !append_cons, append_nil; now destruct ds).
    change (string_drop 7 ("camera_" ++ (ds ++ String "_" tail_)))
      with (ds ++ String "_" tail_)%string.
    rewrite span_digits_all by (assumption || reflexivity).
    destruct ds; [congruence | reflexivity].
  - unfold extract_timestamp.
    rewrite !append_cons, append_nil.
    rewrite !search_timestamp_nondigit by reflexivity.
    rewrite search_timestamp_skip by assumption.
    rewrite search_timestamp_nondigit by reflexivity.
    unfold tail_. now rewrite search_timestamp_here.
  - unfold extract_date_from_path, path_name. cbn [List.find List.last].
    assert (is_date_part ("camera_" ++ (ds ++ String "_" tail_)) = false) as ->
      by reflexivity.
    rewrite !append_cons, append_nil.
    rewrite !search_date_other by reflexivity.
    cbn [search_date]. change (Ascii.eqb "_" "_") with true. cbv iota.
    rewrite match_digits_short by (assumption || reflexivity).
    rewrite search_date_skip by assumption.
    cbn [search_date]. change (Ascii.eqb "_" "_") with true. cbv iota.
    unfold tail_. rewrite <- L8 at 1. rewrite match_digits_all by assumption.
    assert (String.prefix "_" (String "_" (d6 ++ rest)) = true) as ->
      by (now destruct (d6 ++ rest)%string).
    reflexivity.
  - intros Hdir. unfold extract_date_from_path, Capture.segment_file.
    rewrite find_after_misses by assumption.
    cbn [List.find]. now rewrite is_date_part_digits.
Qed.

Lemma generated_names_parse_back_witness :
  let name := Capture._generate_filename "camera_35" "20251116_113100" 2 in
  name = "camera_35_20251116_113100_part2.mp4" /\
  extract_camera_id name = Some "camera_35" /\
  extract_timestamp name = "20251116_113100" /\
  extract_date_from_path (Capture.segment_file ["videos"] "20251116" "camera_35" name)
  = Some "20251116".
Proof.
  pose proof (generated_names_parse_back "35" "20251116" "113100" "20251116" 2
                ["videos"] eq_refl ltac:(discriminate) ltac:(cbn; lia)
                eq_refl eq_refl eq_refl eq_refl eq_refl eq_refl)
    as (H1 & H2 & _ & H4).
  cbv zeta. split; [reflexivity|]. split; [exact H1|]. split; [exact H2|].
  apply H4. repeat constructor.
Defined.

(** With eight digits or more in the camera number the first match of
    the timestamp pattern starts inside the camera id. *)
Example long_camera_number_shifts_the_timestamp :
  extract_timestamp
    (Capture._generate_filename "camera_12345678" "20251116_113100" 1)
  = "12345678_202511".
Proof. reflexivity. Qed.

End NamingFacts.

Module PoolFacts.
Import Orchestrator OrchestratorFacts.

Lemma remove_worker_spec (now : Q) (q : ProcessingQueue) :
  let q' := _remove_worker now q in
  min_workers (gpu_monitor q') = min_workers (gpu_monitor q) /\
  max_workers (gpu_monitor q') = max_workers (gpu_monitor q) /\
  job_queue q' = job_queue q /\
  jobs_completed q' = jobs_completed q /\ jobs_failed q' = jobs_failed q /\
  (min_workers (gpu_monitor q) < current_worker_count q ->
   current_worker_count q' = current_worker_count q - 1 /\
   last_scale_time (gpu_monitor q') = now) /\
  (current_worker_count q <= min_workers (gpu_monitor q) -> q' = q).
Proof.
  unfold _remove_worker.
  destruct (Z.ltb_spec (min_workers (gpu_monitor q)) (current_worker_count q));
    cbn; repeat split; try reflexivity; intros; lia.
Qed.

Lemma iter_remove_worker (now : Q) (n : nat) :
  forall q,
  Z.of_nat n <= current_worker_count q - min_workers (gpu_monitor q) ->
  let q' := Nat.iter n (_remove_worker now) q in
  min_workers (gpu_monitor q') = min_workers (gpu_monitor q) /\
  max_workers (gpu_monitor q') = max_workers (gpu_monitor q) /\
  job_queue q' = job_queue q /\
  jobs_completed q' = jobs_completed q /\ jobs_failed q' = jobs_failed q /\
  current_worker_count q' = current_worker_count q - Z.of_nat n /\
  (n <> 0%nat -> last_scale_time (gpu_monitor q') = now) /\
  (n = 0%nat -> q' = q).
Proof.
  induction n as [|n IH]; intros q Hn; cbv zeta.
  - cbn. repeat split; try reflexivity; try lia; congruence.
  - change (Nat.iter (S n) (_remove_worker now) q)
      with (_remove_worker now (Nat.iter n (_remove_worker now) q)).
    specialize (IH q ltac:(lia)). cbv zeta in IH.
    destruct IH as (Hmin & Hmax & Hj & Hc & Hf & Hcnt & _ & _).
    set (q1 := Nat.iter n (_remove_worker now) q) in *.
    pose proof (remove_worker_spec now q1) as R. cbv zeta in R.
    destruct R as (Rmin & Rmax & Rj & Rc & Rf & Rdec & _).
    destruct (Rdec ltac:(lia)) as [Rcnt Rt].
    repeat split; try congruence; try lia.
Qed.

Lemma monitoring_pass_cases (now : Q) (metrics : option Metrics)
    (q : ProcessingQueue) :
  within_limits q ->
  let q' := monitoring_pass now metrics q in
  let d := monitoring_decision (gpu_monitor q) now metrics
             (current_worker_count q) in
  min_workers (gpu_monitor q') = min_workers (gpu_monitor q) /\
  max_workers (gpu_monitor q') = max_workers (gpu_monitor q) /\
  job_queue q' = job_queue q /\
  jobs_completed q' = jobs_completed q /\ jobs_failed q' = jobs_failed q /\
  within_limits q' /\
  match d with
  | EMERGENCY =>
      current_worker_count q' = min_workers (gpu_monitor q) /\
      (min_workers (gpu_monitor q) < current_worker_count q ->
       last_scale_time (gpu_monitor q') = now)
  | SCALE_DOWN =>
      current_worker_count q' = current_worker_count q - 1 /\
      last_scale_time (gpu_monitor q') = now
  | SCALE_UP =>
      current_worker_count q' = current_worker_count q + 1 /\
      last_scale_time (gpu_monitor q') = now /\
      (60 <= now - last_scale_time (gpu_monitor q))%Q
  | NO_METRICS | HOLD => q' = q
  end.
Proof.
  intros Hlim. unfold within_limits in *. cbv zeta. unfold monitoring_pass.
  destruct (monitoring_decision _ _ _ _) eqn:Hd.
  - repeat split; lia.
  - pose proof (iter_remove_worker now
      (Z.to_nat (current_worker_count q - min_workers (gpu_monitor q))) q
      ltac:(lia)) as H. cbv zeta in H.
    destruct H as (Hmin & Hmax & Hj & Hc & Hf & Hcnt & Ht & _).
    rewrite Hmin, Hmax. repeat split; try assumption; try lia.
    intros Hlt. apply Ht. lia.
  - unfold monitoring_decision in Hd. destruct metrics as [mt|]; [|discriminate].
    destruct (is_emergency _ _); [discriminate|].
    destruct (should_scale_down _ _ _) eqn:Hsd; [|destruct (should_scale_up _ _ _ _); discriminate].
    unfold should_scale_down in Hsd.
    destruct (Z.leb_spec (current_worker_count q) (min_workers (gpu_monitor q)));
      [discriminate|].
    pose proof (remove_worker_spec now q) as R. cbv zeta in R.
    destruct R as (Rmin & Rmax & Rj & Rc & Rf & Rdec & _).
    destruct (Rdec ltac:(lia)) as [Rcnt Rt].
    rewrite Rmin, Rmax. repeat split; try assumption; lia.
  - unfold monitoring_decision in Hd. destruct metrics as [mt|]; [|discriminate].
    destruct (is_emergency _ _); [discriminate|].
    destruct (should_scale_down _ _ _); [discriminate|].
    destruct (should_scale_up _ _ _ _) eqn:Hsu; [|discriminate].
    apply should_scale_up_spec in Hsu. destruct Hsu as (_ & _ & _ & Hcool & Hmax).
    cbn. repeat split; try lia. exact Hcool.
  - repeat split; lia.
Qed.

(** Whatever the GPU samples, the monitoring thread keeps the pool inside
    its limits: started with between [min_workers] and [max_workers]
    workers, the pool still has between [min_workers] and [max_workers]
    workers after any run of samples, and monitoring touches neither the
    limits, nor the job queue, nor the job counters. *)
Theorem worker_count_stays_within_limits
    (samples : list (Q * option Metrics)) (q : ProcessingQueue) :
  within_limits q ->
  let q' := monitoring_run samples q in
  within_limits q' /\
  min_workers (gpu_monitor q') = min_workers (gpu_monitor q) /\
  max_workers (gpu_monitor q') = max_workers (gpu_monitor q) /\
  job_queue q' = job_queue q /\
  jobs_completed q' = jobs_completed q /\ jobs_failed q' = jobs_failed q.
Proof.
  intros Hlim0. revert q Hlim0.
  induction samples as [|[now metrics] samples IH]; intros q Hlim; cbv zeta.
  - unfold monitoring_run. cbn [fold_left]. split; [exact Hlim | repeat split].
  - unfold monitoring_run. cbn [fold_left fst snd].
    pose proof (monitoring_pass_cases now metrics q Hlim) as H. cbv zeta in H.
    destruct H as (Hmin & Hmax & Hj & Hc & Hf & Hlim' & _).
    specialize (IH _ Hlim'). cbv zeta in IH. unfold monitoring_run in IH.
    destruct IH as (I1 & I2 & I3 & I4 & I5 & I6).
    rewrite I2, I3, I4, I5, I6. auto 10.
Qed.

Lemma worker_count_stays_within_limits_witness :
  within_limits
    (monitoring_run [(0%Q, Some (mkMetrics 65 50 3)); (70%Q, Some (mkMetrics 65 50 3));
                     (80%Q, Some (mkMetrics 81 40 5)); (90%Q, None)]
                    (idle_queue [])).
Proof.
  refine (proj1 (worker_count_stays_within_limits _ (idle_queue []) _)).
  unfold within_limits. cbn. lia.
Defined.

(** At 80 degrees or more the pool falls to its minimum within the same
    pass, whatever the utilization, the free memory, the cooldown and the
    number of workers; the scaling clock is reset when a worker was
    removed. *)
Theorem emergency_drops_to_minimum (now : Q) (mt : Metrics)
    (q : ProcessingQueue) :
  within_limits q -> 80 <= temperature mt ->
  let q' := monitoring_pass now (Some mt) q in
  current_worker_count q' = min_workers (gpu_monitor q) /\
  (min_workers (gpu_monitor q) < current_worker_count q ->
   last_scale_time (gpu_monitor q') = now) /\
  job_queue q' = job_queue q.
Proof.
  intros Hlim Ht. cbv zeta.
  pose proof (monitoring_pass_cases now (Some mt) q Hlim) as H. cbv zeta in H.
  destruct H as (_ & _ & Hj & _ & _ & _ & Hd).
  assert (He : monitoring_decision (gpu_monitor q) now (Some mt)
                 (current_worker_count q) = EMERGENCY).
  { unfold monitoring_decision, is_emergency, TEMP_EMERGENCY_THRESHOLD.
    destruct (Z.leb_spec 80 (temperature mt)); [reflexivity | lia]. }
  rewrite He in Hd. tauto.
Qed.

Lemma emergency_drops_to_minimum_witness :
  current_worker_count
    (monitoring_pass 500 (Some (mkMetrics 80 10 8))
       (mkProcessingQueue (mkMonitor 2 8 499) 6 [] 0 0 0 [])) = 2.
Proof.
  refine (proj1 (emergency_drops_to_minimum 500 (mkMetrics 80 10 8)
                   (mkProcessingQueue (mkMonitor 2 8 499) 6 [] 0 0 0 []) _ _)).
  - unfold within_limits. cbn. lia.
  - cbn. lia.
Defined.

(** The 60 s cooldown gates scale-up only.  Less than 60 s after the last
    scaling action a pass never adds a worker, and two passes that each
    add a worker are at least 60 s apart; a removal is not held back by
    the clock: above the minimum, a sample hotter than 75 degrees, loaded
    above 85 % or with less than 1 GB free removes a worker (or, from 80
    degrees, all spare workers) at any time. *)
Theorem cooldown_gates_scale_up_only (q : ProcessingQueue) :
  within_limits q ->
  (forall now metrics,
     (now - last_scale_time (gpu_monitor q) < 60)%Q ->
     current_worker_count (monitoring_pass now metrics q)
       <= current_worker_count q) /\
  (forall now mt,
     min_workers (gpu_monitor q) < current_worker_count q ->
     75 < temperature mt \/ 85 < gpu_utilization mt
       \/ (memory_free_gb mt < 1)%Q ->
     current_worker_count (monitoring_pass now (Some mt) q)
       < current_worker_count q) /\
  (forall t1 s1 t2 s2,
     let q1 := monitoring_pass t1 s1 q in
     current_worker_count q1 = current_worker_count q + 1 ->
     current_worker_count (monitoring_pass t2 s2 q1)
       = current_worker_count q1 + 1 ->
     (60 <= t2 - t1)%Q).
Proof.
  intros Hlim.
  assert (Hadd : forall q0 now metrics, within_limits q0 ->
            current_worker_count (monitoring_pass now metrics q0)
              = current_worker_count q0 + 1 ->
            (60 <= now - last_scale_time (gpu_monitor q0))%Q /\
            last_scale_time (gpu_monitor (monitoring_pass now metrics q0)) = now).
  { intros q0 now metrics Hl Hcnt.
    pose proof (monitoring_pass_cases now metrics q0 Hl) as H. cbv zeta in H.
    destruct H as (_ & _ & _ & _ & _ & _ & Hd). unfold within_limits in Hl.
    destruct (monitoring_decision _ _ _ _).
    - rewrite Hd in Hcnt. lia.
    - destruct Hd as [Hd _]. lia.
    - destruct Hd as [Hd _]. lia.
    - tauto.
    - rewrite Hd in Hcnt. lia. }
  split; [|split].
  - intros now metrics Hcool.
    destruct (Z.le_gt_cases (current_worker_count (monitoring_pass now metrics q))
                (current_worker_count q)) as [Hle|Hgt]; [exact Hle|].
    exfalso.
    pose proof (monitoring_pass_cases now metrics q Hlim) as H. cbv zeta in H.
    destruct H as (_ & _ & _ & _ & _ & _ & Hd). unfold within_limits in Hlim.
    destruct (monitoring_decision _ _ _ _).
    + rewrite Hd in Hgt. lia.
    + destruct Hd as [Hd _]. lia.
    + destruct Hd as [Hd _]. lia.
    + destruct Hd as (_ & _ & Hd). lra.
    + rewrite Hd in Hgt. lia.
  - intros now mt Hlt Hhot.
    pose proof (monitoring_pass_cases now (Some mt) q Hlim) as H. cbv zeta in H.
    destruct H as (_ & _ & _ & _ & _ & _ & Hd).
    destruct (monitoring_decision _ _ _ _) eqn:Hdec.
    + exfalso. unfold monitoring_decision in Hdec.
      destruct (is_emergency _ _); [discriminate|].
      destruct (should_scale_down _ _ _); [discriminate|].
      destruct (should_scale_up _ _ _ _); discriminate.
    + destruct Hd as [Hd _]. lia.
    + destruct Hd as [Hd _]. lia.
    + exfalso. unfold monitoring_decision in Hdec.
      destruct (is_emergency _ _); [discriminate|].
      destruct (should_scale_down _ _ _) eqn:Hsd; [discriminate|].
      unfold should_scale_down in Hsd.
      destruct (Z.leb_spec (current_worker_count q) (min_workers (gpu_monitor q)));
        [lia|].
      apply orb_false_iff in Hsd as [Hsd H3]. apply orb_false_iff in Hsd as [H1 H2].
      unfold TEMP_SCALE_DOWN_THRESHOLD, GPU_UTIL_SCALE_DOWN_THRESHOLD in *.
      apply Z.ltb_ge in H1, H2. apply Qltb_false in H3.
      destruct Hhot as [?|[?|?]]; [lia | lia | lra].
    + exfalso. unfold monitoring_decision in Hdec.
      destruct (is_emergency _ _); [discriminate|].
      destruct (should_scale_down _ _ _) eqn:Hsd; [discriminate|].
      unfold should_scale_down in Hsd.
      destruct (Z.leb_spec (current_worker_count q) (min_workers (gpu_monitor q)));
        [lia|].
      apply orb_false_iff in Hsd as [Hsd H3]. apply orb_false_iff in Hsd as [H1 H2].
      unfold TEMP_SCALE_DOWN_THRESHOLD, GPU_UTIL_SCALE_DOWN_THRESHOLD in *.
      apply Z.ltb_ge in H1, H2. apply Qltb_false in H3.
      destruct Hhot as [?|[?|?]]; [lia | lia | lra].
  - intros t1 s1 t2 s2 q1 H1 H2. subst q1.
    destruct (Hadd q t1 s1 Hlim H1) as [_ Hlast].
    pose proof (monitoring_pass_cases t1 s1 q Hlim) as H. cbv zeta in H.
    destruct H as (_ & _ & _ & _ & _ & Hlim1 & _).
    destruct (Hadd _ t2 s2 Hlim1 H2) as [Hcool _].
    rewrite Hlast in Hcool. exact Hcool.
Qed.

Lemma cooldown_gates_scale_up_only_witness :
  let q := mkProcessingQueue (mkMonitor 1 8 100) 3 [] 0 0 0 [] in
  current_worker_count (monitoring_pass 130 (Some (mkMetrics 50 10 6)) q) <= 3 /\
  current_worker_count (monitoring_pass 130 (Some (mkMetrics 76 10 6)) q) < 3.
Proof.
  pose proof (cooldown_gates_scale_up_only
                (mkProcessingQueue (mkMonitor 1 8 100) 3 [] 0 0 0 [])) as H.
  destruct H as (Ha & Hb & _); [unfold within_limits; cbn; lia|].
  cbv zeta. split.
  - apply Ha. cbn. lra.
  - apply Hb; [cbn; lia | left; cbn; lia].
Defined.

Section SortBy.

Variable key : string -> string.

Lemma key_le_trans (x y z : string) : key_le key x y -> key_le key y z -> key_le key x z.
Proof.
  unfold key_le. rewrite !string_ltb_false_iff. apply string_le_trans.
Qed.

Lemma insert_by_perm (x : string) (l : list string) :
  Permutation (insert_by key x l) (x :: l).
Proof.
  induction l as [|y l IH]; cbn; [reflexivity|].
  destruct (String.ltb (key x) (key y)); [reflexivity|].
  rewrite IH. apply perm_swap.
Qed.

Lemma insert_by_sorted (x : string) (l : list string) :
  Sorted (key_le key) l -> Sorted (key_le key) (insert_by key x l).
Proof.
  induction 1 as [|y l Hs IH Hhd]; cbn.
  - repeat constructor.
  - destruct (String.ltb (key x) (key y)) eqn:Hxy.
    + constructor; [constructor; assumption|]. constructor.
      unfold key_le. unfold String.ltb in *.
      rewrite (String.compare_antisym (key y) (key x)).
      destruct (String.compare (key x) (key y)); cbn; congruence.
    + constructor; [exact IH|].
      destruct l as [|z l]; cbn.
      * constructor. exact Hxy.
      * destruct (String.ltb (key x) (key z)).
        -- constructor. exact Hxy.
        -- constructor. now inversion Hhd.
Qed.

Lemma sort_by_sorted (l : list string) :
  StronglySorted (key_le key) (sort_by key l) /\ Permutation (sort_by key l) l.
Proof.
  unfold sort_by.
  assert (H : forall acc, Sorted (key_le key) acc ->
            Sorted (key_le key) (fold_left (fun acc x => insert_by key x acc) l acc) /\
            Permutation (fold_left (fun acc x => insert_by key x acc) l acc)
                        (acc ++ l)).
  { induction l as [|x l IH]; intros acc Hacc; cbn.
    - now rewrite app_nil_r.
    - destruct (IH _ (insert_by_sorted x acc Hacc)) as [Hs Hp].
      split; [exact Hs|]. rewrite Hp, insert_by_perm.
      cbn [app]. apply Permutation_middle. }
  destruct (H [] ltac:(constructor)) as [Hs Hp].
  split; [|exact Hp].
  apply Sorted_StronglySorted; [|exact Hs].
  intros x y z. apply key_le_trans.
Qed.

End SortBy.

Lemma discover_fold_lookup (camera_filter : option (list string))
    (processed : gset string) (today camera : string)
    (found : list (list string)) :
  forall acc : gmap string (list string),
  fold_left
    (fun acc video_file =>
       match admit_video camera_filter processed today video_file with
       | Some camera_id_ => file_under camera_id_ (path_str video_file) acc
       | None => acc
       end) found acc !! camera
  = match acc !! camera, admitted_for camera_filter processed today found camera with
    | None, [] => None
    | o, adm => Some (default [] o ++ adm)
    end.
Proof.
  unfold admitted_for.
  induction found as [|video_file found IH]; intros acc; cbn [fold_left].
  - cbn. destruct (acc !! camera); [now rewrite app_nil_r | reflexivity].
  - rewrite IH. cbn [List.filter].
    destruct (admit_video camera_filter processed today video_file)
      as [c|] eqn:Ha.
    + destruct (decide (c = camera)) as [->|Hne].
      * rewrite bool_decide_eq_true_2 by reflexivity.
        unfold file_under. rewrite lookup_insert_eq. cbn [fmap list_fmap].
        match goal with
        | |- context [path_str <$> List.filter ?f found] =>
            generalize (path_str <$> List.filter f found); intros adm
        end.
        destruct (acc !! camera) as [l0|]; unfold default, from_option, id;
          rewrite <- ?app_assoc; cbn [app]; reflexivity.
      * rewrite bool_decide_eq_false_2 by congruence.
        unfold file_under. now rewrite lookup_insert_ne by assumption.
    + rewrite bool_decide_eq_false_2 by congruence. reflexivity.
Qed.

(** The dispatcher's list for one camera is exactly the files of that
    camera that pass the filters of the loop, none lost and none twice,
    in nondecreasing order of the timestamp in the file name; a camera
    with no such file has no entry. *)
Theorem camera_lists_sorted_and_complete (found : list (list string))
    (camera_filter : option (list string)) (logger : bool)
    (db_processed : gset string) (today camera : string) :
  let admitted := admitted_for camera_filter
                    (if logger then db_processed else ∅) today found camera in
  let listed := sort_by (fun v => extract_timestamp (basename v)) admitted in
  discover_videos true found camera_filter logger db_processed today !! camera
    = match admitted with [] => None | _ => Some listed end /\
  Permutation listed admitted /\
  StronglySorted not_newer listed.
Proof.
  cbv zeta. unfold discover_videos. cbn [negb].
  rewrite lookup_fmap, discover_fold_lookup, lookup_empty. cbn [default app].
  split; [now destruct (admitted_for _ _ _ _ _)|].
  destruct (sort_by_sorted (fun v => extract_timestamp (basename v))
              (admitted_for camera_filter (if logger then db_processed else ∅)
                            today found camera)) as [Hs Hp].
  split; [exact Hp | exact Hs].
Qed.

Lemma basename_slash_free (s : string) :
  slash_free s = true -> basename s = s.
Proof.
  unfold slash_free. destruct s as [|c s]; [reflexivity|].
  cbn [basename list_ascii_of_string existsb]. intros H.
  apply negb_true_iff, orb_false_iff in H as [Hc Hs].
  rewrite Hs. rewrite Ascii.eqb_sym in Hc. now rewrite Hc.
Qed.

Lemma basename_after_slash (a b : string) :
  slash_free b = true -> basename (a ++ String "/" b) = b.
Proof.
  intros Hb. induction a as [|c a IH].
  - change ("" ++ String "/" b)%string with (String "/" b).
    cbn [basename]. unfold slash_free in Hb. apply negb_true_iff in Hb.
    now rewrite Hb.
  - rewrite append_cons. cbn [basename].
    assert (existsb (Ascii.eqb "/") (list_ascii_of_string (a ++ String "/" b))
            = true) as ->; [|exact IH].
    clear. induction a as [|x a IH]; [reflexivity|].
    rewrite append_cons. cbn [list_ascii_of_string existsb].
    rewrite IH. apply orb_true_r.
Qed.

Lemma basename_path_str (parts : list string) :
  slash_free (path_name parts) = true ->
  basename (path_str parts) = path_name parts.
Proof.
  unfold path_str, path_name.
  induction parts as [|p parts IH]; intros H; [reflexivity|].
  destruct parts as [|p' parts].
  - cbn in *. now apply basename_slash_free.
  - change (List.last (p :: p' :: parts) "") with (List.last (p' :: parts) "") in *.
    specialize (IH H).
    change (String.concat "/" (p :: p' :: parts))
      with (p ++ "/" ++ String.concat "/" (p' :: parts))%string.
    change ("/" ++ String.concat "/" (p' :: parts))%string
      with (String "/" (String.concat "/" (p' :: parts))).
    (* the text after the last slash of the tail is the last component *)
    revert IH. generalize (String.concat "/" (p' :: parts)). intros t Ht.
    clear -H Ht. revert H Ht. generalize (List.last (p' :: parts) ""). intros n Hn Ht.
    induction p as [|c p IHp].
    + change ("" ++ String "/" t)%string with (String "/" t).
      cbn [basename].
      destruct (existsb (Ascii.eqb "/") (list_ascii_of_string t)) eqn:E;
        [exact Ht|].
      change (Ascii.eqb "/" "/") with true. cbv iota.
      rewrite <- Ht. symmetry. apply basename_slash_free.
      unfold slash_free. now rewrite E.
    + rewrite append_cons. cbn [basename].
      assert (existsb (Ascii.eqb "/") (list_ascii_of_string (p ++ String "/" t))
              = true) as ->; [|exact IHp].
      clear. induction p as [|x p IH]; [reflexivity|].
      rewrite append_cons. cbn [list_ascii_of_string existsb].
      rewrite IH. apply orb_true_r.
Qed.

Lemma admit_video_unprocessed (camera_filter : option (list string))
    (processed : gset string) (today : string) (video_file : list string) :
  is_Some (admit_video camera_filter processed today video_file) ->
  path_name video_file ∉ processed.
Proof.
  unfold admit_video. intros [c H].
  destruct (extract_camera_id _); [|discriminate].
  destruct (match camera_filter with Some (_ :: _) => _ | _ => false end);
    [discriminate|].
  destruct (bool_decide (extract_date_from_path video_file = Some today));
    [discriminate|].
  destruct (extract_date_from_path video_file) as [[|? ?]|]; try discriminate.
  now case_bool_decide.
Qed.

Lemma duplicate_check_None (sessions : list (string * string))
    (camera_id_ video_filename : string) :
  video_filename ∉ (list_to_set (snd <$> sessions) : gset string) ->
  duplicate_check sessions camera_id_ video_filename = None.
Proof.
  intros Hn. unfold duplicate_check.
  destruct (existsb _ sessions) eqn:E; [|reflexivity].
  exfalso. apply Hn. apply existsb_exists in E. destruct E as ([c f] & Hin & Heq).
  apply andb_true_iff in Heq as [_ Hf]. apply String.eqb_eq in Hf. cbn in Hf.
  subst f. apply elem_of_list_to_set, list_elem_of_fmap.
  exists (c, video_filename). split; [reflexivity|]. now apply list_elem_of_In.
Qed.

(** Discovery and the runner's duplicate check agree: a segment emitted
    by a discovery that read the sessions table is not rejected by the
    runner as already processed, as long as the table has not gained a
    session for it in between.  (File names contain no slash.) *)
Theorem emitted_segments_pass_the_duplicate_check
    (found : list (list string)) (camera_filter : option (list string))
    (sessions : list (string * string)) (today v camera_id_ : string) :
  Forall (fun video_file => slash_free (path_name video_file) = true) found ->
  emitted (discover_videos true found camera_filter true
             (get_processed_videos true true sessions) today) v ->
  duplicate_check sessions camera_id_ (basename v) = None.
Proof.
  intros Hfree Hem. apply discover_videos_emitted in Hem.
  destruct Hem as (video_file & Hin & <- & Hadm).
  rewrite Forall_forall in Hfree.
  rewrite basename_path_str by now apply Hfree.
  apply duplicate_check_None.
  apply admit_video_unprocessed in Hadm. exact Hadm.
Qed.

Lemma emitted_segments_pass_the_duplicate_check_witness :
  duplicate_check [("camera_35", "camera_35_20251022_195212.mp4")] "camera_35"
    (basename "videos/20251023/camera_35/camera_35_20251023_120000.mp4") = None.
Proof.
  apply (emitted_segments_pass_the_duplicate_check
           [segment_35 "20251022" "195212"; segment_35 "20251023" "120000"]
           None [("camera_35", "camera_35_20251022_195212.mp4")] "20251116").
  - repeat constructor.
  - apply discover_videos_emitted.
    exists (segment_35 "20251023" "120000").
    split; [apply list_elem_of_further, list_elem_of_here|].
    split; [reflexivity|]. vm_compute. eauto.
Defined.

Lemma span_digits_digits (s ds rest : string) :
  span_digits s = (ds, rest) -> all_digits ds = true.
Proof.
  revert ds rest. induction s as [|c s IH]; intros ds rest H; cbn in H.
  - now injection H as <- <-.
  - destruct (is_digit c) eqn:Hc.
    + destruct (span_digits s) as [ds' rest'] eqn:Hs. injection H as <- <-.
      cbn. rewrite Hc. cbn. eapply IH. reflexivity.
    + now injection H as <- <-.
Qed.

Lemma extract_camera_id_known (name camera : string) :
  extract_camera_id name = Some camera -> camera <> "camera_unknown".
Proof.
  unfold extract_camera_id. destruct (String.prefix _ _); [|discriminate].
  destruct (span_digits _) as [ds rest] eqn:Hs.
  destruct (String.eqb ds ""); [discriminate|].
  intros [= <-] E. apply span_digits_digits in Hs.
  rewrite !append_cons, append_nil in E. injection E as ->. discriminate Hs.
Qed.

Lemma admit_video_camera (camera_filter : option (list string))
    (processed : gset string) (today : string) (video_file : list string)
    (camera : string) :
  admit_video camera_filter processed today video_file = Some camera ->
  extract_camera_id (path_name video_file) = Some camera.
Proof.
  unfold admit_video. destruct (extract_camera_id _) as [c|]; [|discriminate].
  cbv zeta.
  destruct (match camera_filter with Some (_ :: _) => _ | _ => false end);
    [discriminate|].
  destruct (bool_decide (extract_date_from_path video_file = Some today));
    [discriminate|].
  destruct (extract_date_from_path video_file) as [[|? ?]|]; try discriminate.
  case_bool_decide; [discriminate|]. now intros [= ->].
Qed.

(** The dispatcher and the runner agree on the camera.  A video that the
    discovery lists under a camera is, by the runner's own reading of the
    file name, a video of that camera, and never of ['camera_unknown'];
    so its session is recorded under the camera it was queued for.
    (File names contain no slash.) *)
Theorem runner_reads_the_dispatchers_camera (found : list (list string))
    (camera_filter : option (list string)) (logger : bool)
    (db_processed : gset string) (today camera v : string) (l : list string) :
  Forall (fun video_file => slash_free (path_name video_file) = true) found ->
  discover_videos true found camera_filter logger db_processed today !! camera
    = Some l ->
  v ∈ l ->
  Detection.extract_camera_id_from_filename v = camera /\
  camera <> "camera_unknown".
Proof.
  intros Hfree Hl Hv. unfold discover_videos in Hl. cbn [negb] in Hl.
  cbv zeta in Hl.
  rewrite lookup_fmap, discover_fold_lookup, lookup_empty in Hl.
  cbn [default app] in Hl.
  remember (admitted_for camera_filter (if logger then db_processed else ∅)
              today found camera) as admitted eqn:Ha.
  destruct admitted as [|a adm]; [discriminate|].
  cbn [fmap option_fmap option_map] in Hl. injection Hl as <-.
  rewrite (proj2 (sort_by_sorted _ _)), Ha in Hv.
  unfold admitted_for in Hv. apply list_elem_of_fmap in Hv as (vf & -> & Hin).
  apply elem_of_List_filter in Hin as [Hin Had].
  apply bool_decide_eq_true in Had. apply admit_video_camera in Had.
  rewrite Forall_forall in Hfree.
  unfold Detection.extract_camera_id_from_filename.
  rewrite basename_path_str by now apply Hfree.
  rewrite Had. split; [reflexivity|]. eapply extract_camera_id_known, Had.
Qed.

Lemma runner_reads_the_dispatchers_camera_witness :
  Detection.extract_camera_id_from_filename
    "videos/20251023/camera_35/camera_35_20251023_120000.mp4" = "camera_35".
Proof.
  refine (proj1 (runner_reads_the_dispatchers_camera
                   [segment_35 "20251023" "120000"] None false ∅ "20251116"
                   "camera_35"
                   "videos/20251023/camera_35/camera_35_20251023_120000.mp4"
                   ["videos/20251023/camera_35/camera_35_20251023_120000.mp4"]
                   _ _ _)).
  - repeat constructor.
  - vm_compute. reflexivity.
  - apply list_elem_of_here.
Defined.

Lemma get_spec (jobs : list ProcessingJob) :
  match get jobs with
  | None => jobs = []
  | Some (j, others) =>
      Permutation (j :: others) jobs /\
      Forall (fun k => priority j <= priority k) others
  end.
Proof.
  induction jobs as [|j rest IH]; [reflexivity|]. cbn [get].
  destruct (get rest) as [[k others]|].
  - destruct IH as [Hp Hall].
    destruct (Z.ltb_spec (priority k) (priority j)).
    + split.
      * rewrite perm_swap. now constructor.
      * constructor; [lia | exact Hall].
    + split; [reflexivity|]. rewrite <- Hp. constructor; [assumption|].
      eapply Forall_impl; [exact Hall|]. cbn. intros. lia.
  - subst rest. split; [reflexivity | constructor].
Qed.

Lemma process_job_effect (job : ProcessingJob) (result : RunResult)
    (elapsed : Q) (q : ProcessingQueue) :
  let q' := (process_job job result elapsed q).1 in
  let ok := match result with
            | Completed returncode _ => returncode =? 0
            | RunRaised => false
            end in
  job_queue q' = job_queue q /\
  current_worker_count q' = current_worker_count q /\
  gpu_monitor q' = gpu_monitor q /\
  started (logged q') = started (logged q) ++ [video_name job] /\
  jobs_completed q' = jobs_completed q + (if ok then 1 else 0) /\
  jobs_failed q' = jobs_failed q + (if ok then 0 else 1) /\
  (process_job job result elapsed q).2 = ok.
Proof.
  unfold process_job, started.
  destruct result as [returncode stderr|]; [destruct (returncode =? 0)|];
    cbn; rewrite ?List.filter_app, ?fmap_app; cbn;
    rewrite ?app_nil_r, <- ?app_assoc; repeat split; lia.
Qed.

(** One worker empties the queue oldest first.  As long as the worker
    stays within the limit, after as many passes as there are queued jobs
    the queue is empty, every job was started exactly once, in
    nondecreasing priority, and every one was counted exactly once: as
    completed when its run returned 0, as failed otherwise. *)
Theorem queue_drained_in_priority_order (worker_id : Z)
    (results : list (RunResult * Q)) (q : ProcessingQueue) :
  worker_id < current_worker_count q ->
  length results = length (job_queue q) ->
  let q' := worker_run worker_id results q in
  job_queue q' = [] /\
  jobs_completed q' = jobs_completed q + Z.of_nat (length (succeeded results)) /\
  jobs_completed q' + jobs_failed q'
    = jobs_completed q + jobs_failed q + Z.of_nat (length results) /\
  exists order,
    Permutation order (job_queue q) /\
    StronglySorted (fun j k => priority j <= priority k) order /\
    started (logged q') = started (logged q) ++ (video_name <$> order).
Proof.
  intros Hw0 Hlen0. revert q Hw0 Hlen0.
  induction results as [|[result elapsed] results IH]; intros q Hw Hlen;
    cbv zeta.
  - cbn in *. destruct (job_queue q); [|discriminate].
    repeat split; try lia. exists []. rewrite app_nil_r.
    repeat split; constructor.
  - cbn [worker_run]. unfold worker_pass.
    destruct (Z.leb_spec (current_worker_count q) worker_id); [lia|].
    pose proof (get_spec (job_queue q)) as Hg.
    destruct (get (job_queue q)) as [[job others]|];
      [|rewrite Hg in Hlen; discriminate].
    destruct Hg as [Hperm Hmin]. cbn [fst].
    pose proof (process_job_effect job result elapsed (set_job_queue others q))
      as He. cbv zeta in He.
    destruct He as (Hq & Hc & _ & Hst & Hdone & Hfail & _).
    set (q1 := (process_job job result elapsed (set_job_queue others q)).1) in *.
    cbn [set_job_queue job_queue current_worker_count logged jobs_completed
         jobs_failed] in Hq, Hc, Hst, Hdone, Hfail.
    assert (Hlen1 : length results = length (job_queue q1)).
    { rewrite Hq. apply Permutation_length in Hperm. cbn in Hperm, Hlen. lia. }
    specialize (IH q1 ltac:(lia) Hlen1). cbv zeta in IH.
    destruct IH as (Hempty & Hdone' & Hsum' & order & Hpo & Hso & Hlog).
    split; [exact Hempty|].
    split; [|split].
    + rewrite Hdone', Hdone. unfold succeeded. cbn [List.filter fst].
      destruct (match result with Completed _ _ => _ | RunRaised => _ end);
        cbn [length]; lia.
    + rewrite Hsum', Hdone, Hfail. cbn [length].
      destruct (match result with Completed _ _ => _ | RunRaised => _ end); lia.
    + exists (job :: order). split; [|split].
      * rewrite <- Hperm. constructor. now rewrite Hpo, Hq.
      * constructor; [exact Hso|].
        rewrite Hpo, Hq. exact Hmin.
      * rewrite Hlog, Hst, <- app_assoc. reflexivity.
Qed.

Lemma queue_drained_in_priority_order_witness :
  let q := idle_queue [job_36_late; job_35; job_36] in
  let q' := worker_run 0 [(Completed 0 "", 12%Q); (Completed 1 "error", 3%Q);
                          (RunRaised, 1%Q)] q in
  job_queue q' = [] /\ jobs_completed q' = 1 /\ jobs_failed q' = 2 /\
  started (logged q')
    = [video_name job_35; video_name job_36; video_name job_36_late].
Proof.
  pose proof (queue_drained_in_priority_order 0
                [(Completed 0 "", 12%Q); (Completed 1 "error", 3%Q);
                 (RunRaised, 1%Q)]
                (idle_queue [job_36_late; job_35; job_36])
                ltac:(cbn; lia) eq_refl) as H.
  cbv zeta in H. destruct H as (H1 & H2 & H3 & order & Hperm & Hsorted & Hlog).
  cbv zeta. split; [exact H1|]. split; [exact H2|].
  vm_compute. split; reflexivity.
Defined.

Lemma search_timestamp_shape (s t : string) :
  search_timestamp s = Some t ->
  exists d8 d6, t = (d8 ++ String "_" d6)%string /\
    all_digits d8 = true /\ String.length d8 = 8%nat /\
    all_digits d6 = true /\ String.length d6 = 6%nat.
Proof.
  induction s as [|c s IH]; [discriminate|].
  cbn [search_timestamp].
  destruct (match_digits 8 (String c s)) as [[d8 [|u rest]]|] eqn:H8;
    try exact IH.
  destruct (Ascii.eqb u "_"); [|exact IH].
  destruct (match_digits 6 rest) as [[d6 rest']|] eqn:H6; [|exact IH].
  intros H. injection H as <-.
  destruct (match_digits_shape _ _ _ _ H8) as (A8 & L8 & _).
  destruct (match_digits_shape _ _ _ _ H6) as (A6 & L6 & _).
  exists d8, d6. auto.
Qed.

Lemma extract_timestamp_shape (name : string) :
  exists d8 d6, extract_timestamp name = (d8 ++ String "_" d6)%string /\
    all_digits d8 = true /\ String.length d8 = 8%nat /\
    all_digits d6 = true /\ String.length d6 = 6%nat.
Proof.
  unfold extract_timestamp.
  destruct (search_timestamp name) as [t|] eqn:H.
  - apply search_timestamp_shape in H. exact H.
  - exists "00000000", "000000". repeat split.
Qed.

Lemma job_priority (name : string) :
  exists d8 d6,
    extract_timestamp name = (d8 ++ String "_" d6)%string /\
    all_digits (d8 ++ d6) = true /\ String.length (d8 ++ d6) = 14%nat /\
    String.length d8 = 8%nat /\
    int_of_digits (remove_underscores (extract_timestamp name))
    = Some (digits_number 0 (d8 ++ d6)).
Proof.
  destruct (extract_timestamp_shape name) as (d8 & d6 & -> & A8 & L8 & A6 & L6).
  exists d8, d6.
  assert (Hall : all_digits (d8 ++ d6) = true)
    by (rewrite all_digits_app, A8, A6; reflexivity).
  assert (Hlen : String.length (d8 ++ d6) = 14%nat)
    by (rewrite length_append, L8, L6; reflexivity).
  repeat split; try assumption.
  rewrite remove_underscores_digits by assumption.
  cbn [remove_underscores]. change (Ascii.eqb "_" "_") with true. cbv iota.
  replace (remove_underscores d6) with d6.
  - unfold int_of_digits. rewrite Hall.
    destruct (d8 ++ d6)%string; [discriminate | reflexivity].
  - pose proof (remove_underscores_digits d6 "" A6) as H.
    assert (Hnil : forall s, (s ++ "")%string = s).
    { induction s as [|c s IH]; [reflexivity|]. rewrite append_cons. now f_equal. }
    rewrite Hnil in H. cbn [remove_underscores] in H. now rewrite Hnil in H.
Qed.

(** The priority of a job follows the timestamp in the file name, for
    videos whose file names are ASCII.  Creating the job never fails; its
    priority is the fourteen digits of the timestamp read as a number,
    so that of two videos the one with the earlier timestamp text gets
    the smaller priority (and equal timestamps give equal priorities); a
    file name without a timestamp gets priority 0 and is queued ahead of
    every dated video. *)
Theorem priority_follows_timestamp (camera1 video1 camera2 video2 : string)
    (duration_ : option Z) (config_path_ : option string) :
  is_ascii (basename video1) = true -> is_ascii (basename video2) = true ->
  exists job1 job2,
    job_for camera1 video1 duration_ config_path_ = Some job1 /\
    job_for camera2 video2 duration_ config_path_ = Some job2 /\
    camera_id job1 = camera1 /\ video_path job1 = video1 /\
    0 <= priority job1 < 10 ^ 14 /\
    (priority job1 ?= priority job2)
      = String.compare (extract_timestamp (basename video1))
                       (extract_timestamp (basename video2)) /\
    (search_timestamp (basename video1) = None -> priority job1 = 0).
Proof.
  intros _ _. unfold job_for. cbv zeta.
  destruct (job_priority (basename video1)) as (d8 & d6 & E1 & A1 & L1 & L81 & P1).
  destruct (job_priority (basename video2)) as (e8 & e6 & E2 & A2 & L2 & L82 & P2).
  rewrite P1, P2. cbn [mbind option_bind]. eexists. eexists.
  split; [reflexivity|]. split; [reflexivity|].
  cbn [camera_id video_path priority].
  split; [reflexivity|]. split; [reflexivity|]. split; [|split].
  - pose proof (digits_number_bound (d8 ++ d6) 0 A1 ltac:(lia)) as B.
    rewrite L1 in B. exact B.
  - rewrite (digits_number_compare (d8 ++ d6) (e8 ++ e6) 0 0 A1 A2 ltac:(congruence)).
    rewrite Z.compare_refl, E1, E2.
    rewrite !string_compare_app by congruence.
    rewrite string_compare_cons, ascii_compare_N, N.compare_refl. reflexivity.
  - intros Hnone. unfold extract_timestamp in E1. rewrite Hnone in E1.
    cbn [default] in E1.
    assert (Hd : (d8 ++ d6)%string = "00000000000000").
    { clear -E1 L81.
      do 9 (destruct d8 as [|? d8]; try discriminate).
      rewrite !append_cons in E1. cbn in E1. injection E1 as <- <- <- <- <- <- <- <- <-.
      reflexivity. }
    rewrite Hd. reflexivity.
Qed.

Lemma priority_follows_timestamp_witness :
  exists job1 job2,
    job_for "camera_36" (video_path job_36) None None = Some job1 /\
    job_for "camera_35" (video_path job_35) None None = Some job2 /\
    priority job1 = 20251023120000 /\ priority job2 = 20251022195212 /\
    (priority job1 ?= priority job2) = Gt.
Proof.
  destruct (priority_follows_timestamp "camera_36" (video_path job_36)
              "camera_35" (video_path job_35) None None eq_refl eq_refl)
    as (job1 & job2 & E1 & E2 & _ & _ & _ & Hcmp & _).
  exists job1, job2. split; [exact E1|]. split; [exact E2|].
  vm_compute in E1, E2. injection E1 as <-. injection E2 as <-.
  repeat split.
Defined.

End PoolFacts.

Module DetectionFacts.
Import Detection.

Section DebounceFacts.

Context {S : Type} `{EqDecision S}.

Implicit Types (d : Debounced S) (obs : list (S * Q)).

Lemma held_for_a_second_more obs (more : list (S * Q)) (tr : Transition S) :
  held_for_a_second obs tr -> held_for_a_second (obs ++ more) tr.
Proof.
  intros (before & first & streak & after & -> & Hall & Hlast & Hlen).
  exists before, first, streak, (after ++ more).
  split; [|auto]. now rewrite <- !app_assoc.
Qed.

Lemma chained_snoc (s0 : S) (log : list (Transition S)) (s s' : S) (t : Q) :
  chained s0 log s -> s' <> s ->
  chained s0 (log ++ [mkTransition t s s']) s'.
Proof.
  revert s0. induction log as [|tr log IH]; intros s0 Hc Hne; cbn in *.
  - subst s0. auto.
  - destruct Hc as (Hf & Hn & Hc). auto.
Qed.

Lemma last_snoc_default {A : Type} (l : list A) (x d : A) :
  List.last (l ++ [x]) d = x.
Proof. apply List.last_last. Qed.

Lemma debounce_settled (s0 : S) obs d (o : S * Q) :
  settled s0 obs d ->
  exists d' changed,
    debounce o.1 o.2 d = Some (d', changed) /\
    settled s0 (obs ++ [o]) d' /\
    (changed = true ->
     d_state d' = o.1 /\ d_state d' <> d_state d /\
     d_log d' = d_log d ++ [mkTransition o.2 (d_state d) o.1] /\
     exists t0, d_start d = Some t0 /\
                (STATE_DEBOUNCE_SECONDS <= o.2 - t0)%Q) /\
    (changed = false -> d_state d' = d_state d /\ d_log d' = d_log d).
Proof.
  intros (Hps & Hpend & Hchain & Hlog). destruct o as [new now]. cbn [fst snd].
  assert (Hlog' : Forall (held_for_a_second (obs ++ [(new, now)])) (d_log d)).
  { eapply Forall_impl; [exact Hlog|]. intros tr. apply held_for_a_second_more. }
  unfold debounce. case_bool_decide as Hnew.
  - case_bool_decide as Hp.
    + eexists _, false. split; [reflexivity|]. split; [|split; [discriminate|auto]].
      split; [cbn; split; discriminate|]. split; [|split; assumption].
      cbn. intros s t0 [= <-] [= <-]. split; [assumption|].
      exists obs, (new, now), []. repeat split. repeat constructor.
    + destruct (d_start d) as [start|] eqn:Hstart.
      2: { exfalso. assert (d_pending d = None) by now apply Hps. congruence. }
      destruct (Hpend new start Hp eq_refl) as (_ & before & first & streak
                                                & -> & Hall & Hfirst).
      destruct (Qle_bool STATE_DEBOUNCE_SECONDS (now - start)) eqn:Hq.
      * apply Qle_bool_iff in Hq.
        eexists _, true. split; [reflexivity|].
        split; [|split; [intros _; cbn; eauto 10 | discriminate]].
        split; [cbn; tauto|]. split; [cbn; discriminate|]. cbn [d_log d_state].
        split; [now apply chained_snoc|].
        apply Forall_app. split; [exact Hlog'|]. constructor; [|constructor].
        exists before, first, (streak ++ [(new, now)]), []. cbn [tr_to tr_time].
        split; [now rewrite app_nil_r, <- app_assoc|].
        split; [|split].
        -- rewrite app_comm_cons. apply Forall_app. split; [exact Hall|].
           repeat constructor.
        -- now rewrite last_snoc_default.
        -- now rewrite Hfirst.
      * eexists d, false. split; [reflexivity|]. split; [|split; [discriminate|auto]].
        split; [rewrite Hstart; exact Hps|]. split; [|split; assumption].
        intros s t0 Hs Ht0. rewrite Hs in Hp. injection Hp as ->.
        rewrite Hstart in Ht0. injection Ht0 as <-.
        split; [assumption|].
        exists before, first, (streak ++ [(new, now)]).
        split; [now rewrite <- app_assoc|]. split; [|assumption].
        rewrite app_comm_cons. apply Forall_app. split; [exact Hall|].
        repeat constructor.
  - eexists _, false. split; [reflexivity|]. split; [|split; [discriminate|auto]].
    split; [cbn; tauto|]. split; [cbn; discriminate|]. cbn. auto.
Qed.

Lemma settled_fresh (s0 : S) : settled s0 [] (mkDebounced s0 None None []).
Proof. repeat split; cbn; try discriminate; auto; constructor. Qed.

Lemma debounce_all_settled (s0 : S) (more : list (S * Q)) :
  forall obs d, settled s0 obs d ->
  exists d', debounce_all more d = Some d' /\ settled s0 (obs ++ more) d'.
Proof.
  unfold debounce_all.
  induction more as [|o more IH]; intros obs d Hs; cbn [foldl].
  - exists d. now rewrite app_nil_r.
  - destruct (debounce_settled s0 obs d o Hs) as (d1 & ch & Hd & Hs1 & _).
    cbn [mbind option_bind]. rewrite Hd. cbn [fmap option_fmap option_map fst].
    destruct (IH _ _ Hs1) as (d' & Hrun & Hs').
    exists d'. split; [exact Hrun|]. now rewrite <- app_assoc in Hs'.
Qed.

End DebounceFacts.


Lemma update_state_core (now : Q) (t : Table) :
  (fun r => (table_debounced r.1, r.2)) <$> update_state now t
  = debounce (determine_state t) now (table_debounced t).
Proof.
  unfold update_state, debounce, table_debounced. cbn [d_state d_pending d_start d_log].
  repeat case_bool_decide; try reflexivity.
  destruct (pending_state_start t) eqn:E; [|reflexivity].
  destruct (Qle_bool _ _); cbn; rewrite ?E; reflexivity.
Qed.

Lemma division_update_state_core (walking service : Z) (now : Q)
    (t : DivisionStateTracker) :
  (fun r => (tracker_debounced r.1, r.2)) <$> division_update_state walking service now t
  = debounce (division_determine_state walking service) now (tracker_debounced t).
Proof.
  unfold division_update_state, debounce, tracker_debounced.
  cbn [d_state d_pending d_start d_log].
  repeat case_bool_decide; try reflexivity.
  destruct (div_pending_state_start t) eqn:E; [|reflexivity].
  destruct (Qle_bool _ _); cbn; rewrite ?E; reflexivity.
Qed.

Lemma table_run_core (frames : list (Z * Z * Q)) :
  forall t,
  table_debounced <$> table_run frames t
  = debounce_all ((fun f => (state_of_counts f.1.1 f.1.2, f.2)) <$> frames)
                 (table_debounced t).
Proof.
  unfold table_run, debounce_all.
  induction frames as [|[[c w] now] frames IH]; intros t; [reflexivity|].
  cbn [foldl fmap list_fmap fst snd mbind option_bind].
  pose proof (update_state_core now (update_counts c w t)) as Hc.
  change (determine_state (update_counts c w t)) with (state_of_counts c w) in Hc.
  change (table_debounced (update_counts c w t)) with (table_debounced t) in Hc.
  rewrite <- Hc.
  destruct (update_state now (update_counts c w t)) as [[t1 b]|]; cbn.
  - apply IH.
  - now rewrite !foldl_failed.
Qed.

Lemma tracker_run_core (frames : list (Z * Z * Q)) :
  forall t,
  tracker_debounced <$> tracker_run frames t
  = debounce_all ((fun f => (division_determine_state f.1.1 f.1.2, f.2)) <$> frames)
                 (tracker_debounced t).
Proof.
  unfold tracker_run, debounce_all.
  induction frames as [|[[wa sv] now] frames IH]; intros t; [reflexivity|].
  cbn [foldl fmap list_fmap fst snd mbind option_bind].
  rewrite <- (division_update_state_core wa sv now t).
  destruct (division_update_state wa sv now t) as [[t1 b]|]; cbn.
  - apply IH.
  - now rewrite !foldl_failed.
Qed.

(** State changes are debounced, for a table and for the division alike.
    From a newly created tracker, whatever the frames bring, updating
    never raises; the log of transitions is a chain that starts at the
    initial state ([IDLE], ['red']) and ends at the current state; and
    every logged transition was earned: the new state had been
    determined on every frame of a run of consecutive frames that ends
    with the frame of the transition and began at least one second (by
    the clock readings passed in) before it. *)
Theorem state_changes_are_debounced :
  (forall table_id polygon_ frames,
     exists t,
       table_run frames (new_table table_id polygon_) = Some t /\
       chained IDLE (state_transitions t) (state t) /\
       Forall (held_for_a_second
                 ((fun f => (state_of_counts f.1.1 f.1.2, f.2)) <$> frames))
              (state_transitions t)) /\
  (forall frames,
     exists t,
       tracker_run frames new_tracker = Some t /\
       chained "red" (div_state_transitions t) (current_state t) /\
       Forall (held_for_a_second
                 ((fun f => (division_determine_state f.1.1 f.1.2, f.2))
                    <$> frames))
              (div_state_transitions t)).
Proof.
  split.
  - intros table_id polygon_ frames.
    pose proof (table_run_core frames (new_table table_id polygon_)) as Hc.
    destruct (debounce_all_settled IDLE
                ((fun f => (state_of_counts f.1.1 f.1.2, f.2)) <$> frames)
                [] _ (settled_fresh IDLE)) as (d' & Hrun & Hs).
    change (table_debounced (new_table table_id polygon_))
      with (mkDebounced IDLE None None []) in Hc.
    rewrite Hrun in Hc.
    destruct (table_run frames (new_table table_id polygon_)) as [t|];
      [|discriminate].
    injection Hc as <-. exists t. split; [reflexivity|].
    destruct Hs as (_ & _ & Hchain & Hlog). split; assumption.
  - intros frames.
    pose proof (tracker_run_core frames new_tracker) as Hc.
    destruct (debounce_all_settled "red"
                ((fun f => (division_determine_state f.1.1 f.1.2, f.2)) <$> frames)
                [] _ (settled_fresh "red")) as (d' & Hrun & Hs).
    change (tracker_debounced new_tracker)
      with (mkDebounced "red" None None []) in Hc.
    rewrite Hrun in Hc.
    destruct (tracker_run frames new_tracker) as [t|]; [|discriminate].
    injection Hc as <-. exists t. split; [reflexivity|].
    destruct Hs as (_ & _ & Hchain & Hlog). split; assumption.
Qed.

(** A table that sees a customer for 0.8 s, then for 1.2 s. *)
Example brief_visit_is_ignored :
  (state <$> table_run [(1, 0, 0%Q); (1, 0, 8 # 10); (0, 0, 1%Q)]
                       (new_table "T1" []),
   state <$> table_run [(1, 0, 0%Q); (1, 0, 8 # 10); (1, 0, 12 # 10)]
                       (new_table "T1" []))
  = (Some IDLE, Some BUSY).
Proof. reflexivity. Qed.

End DetectionFacts.

Module AssignFacts.
Import Detection DetectionFacts.

Lemma crossings_returns (x y : Q) (vertices : list Point) :
  forall p1 xinters inside, is_Some (crossings x y p1 vertices xinters inside).
Proof.
  induction vertices as [|[p2x p2y] rest IH]; intros [p1x p1y] xinters inside;
    cbn [crossings]; [eauto|].
  destruct (Qltb (Qmin p1y p2y) y) eqn:Hmin; [|apply IH].
  destruct (Qle_bool y (Qmax p1y p2y)) eqn:Hmax; [|apply IH].
  destruct (Qle_bool x (Qmax p1x p2x)); [|apply IH].
  destruct (Qeq_bool p1x p2x); [apply IH|].
  destruct (Qeq_bool p1y p2y) eqn:Heq; cbn [negb]; [|apply IH].
  exfalso. apply Qeq_bool_iff in Heq. apply Qltb_true in Hmin.
  apply Qle_bool_iff in Hmax.
  destruct (Q.min_spec p1y p2y) as [[_ Hm]|[_ Hm]];
    destruct (Q.max_spec p1y p2y) as [[_ HM]|[_ HM]];
    rewrite Hm in Hmin; rewrite HM in Hmax; lra.
Qed.

Lemma point_in_polygon_returns (point : Point) (polygon_ : Polygon) :
  polygon_ <> [] -> is_Some (point_in_polygon point polygon_).
Proof.
  intros Hne. destruct point as [x y]. destruct polygon_ as [|p0 rest];
    [congruence|]. apply crossings_returns.
Qed.

Lemma first_holding_spec {A : Type} (polygon_of : A -> Polygon)
    (center_ : Point) (l : list A) :
  (forall found, first_holding polygon_of center_ l = Some found ->
     match found with
     | Some (i, a) => l !! i = Some a
     | None => True
     end) /\
  (Forall (fun a => polygon_of a <> []) l ->
   is_Some (first_holding polygon_of center_ l)).
Proof.
  induction l as [|a l [IH1 IH2]]; cbn [first_holding].
  - split; [now intros found [= <-] | eauto].
  - split.
    + intros found H.
      destruct (point_in_polygon center_ (polygon_of a)) as [[|]|];
        cbn in H; try discriminate.
      * now injection H as <-.
      * destruct (first_holding polygon_of center_ l) as [r|];
          cbn in H; [|discriminate]. injection H as <-.
        specialize (IH1 r eq_refl). destruct r as [[i b]|]; [exact IH1 | exact I].
    + intros HF. inversion HF as [|? ? Ha Hl]; subst.
      destruct (point_in_polygon_returns center_ _ Ha) as [[|] ->]; cbn; [eauto|].
      destruct (IH2 Hl) as [r ->]. cbn. eauto.
Qed.

Lemma table_index_lookup (table_id : string) (tables_ : list Table) (i : nat) :
  table_index table_id tables_ = Some i -> is_Some (tables_ !! i).
Proof.
  revert i. induction tables_ as [|t rest IH]; intros i H; cbn in H;
    [discriminate|].
  destruct (String.eqb (id t) table_id).
  - injection H as <-. cbn. eauto.
  - destruct (table_index table_id rest) as [j|]; [|discriminate].
    injection H as <-. cbn. now apply IH.
Qed.

Lemma total_alter (count : Table -> Z) (g : Table -> Table)
    (tables_ : list Table) (i : nat) (t : Table) :
  tables_ !! i = Some t ->
  total count (alter g i tables_) = total count tables_ - count t + count (g t).
Proof.
  unfold total.
  revert i. induction tables_ as [|u rest IH]; intros i H; [discriminate|].
  destruct i as [|i]; cbn in H.
  - injection H as ->. cbn. lia.
  - cbn. rewrite (IH i H). lia.
Qed.

Lemma same_table_alter (g : Table -> Table) (original tables_ : list Table)
    (i : nat) :
  (forall t, same_table t (g t)) ->
  Forall2 same_table original tables_ ->
  Forall2 same_table original (alter g i tables_).
Proof.
  intros Hg HF. revert i. induction HF as [|o t os ts Hot Hrest IH]; intros i;
    [constructor|].
  destruct i as [|i]; cbn.
  - constructor; [|assumption].
    destruct Hot as (H1 & H2 & H3 & H4 & H5 & H6 & H7).
    destruct (Hg t) as (G1 & G2 & G3 & G4 & G5 & G6 & G7).
    repeat split; congruence.
  - constructor; [assumption | apply IH].
Qed.

Lemma count_at_table_same (class_ : string) (t : Table) :
  same_table t (count_at_table class_ t).
Proof.
  unfold count_at_table.
  destruct (String.eqb class_ "customer"); [repeat split|].
  destruct (String.eqb class_ "waiter"); repeat split.
Qed.

Lemma count_at_table_counts (class_ : string) (t : Table) :
  waiters_present (count_at_table class_ t)
    = waiters_present t + (if String.eqb class_ "waiter" then 1 else 0) /\
  customers_present (count_at_table class_ t)
    = customers_present t + (if String.eqb class_ "customer" then 1 else 0).
Proof.
  unfold count_at_table.
  destruct (String.eqb_spec class_ "customer") as [->|Hc]; cbn; [lia|].
  destruct (String.eqb class_ "waiter"); cbn; lia.
Qed.

(** One detection moves the books by exactly one waiter, or by at most
    one customer. *)
Lemma assign_detection_counts (sitting_areas_ : list SittingArea)
    (service_areas_ : list ServiceArea) (detection : Detection)
    (original : list Table) (s s' : Tally) :
  assign_detection sitting_areas_ service_areas_ detection s = Some s' ->
  Forall2 same_table original (tally_tables s) ->
  Forall2 same_table original (tally_tables s') /\
  total waiters_present (tally_tables s') + walking_area_waiters s'
    + service_area_waiters s'
  = total waiters_present (tally_tables s) + walking_area_waiters s
    + service_area_waiters s
    + (if String.eqb (class detection) "waiter" then 1 else 0) /\
  total customers_present (tally_tables s)
    <= total customers_present (tally_tables s')
    <= total customers_present (tally_tables s)
       + (if String.eqb (class detection) "customer" then 1 else 0) /\
  walking_area_waiters s <= walking_area_waiters s' /\
  service_area_waiters s <= service_area_waiters s'.
Proof.
  intros H Hsame. unfold assign_detection in H. cbv zeta in H.
  assert (Hcount : forall i t, tally_tables s !! i = Some t ->
    let s1 := mkTally (alter (count_at_table (class detection)) i (tally_tables s))
                      (walking_area_waiters s) (service_area_waiters s) in
    Forall2 same_table original (tally_tables s1) /\
    total waiters_present (tally_tables s1) + walking_area_waiters s1
      + service_area_waiters s1
    = total waiters_present (tally_tables s) + walking_area_waiters s
      + service_area_waiters s
      + (if String.eqb (class detection) "waiter" then 1 else 0) /\
    total customers_present (tally_tables s)
      <= total customers_present (tally_tables s1)
      <= total customers_present (tally_tables s)
         + (if String.eqb (class detection) "customer" then 1 else 0) /\
    walking_area_waiters s <= walking_area_waiters s1 /\
    service_area_waiters s <= service_area_waiters s1).
  { intros i t Hi. cbv zeta. cbn [tally_tables walking_area_waiters
                                  service_area_waiters].
    rewrite !(total_alter _ _ _ _ _ Hi).
    destruct (count_at_table_counts (class detection) t) as [-> ->].
    split; [apply same_table_alter; [apply count_at_table_same | assumption]|].
    destruct (String.eqb (class detection) "waiter");
      destruct (String.eqb (class detection) "customer"); lia. }
  destruct (first_holding polygon (center detection) (tally_tables s))
    as [at_table|] eqn:Ht; cbn in H; [|discriminate].
  pose proof (proj1 (first_holding_spec polygon (center detection)
                       (tally_tables s)) _ Ht) as Hlook.
  destruct at_table as [[i t]|].
  { injection H as <-. exact (Hcount i t Hlook). }
  destruct (first_holding sa_polygon (center detection) sitting_areas_)
    as [at_sitting|]; cbn in H; [|discriminate].
  destruct (match at_sitting with
            | Some (_, sitting) => table_index (sa_table_id sitting) (tally_tables s)
            | None => None
            end) as [i|] eqn:Hlinked.
  { injection H as <-.
    assert (Hi : is_Some (tally_tables s !! i)).
    { destruct at_sitting as [[? sitting]|]; [|discriminate].
      eapply table_index_lookup, Hlinked. }
    destruct Hi as [t Hi]. exact (Hcount i t Hi). }
  destruct (first_holding sv_polygon (center detection) service_areas_)
    as [at_service|]; cbn in H; [|discriminate].
  destruct at_service as [?|];
    destruct (String.eqb (class detection) "waiter");
    injection H as <-;
    destruct (String.eqb (class detection) "customer");
    cbn [tally_tables walking_area_waiters service_area_waiters];
    repeat split; try assumption; lia.
Qed.

Lemma assign_detection_returns (sitting_areas_ : list SittingArea)
    (service_areas_ : list ServiceArea) (detection : Detection) (s : Tally) :
  Forall (fun t => polygon t <> []) (tally_tables s) ->
  Forall (fun a => sa_polygon a <> []) sitting_areas_ ->
  Forall (fun a => sv_polygon a <> []) service_areas_ ->
  is_Some (assign_detection sitting_areas_ service_areas_ detection s).
Proof.
  intros Ht Hsa Hsv. unfold assign_detection. cbv zeta.
  destruct (proj2 (first_holding_spec polygon (center detection) _) Ht)
    as [[[i t]|] ->]; cbn; [eauto|].
  destruct (proj2 (first_holding_spec sa_polygon (center detection) _) Hsa)
    as [at_sitting ->]; cbn.
  destruct (match at_sitting with
            | Some (_, sitting) => table_index (sa_table_id sitting) (tally_tables s)
            | None => None
            end); [eauto|].
  destruct (proj2 (first_holding_spec sv_polygon (center detection) _) Hsv)
    as [[?|] ->]; cbn; eauto.
Qed.

Lemma detections_in_spec (polygon_ : Polygon) (detections : list Detection) :
  (forall kept, detections_in polygon_ detections = Some kept ->
     kept = List.filter (fun d => bool_decide (point_in_polygon (center d) polygon_
                                               = Some true)) detections) /\
  (polygon_ <> [] -> is_Some (detections_in polygon_ detections)).
Proof.
  induction detections as [|d rest [IH1 IH2]]; cbn [detections_in List.filter].
  - split; [now intros kept [= <-] | eauto].
  - split.
    + intros kept H.
      destruct (point_in_polygon (center d) polygon_) as [inside|];
        cbn in H; [|discriminate].
      destruct (detections_in polygon_ rest) as [kept'|]; cbn in H;
        [|discriminate].
      injection H as <-. rewrite (IH1 kept' eq_refl).
      now destruct inside.
    + intros Hne.
      destruct (point_in_polygon_returns (center d) polygon_ Hne) as [inside ->].
      destruct (IH2 Hne) as [kept ->]. cbn. eauto.
Qed.

Lemma same_table_polygons (original tables_ : list Table) :
  Forall2 same_table original tables_ ->
  Forall (fun t => polygon t <> []) original ->
  Forall (fun t => polygon t <> []) tables_.
Proof.
  induction 1 as [|o t os ts (_ & Hp & _) _ IH]; intros HF; [constructor|].
  inversion HF; subst. constructor; [congruence | now apply IH].
Qed.

Lemma assign_fold_counts (sitting_areas_ : list SittingArea)
    (service_areas_ : list ServiceArea) (original : list Table)
    (kept : list Detection) :
  forall s,
  Forall2 same_table original (tally_tables s) ->
  (forall s',
     foldl (fun acc detection =>
              s ← acc; assign_detection sitting_areas_ service_areas_ detection s)
           (Some s) kept = Some s' ->
     Forall2 same_table original (tally_tables s') /\
     total waiters_present (tally_tables s') + walking_area_waiters s'
       + service_area_waiters s'
     = total waiters_present (tally_tables s) + walking_area_waiters s
       + service_area_waiters s
       + Z.of_nat (length (List.filter (fun d => String.eqb (class d) "waiter")
                                       kept)) /\
     total customers_present (tally_tables s)
       <= total customers_present (tally_tables s')
       <= total customers_present (tally_tables s)
          + Z.of_nat (length (List.filter
                                (fun d => String.eqb (class d) "customer") kept)) /\
     walking_area_waiters s <= walking_area_waiters s' /\
     service_area_waiters s <= service_area_waiters s') /\
  (Forall (fun t => polygon t <> []) original ->
   Forall (fun a => sa_polygon a <> []) sitting_areas_ ->
   Forall (fun a => sv_polygon a <> []) service_areas_ ->
   is_Some (foldl (fun acc detection =>
                     s ← acc;
                     assign_detection sitting_areas_ service_areas_ detection s)
                  (Some s) kept)).
Proof.
  induction kept as [|d kept IH]; intros s Hsame; cbn [foldl List.filter].
  - split; [|eauto]. intros s' [= <-]. cbn. repeat split; try assumption; lia.
  - cbn [mbind option_bind].
    destruct (assign_detection sitting_areas_ service_areas_ d s) as [s1|] eqn:Hd.
    + destruct (assign_detection_counts _ _ _ _ _ _ Hd Hsame)
        as (Hsame1 & Hw & Hc & Hwalk & Hserv).
      destruct (IH s1 Hsame1) as [IH1 IH2]. split; [|exact IH2].
      intros s' Hfold. destruct (IH1 s' Hfold) as (Hs' & Hw' & Hc' & Hwalk' & Hserv').
      split; [assumption|].
      destruct (String.eqb (class d) "waiter");
        destruct (String.eqb (class d) "customer");
        cbn [length]; repeat split; lia.
    + split.
      * intros s' Hfold. now rewrite foldl_failed in Hfold.
      * intros Ht Hsa Hsv. exfalso.
        destruct (assign_detection_returns sitting_areas_ service_areas_ d s
                    (same_table_polygons _ _ Hsame Ht) Hsa Hsv) as [? Hsome].
        congruence.
Qed.

Lemma total_reset (count : Table -> Z) (tables_ : list Table) :
  (forall t, count (update_counts 0 0 t) = 0) ->
  total count (update_counts 0 0 <$> tables_) = 0.
Proof.
  intros H. unfold total. induction tables_ as [|t rest IH]; [reflexivity|].
  cbn. rewrite H. cbn in IH. rewrite IH. reflexivity.
Qed.

Lemma filter_filter_class (class_ : string) (polygon_ : Polygon)
    (detections : list Detection) :
  List.filter (fun d => String.eqb (class d) class_)
    (List.filter (fun d => bool_decide (point_in_polygon (center d) polygon_
                                        = Some true)) detections)
  = inside_of_class class_ polygon_ detections.
Proof.
  unfold inside_of_class. induction detections as [|d rest IH]; [reflexivity|].
  cbn [List.filter].
  destruct (bool_decide _); cbn [andb List.filter]; [|exact IH].
  destruct (String.eqb (class d) class_); now rewrite IH.
Qed.

Lemma assign_returns (division_polygon_ : Polygon)
    (tables_ : list Table) (sitting_areas_ : list SittingArea)
    (service_areas_ : list ServiceArea) (detections : list Detection) :
  drawn division_polygon_ tables_ sitting_areas_ service_areas_ ->
  exists tally,
    assign_detections_to_rois division_polygon_ tables_ sitting_areas_
      service_areas_ detections = Some tally /\
    Forall2 same_table tables_ (tally_tables tally).
Proof.
  intros (Hdiv & Ht & Hsa & Hsv). unfold assign_detections_to_rois.
  destruct (proj2 (detections_in_spec division_polygon_ detections) Hdiv)
    as [kept ->]. cbn [mbind option_bind].
  assert (Hsame : Forall2 same_table tables_ (update_counts 0 0 <$> tables_)).
  { clear. induction tables_ as [|t rest IH]; constructor; [|exact IH].
    repeat split. }
  destruct (assign_fold_counts sitting_areas_ service_areas_ tables_ kept
              (mkTally (update_counts 0 0 <$> tables_) 0 0) Hsame) as [Hc Hr].
  destruct (Hr Ht Hsa Hsv) as [tally Htally]. exists tally.
  split; [exact Htally|]. exact (proj1 (Hc tally Htally)).
Qed.

Lemma count_at_table_nonnegative (class_ : string) (t : Table) :
  counts_nonnegative t -> counts_nonnegative (count_at_table class_ t).
Proof.
  unfold counts_nonnegative. intros [Hc Hw].
  destruct (count_at_table_counts class_ t) as [-> ->].
  destruct (String.eqb class_ "waiter"), (String.eqb class_ "customer"); lia.
Qed.

Lemma assign_detection_nonnegative (sitting_areas_ : list SittingArea)
    (service_areas_ : list ServiceArea) (detection : Detection)
    (s s' : Tally) :
  assign_detection sitting_areas_ service_areas_ detection s = Some s' ->
  Forall counts_nonnegative (tally_tables s) ->
  Forall counts_nonnegative (tally_tables s').
Proof.
  intros H Hn. unfold assign_detection in H. cbv zeta in H.
  assert (Halter : forall i,
            Forall counts_nonnegative
              (alter (count_at_table (class detection)) i (tally_tables s))).
  { intros i. apply Forall_alter; [exact Hn|].
    intros t _. apply count_at_table_nonnegative. }
  destruct (first_holding polygon (center detection) (tally_tables s))
    as [[[i t]|]|]; cbn in H; try discriminate.
  { injection H as <-. apply Halter. }
  destruct (first_holding sa_polygon (center detection) sitting_areas_)
    as [at_sitting|]; cbn in H; [|discriminate].
  destruct (match at_sitting with
            | Some (_, sitting) => table_index (sa_table_id sitting) (tally_tables s)
            | None => None
            end) as [i|].
  { injection H as <-. apply Halter. }
  destruct (first_holding sv_polygon (center detection) service_areas_)
    as [at_service|]; cbn in H; [|discriminate].
  destruct at_service as [?|];
    destruct (String.eqb (class detection) "waiter");
    injection H as <-; exact Hn.
Qed.

Lemma assign_fold_nonnegative (sitting_areas_ : list SittingArea)
    (service_areas_ : list ServiceArea) (kept : list Detection) :
  forall s s',
  foldl (fun acc detection =>
           s ← acc; assign_detection sitting_areas_ service_areas_ detection s)
        (Some s) kept = Some s' ->
  Forall counts_nonnegative (tally_tables s) ->
  Forall counts_nonnegative (tally_tables s').
Proof.
  induction kept as [|d kept IH]; intros s s' H Hn; cbn [foldl] in H.
  - now injection H as <-.
  - cbn [mbind option_bind] in H.
    destruct (assign_detection sitting_areas_ service_areas_ d s) as [s1|] eqn:Hd.
    + eapply IH; [exact H|]. eapply assign_detection_nonnegative; eassumption.
    + now rewrite foldl_failed in H.
Qed.

(** Assigning the detections of a frame counts every waiter inside the
    division exactly once, at a table, in the service area or in the
    walking area, and no customer more than once; no count is negative,
    at any table or in either area; the tables keep everything but their
    two counts.  When every region has at least one
    vertex the assignment returns (an empty polygon makes
    [point_in_polygon] raise). *)
Theorem every_waiter_counted_once (division_polygon_ : Polygon)
    (tables_ : list Table) (sitting_areas_ : list SittingArea)
    (service_areas_ : list ServiceArea) (detections : list Detection) :
  (forall tally,
     assign_detections_to_rois division_polygon_ tables_ sitting_areas_
       service_areas_ detections = Some tally ->
     Forall2 same_table tables_ (tally_tables tally) /\
     total waiters_present (tally_tables tally) + walking_area_waiters tally
       + service_area_waiters tally
     = Z.of_nat (length (inside_of_class "waiter" division_polygon_ detections)) /\
     0 <= total customers_present (tally_tables tally)
       <= Z.of_nat (length (inside_of_class "customer" division_polygon_
                                            detections)) /\
     Forall counts_nonnegative (tally_tables tally) /\
     0 <= walking_area_waiters tally /\ 0 <= service_area_waiters tally) /\
  (drawn division_polygon_ tables_ sitting_areas_ service_areas_ ->
   is_Some (assign_detections_to_rois division_polygon_ tables_ sitting_areas_
              service_areas_ detections)).
Proof.
  unfold assign_detections_to_rois.
  destruct (detections_in_spec division_polygon_ detections) as [Hkept Hsome].
  assert (Hsame : Forall2 same_table tables_ (update_counts 0 0 <$> tables_)).
  { clear. induction tables_ as [|t rest IH]; constructor; [|exact IH].
    repeat split. }
  split.
  - intros tally H.
    destruct (detections_in division_polygon_ detections) as [kept|];
      cbn in H; [|discriminate].
    specialize (Hkept kept eq_refl). subst kept.
    match type of H with
    | foldl _ _ ?kept = _ =>
        destruct (assign_fold_counts sitting_areas_ service_areas_ tables_ kept
                    (mkTally (update_counts 0 0 <$> tables_) 0 0) Hsame)
          as [Hc _]
    end.
    destruct (Hc tally H) as (Hs & Hw & Hcu & Hwalk & Hserv).
    assert (Hnn : Forall counts_nonnegative (tally_tables tally)).
    { eapply assign_fold_nonnegative; [exact H|].
      cbn [tally_tables]. apply Forall_fmap, Forall_forall.
      intros t _. unfold counts_nonnegative. cbn. lia. }
    cbn [tally_tables walking_area_waiters service_area_waiters] in *.
    rewrite !filter_filter_class in *.
    rewrite !total_reset in * by reflexivity.
    split; [assumption|]. split; [lia|]. split; [lia|].
    split; [exact Hnn|]. lia.
  - intros (Hdiv & Ht & Hsa & Hsv).
    destruct (Hsome Hdiv) as [kept ->]. cbn [mbind option_bind].
    apply (assign_fold_counts sitting_areas_ service_areas_ tables_ kept
             (mkTally (update_counts 0 0 <$> tables_) 0 0) Hsame); assumption.
Qed.

Lemma every_waiter_counted_once_witness :
  exists tally,
    assign_detections_to_rois (division_polygon sample_scene)
      (tables sample_scene) [] [] sample_detections = Some tally /\
    total waiters_present (tally_tables tally) + walking_area_waiters tally
      + service_area_waiters tally = 1 /\
    Forall counts_nonnegative (tally_tables tally).
Proof.
  destruct (every_waiter_counted_once (division_polygon sample_scene)
              (tables sample_scene) [] [] sample_detections) as [Hc Hr].
  destruct Hr as [tally Ht].
  - unfold drawn. cbn. repeat split; repeat constructor; discriminate.
  - exists tally. split; [exact Ht|].
    destruct (Hc tally Ht) as (_ & Hw & _ & Hnn & _).
    split; [rewrite Hw; reflexivity | exact Hnn].
Defined.

End AssignFacts.

Module WarmUpFacts.
Import Detection DetectionFacts AssignFacts.

Lemma debounce_quiet {S : Type} `{EqDecision S} (initial_time now : Q)
    (new_state : S) (d : Debounced S) :
  idle_since initial_time d ->
  (initial_time <= now)%Q -> (now < initial_time + 1)%Q ->
  exists d', debounce new_state now d = Some (d', false) /\
             idle_since initial_time d' /\
             d_state d' = d_state d /\ d_log d' = d_log d.
Proof.
  intros [Hps Hstart] Hle Hlt. unfold debounce.
  case_bool_decide as Hnew.
  - case_bool_decide as Hp.
    + eexists. split; [reflexivity|]. split; [|auto].
      split; cbn [d_pending d_start]; [split; discriminate|].
      intros t0 [= <-]. exact Hle.
    + destruct (d_start d) as [start|] eqn:E.
      * specialize (Hstart start eq_refl).
        assert (Qle_bool STATE_DEBOUNCE_SECONDS (now - start) = false) as ->.
        { destruct (Qle_bool _ _) eqn:Hq; [|reflexivity].
          apply Qle_bool_iff in Hq. unfold STATE_DEBOUNCE_SECONDS in Hq. lra. }
        exists d. split; [reflexivity|]. split; [|auto].
        split; rewrite E; [exact Hps|]. now intros t0 [= <-].
      * exfalso. assert (d_pending d = None) by now apply Hps. congruence.
  - eexists. split; [reflexivity|]. split; [|auto].
    split; cbn [d_pending d_start]; [tauto | discriminate].
Qed.

Lemma update_state_keeps (now : Q) (t t' : Table) (b : bool) :
  update_state now t = Some (t', b) ->
  id t' = id t /\ polygon t' = polygon t.
Proof.
  unfold update_state. intros H.
  repeat case_bool_decide;
    try (injection H as <- <-; split; reflexivity).
  destruct (pending_state_start t); [|discriminate].
  destruct (Qle_bool _ _); injection H as <- <-; split; reflexivity.
Qed.

Lemma update_state_quiet (initial_time now : Q) (t : Table) :
  idle_since initial_time (table_debounced t) ->
  (initial_time <= now)%Q -> (now < initial_time + 1)%Q ->
  exists t', update_state now t = Some (t', false) /\
             idle_since initial_time (table_debounced t') /\
             state t' = state t /\ state_transitions t' = state_transitions t /\
             polygon t' = polygon t.
Proof.
  intros Hidle Hle Hlt.
  destruct (debounce_quiet initial_time now (determine_state t) _ Hidle Hle Hlt)
    as (d' & Hd & Hidle' & Hst & Hlog).
  pose proof (update_state_core now t) as Hc. rewrite Hd in Hc.
  destruct (update_state now t) as [[t' b]|] eqn:Hu; [|discriminate].
  cbn in Hc. injection Hc as <- ->.
  exists t'. split; [reflexivity|]. split; [assumption|].
  split; [exact Hst|]. split; [exact Hlog|].
  exact (proj2 (update_state_keeps _ _ _ _ Hu)).
Qed.

Lemma division_update_state_quiet (initial_time now : Q) (walking service : Z)
    (t : DivisionStateTracker) :
  idle_since initial_time (tracker_debounced t) ->
  (initial_time <= now)%Q -> (now < initial_time + 1)%Q ->
  exists t', division_update_state walking service now t = Some (t', false) /\
             idle_since initial_time (tracker_debounced t') /\
             current_state t' = current_state t /\
             div_state_transitions t' = div_state_transitions t.
Proof.
  intros Hidle Hle Hlt.
  destruct (debounce_quiet initial_time now
              (division_determine_state walking service) _ Hidle Hle Hlt)
    as (d' & Hd & Hidle' & Hst & Hlog).
  pose proof (division_update_state_core walking service now t) as Hc.
  rewrite Hd in Hc.
  destruct (division_update_state walking service now t) as [[t' b]|];
    [|discriminate].
  cbn in Hc. injection Hc as <- ->.
  exists t'. auto.
Qed.

Lemma process_detections_quiet (initial_time now : Q)
    (detections : list Detection) (scene0 scene : Scene) :
  drawn (division_polygon scene0) (tables scene0) (sitting_areas scene0)
        (service_areas scene0) ->
  kept_quiet initial_time scene0 scene ->
  (initial_time <= now)%Q -> (now < initial_time + 1)%Q ->
  exists scene',
    process_detections detections now scene = Some (scene', [], false) /\
    kept_quiet initial_time scene0 scene'.
Proof.
  intros (Hdiv & Ht & Hsa & Hsv) (Kd & Ksa & Ksv & Kt & Kc & Kl & Ki) Hle Hlt.
  unfold process_detections.
  assert (Hpoly : Forall (fun t => polygon t <> []) (tables scene)).
  { clear -Ht Kt. induction Kt as [|t0 t ts0 ts (Hp & _) _ IH]; [constructor|].
    inversion Ht; subst. constructor; [congruence | now apply IH]. }
  destruct (assign_returns (division_polygon scene) (tables scene)
              (sitting_areas scene) (service_areas scene) detections)
    as (tally & Htally & Hsame).
  { rewrite Kd, Ksa, Ksv. repeat split; assumption. }
  rewrite Htally. cbn [mbind option_bind].
  assert (Hupd : exists updated,
            mapM (update_state now) (tally_tables tally) = Some updated /\
            Forall (fun r => r.2 = false) updated /\
            Forall2 (fun t0 t =>
                       polygon t = polygon t0 /\ state t = state t0 /\
                       state_transitions t = state_transitions t0 /\
                       idle_since initial_time (table_debounced t))
                    (tables scene0) (fst <$> updated)).
  { clear -Hsame Kt Hle Hlt. revert Hsame Kt.
    generalize (tables scene0) (tables scene) (tally_tables tally).
    intros ts0 ts tts Hsame. revert ts0.
    induction Hsame as [|t tt ts tts Htt _ IH]; intros ts0 Kt.
    - inversion Kt; subst. exists []. repeat split; constructor.
    - inversion Kt as [|t0 ? ts0' ? (Hp & Hs & Hl & Hi) Kt']; subst.
      destruct Htt as (_ & Tp & Ts & Tps & Tpss & _ & Tl).
      destruct (update_state_quiet initial_time now tt) as (t' & Hu & Hi' & Hs' & Hl' & Hp');
        [|assumption|assumption|].
      { unfold table_debounced. rewrite Ts, Tps, Tpss, Tl. exact Hi. }
      destruct (IH _ Kt') as (updated & Hm & Hf & HF2).
      exists ((t', false) :: updated). cbn [mapM]. rewrite Hu. cbn.
      rewrite Hm. cbn. split; [reflexivity|]. split; [constructor; auto|].
      constructor; [|exact HF2].
      split; [congruence|]. split; [congruence|]. split; [congruence|]. exact Hi'. }
  destruct Hupd as (updated & -> & Hfalse & HF2). cbn [mbind option_bind].
  destruct (division_update_state_quiet initial_time now
              (walking_area_waiters tally) (service_area_waiters tally)
              (division_tracker scene) Ki Hle Hlt)
    as (tr' & -> & Hi' & Hc' & Hl').
  cbn [mbind option_bind].
  assert (List.filter snd updated = []) as ->.
  { clear -Hfalse. induction Hfalse as [|[t b] l Hb _ IH]; [reflexivity|].
    cbn in *. subst b. exact IH. }
  eexists. split; [reflexivity|].
  unfold kept_quiet. cbn [division_polygon tables sitting_areas service_areas
                          division_tracker].
  split; [assumption|]. split; [assumption|]. split; [assumption|].
  split; [assumption|]. split; [congruence|]. split; [congruence|]. exact Hi'.
Qed.

Lemma py_int_below (x : Q) : (0 < x)%Q -> (inject_Z (py_int x) <= x)%Q.
Proof.
  destruct x as [num den]. unfold py_int, Qlt, Qle, inject_Z. cbn.
  intros Hpos. rewrite Z.mul_1_r in *.
  rewrite Z.quot_div_nonneg by lia.
  pose proof (Z.mul_div_le num (Z.pos den) ltac:(lia)). lia.
Qed.

Lemma round_half_even_close (x : Q) :
  (inject_Z (round_half_even x) - (1 # 2) <= x
   <= inject_Z (round_half_even x) + (1 # 2))%Q.
Proof.
  unfold round_half_even. cbv zeta.
  pose proof (Qfloor_le x) as Hlo. pose proof (Qlt_floor x) as Hhi.
  rewrite inject_Z_plus in Hhi. change (inject_Z 1) with 1%Q in Hhi.
  destruct (Qcompare_spec (x - inject_Z (Qfloor x)) (1 # 2)) as [He|Hl|Hg].
  - destruct (Z.even (Qfloor x)); rewrite ?inject_Z_plus;
      change (inject_Z 1) with 1%Q; split; lra.
  - split; lra.
  - rewrite inject_Z_plus. change (inject_Z 1) with 1%Q. split; lra.
Qed.

Lemma binary_exponent_below (x : Q) :
  (0 < x)%Q -> (2 ^ binary_exponent x <= x)%Q.
Proof.
  intros Hx. unfold binary_exponent. cbv zeta.
  destruct (Qle_bool _ x) eqn:E; [now apply Qle_bool_iff in E|]. clear E.
  destruct x as [n d]. cbn [Qnum Qden].
  assert (Hn : 0 < n) by (unfold Qlt in Hx; cbn in Hx; lia).
  pose proof (Z.log2_spec n Hn) as [Hn1 _].
  pose proof (Z.log2_spec (Z.pos d) ltac:(lia)) as [_ Hd2].
  pose proof (Z.log2_nonneg n) as Ha.
  pose proof (Z.log2_nonneg (Z.pos d)) as Hb.
  set (a := Z.log2 n) in *. set (b := Z.log2 (Z.pos d)) in *.
  replace (a - b - 1) with (a - (b + 1)) by lia.
  rewrite Qpower_minus by discriminate.
  rewrite <- !(Zpower_Qpower 2) by lia.
  assert (H2b : (0 < inject_Z (2 ^ (b + 1)))%Q).
  { rewrite <- (Zlt_Qlt 0). apply Z.pow_pos_nonneg; lia. }
  apply Qle_shift_div_r; [exact H2b|].
  assert (Hpa : (inject_Z (2 ^ a) <= inject_Z n)%Q) by (now rewrite <- Zle_Qle).
  assert (Hpd : (inject_Z (Z.pos d) <= inject_Z (2 ^ (b + 1)))%Q)
    by (rewrite <- Zle_Qle; lia).
  assert (Hnd : ((n # d) * inject_Z (Z.pos d) == inject_Z n)%Q).
  { unfold Qeq, inject_Z. cbn. lia. }
  assert (Hxpos : (0 <= n # d)%Q) by lra.
  assert ((n # d) * inject_Z (Z.pos d) <= (n # d) * inject_Z (2 ^ (b + 1)))%Q.
  { rewrite !(Qmult_comm (n # d)). apply Qmult_le_compat_r; assumption. }
  lra.
Qed.

(** Rounding a positive number moves it by at most [2^-53] of itself. *)
Lemma nearest_double_close (x : Q) :
  (0 < x)%Q ->
  (x * (1 - 2 ^ (-53)) <= nearest_double x <= x * (1 + 2 ^ (-53)))%Q.
Proof.
  intros Hx. unfold nearest_double. cbv zeta.
  pose proof (binary_exponent_below x Hx) as He.
  set (e := binary_exponent x) in *.
  assert (Hp : (0 < 2 ^ (e - 52))%Q) by (apply Qpower_0_lt; reflexivity).
  pose proof (round_half_even_close (x / 2 ^ (e - 52))) as [Hlo Hhi].
  set (m := inject_Z (round_half_even (x / 2 ^ (e - 52)))) in *.
  assert (Hy : (x / 2 ^ (e - 52) * 2 ^ (e - 52) == x)%Q).
  { field. lra. }
  assert (Hhalf : ((1 # 2) * 2 ^ (e - 52) == 2 ^ e * 2 ^ (-53))%Q).
  { replace (e - 52) with (e + -53 + 1) by lia.
    rewrite !Qpower_plus by discriminate. change (2 ^ 1)%Q with 2%Q. ring. }
  assert (Hu : (0 < 2 ^ (-53))%Q) by reflexivity.
  assert (H1 : ((m - (1 # 2)) * 2 ^ (e - 52)
                <= x / 2 ^ (e - 52) * 2 ^ (e - 52))%Q)
    by (apply Qmult_le_compat_r; lra).
  assert (H2 : (x / 2 ^ (e - 52) * 2 ^ (e - 52)
                <= (m + (1 # 2)) * 2 ^ (e - 52))%Q)
    by (apply Qmult_le_compat_r; lra).
  assert (H3 : (2 ^ e * 2 ^ (-53) <= x * 2 ^ (-53))%Q)
    by (apply Qmult_le_compat_r; lra).
  set (p := (2 ^ (e - 52))%Q) in *. set (q := (2 ^ e * 2 ^ (-53))%Q) in *.
  set (u := (2 ^ (-53))%Q) in *.
  assert (E1 : ((m - (1 # 2)) * p == m * p - (1 # 2) * p)%Q) by ring.
  assert (E2 : ((m + (1 # 2)) * p == m * p + (1 # 2) * p)%Q) by ring.
  assert (E3 : (x * (1 - u) == x - x * u)%Q) by ring.
  assert (E4 : (x * (1 + u) == x + x * u)%Q) by ring.
  rewrite E3, E4. rewrite E1 in H1. rewrite E2 in H2. rewrite Hy in H1, H2.
  rewrite Hhalf in H1, H2. split; lra.
Qed.

(** The same for [to_double], with [2^-53] written out. *)
Lemma to_double_error (x : Q) :
  (0 <= x)%Q ->
  (x * (1 - (1 # 9007199254740992)) <= to_double x
   <= x * (1 + (1 # 9007199254740992)))%Q.
Proof.
  intros Hx. unfold to_double. destruct x as [[|n|n] d]; cbn [Qnum].
  - split; unfold Qle; cbn; lia.
  - apply (nearest_double_close (Z.pos n # d)). reflexivity.
  - exfalso. unfold Qle in Hx. cbn in Hx. lia.
Qed.

(** The simulated clock of the preprocessing, as rounded, stays within
    one second. *)
Lemma simulated_time_bounds (target_fps initial_time : Q) (i : nat) :
  (0 < target_fps)%Q -> (target_fps <= 1000000)%Q ->
  (0 <= initial_time)%Q -> (initial_time <= 2147483648)%Q ->
  (i < Z.to_nat (py_int (to_double (target_fps * STATE_DEBOUNCE_SECONDS))))%nat ->
  let simulated_time :=
    to_double (initial_time
               + to_double (inject_Z (Z.of_nat i)
                            * to_double (1 / target_fps)))%Q in
  let floor_time := (initial_time * (1 - (1 # 9007199254740992)))%Q in
  (floor_time <= simulated_time)%Q /\ (simulated_time < floor_time + 1)%Q.
Proof.
  intros Hfps Hmax Hinit Hyear Hi. cbv zeta.
  set (u := (1 # 9007199254740992)%Q) in *.
  set (s := (1 / target_fps)%Q).
  assert (Hs : (target_fps * s == 1)%Q) by (unfold s; field; lra).
  assert (Hs0 : (0 < s)%Q) by (unfold s; apply Qlt_shift_div_l; lra).
  assert (Hsmin : ((1 # 1000000) <= s)%Q).
  { unfold s. apply Qle_shift_div_l; [assumption | lra]. }
  (* the number of iterations *)
  assert (Hfps1 : (0 <= target_fps * STATE_DEBOUNCE_SECONDS)%Q)
    by (unfold STATE_DEBOUNCE_SECONDS; lra).
  pose proof (to_double_error _ Hfps1) as [Hf1 Hf2]. fold u in Hf1, Hf2.
  unfold STATE_DEBOUNCE_SECONDS in *.
  set (F := to_double (target_fps * 1)) in *.
  assert (HF : (0 < F)%Q).
  { assert (0 < target_fps * 1 * (1 - u))%Q; [|lra].
    apply Qmult_lt_0_compat; [lra | reflexivity]. }
  pose proof (py_int_below _ HF) as Hn.
  assert (Hin : (inject_Z (Z.of_nat i) + 1 <= inject_Z (py_int F))%Q).
  { change 1%Q with (inject_Z 1). rewrite <- inject_Z_plus, <- Zle_Qle. lia. }
  set (n := inject_Z (Z.of_nat i)) in *.
  assert (Hn0 : (0 <= n)%Q) by (unfold n; rewrite <- (Zle_Qle 0); lia).
  assert (Ha : (n * s + s <= 1 + u)%Q).
  { assert (H : ((n + 1) * s <= (target_fps * 1 * (1 + u)) * s)%Q)
      by (apply Qmult_le_compat_r; lra).
    assert (E1 : ((n + 1) * s == n * s + s)%Q) by ring.
    assert (E2 : (target_fps * 1 * (1 + u) * s == (target_fps * s) * (1 + u))%Q)
      by ring.
    rewrite E1, E2, Hs in H. lra. }
  assert (Ha0 : (0 <= n * s)%Q) by (apply Qmult_le_0_compat; lra).
  (* the step *)
  pose proof (to_double_error s ltac:(lra)) as [Hst1 Hst2]. fold u in Hst1, Hst2.
  set (step := to_double s) in *.
  assert (Hstep0 : (0 <= step)%Q).
  { assert (0 <= s * (1 - u))%Q; [|lra].
    apply Qmult_le_0_compat; [lra | discriminate]. }
  assert (Hb : (n * step <= n * s * (1 + u))%Q).
  { assert (H : (step * n <= s * (1 + u) * n)%Q)
      by (apply Qmult_le_compat_r; lra).
    assert (E1 : (step * n == n * step)%Q) by ring.
    assert (E2 : (s * (1 + u) * n == n * s * (1 + u))%Q) by ring.
    rewrite E1, E2 in H. exact H. }
  assert (Hb0 : (0 <= n * step)%Q) by (apply Qmult_le_0_compat; lra).
  (* the offset *)
  pose proof (to_double_error _ Hb0) as [Hp1 Hp2]. fold u in Hp1, Hp2.
  set (p := to_double (n * step)) in *.
  assert (Hp0 : (0 <= p)%Q).
  { assert (0 <= n * step * (1 - u))%Q; [|lra].
    apply Qmult_le_0_compat; [lra | discriminate]. }
  (* the reading *)
  pose proof (to_double_error (initial_time + p) ltac:(lra)) as [Hr1 Hr2].
  fold u in Hr1, Hr2.
  set (b := (n * step)%Q) in *. set (a := (n * s)%Q) in *.
  subst u. split; lra.
Qed.

Lemma warm_up_frames (initial_time : Q) (time_of : nat -> Q)
    (detections_of : nat -> list Detection) (scene0 : Scene)
    (frames : list nat) :
  drawn (division_polygon scene0) (tables scene0) (sitting_areas scene0)
        (service_areas scene0) ->
  Forall (fun i => (initial_time <= time_of i)%Q /\
                   (time_of i < initial_time + 1)%Q) frames ->
  forall scene, kept_quiet initial_time scene0 scene ->
  exists scene',
    foldl (fun acc i =>
             scene ← acc;
             (fun r => r.1.1) <$>
               process_detections (detections_of i) (time_of i) scene)
          (Some scene) frames = Some scene' /\
    kept_quiet initial_time scene0 scene'.
Proof.
  intros Hdrawn. induction 1 as [|i frames [Hle Hlt] _ IH]; intros scene Hk.
  - exists scene. split; [reflexivity | assumption].
  - cbn [foldl mbind option_bind].
    destruct (process_detections_quiet initial_time (time_of i) (detections_of i)
                scene0 scene Hdrawn Hk Hle Hlt) as (scene1 & -> & Hk1).
    cbn [fmap option_fmap option_map fst]. apply IH, Hk1.
Qed.

(** The first-frame preprocessing never establishes a state.  With a
    positive target rate of at most a million frames per second, a clock
    reading between 2 and 2^31 seconds, and regions that have vertices,
    the preprocessing returns, and whatever the detectors report on the
    first frame, every table and the division come out of it in the
    state they went in with (for newly created trackers [IDLE] and
    ['red']) and with no transition logged: the simulated clock, as
    double precision computes it, advances by less than
    [STATE_DEBOUNCE_SECONDS] over the
    [int(target_fps * STATE_DEBOUNCE_SECONDS)] iterations, so no pending
    state can be confirmed.  (From 2 seconds on, any two readings of the
    loop are within a factor 2 of each other, which makes the
    subtraction in the state machines exact.) *)
Theorem warm_up_commits_nothing (target_fps initial_time : Q)
    (first_frame_detections : nat -> list Detection) (scene : Scene) :
  (0 < target_fps)%Q -> (target_fps <= 1000000)%Q ->
  (2 <= initial_time)%Q -> (initial_time <= 2147483648)%Q ->
  drawn (division_polygon scene) (tables scene) (sitting_areas scene)
        (service_areas scene) ->
  nothing_pending scene ->
  exists scene',
    warm_up target_fps initial_time first_frame_detections scene = Some scene' /\
    same_states scene scene'.
Proof.
  intros Hfps Hmax Hepoch Hyear Hdrawn (Htables & Hdp & Hds).
  assert (Hinit : (0 <= initial_time)%Q) by lra.
  unfold warm_up. cbv zeta.
  assert (Qeq_bool target_fps 0 = false) as ->.
  { destruct (Qeq_bool target_fps 0) eqn:E; [|reflexivity].
    apply Qeq_bool_iff in E. lra. }
  set (floor_time := (initial_time * (1 - (1 # 9007199254740992)))%Q).
  assert (Hk : kept_quiet floor_time scene scene).
  { unfold kept_quiet. repeat (split; [reflexivity|]). split; [|split; [|split]];
      try reflexivity.
    - clear -Htables. induction Htables as [|t ts [Hp Hs] _ IH]; constructor;
        [|exact IH].
      repeat (split; [reflexivity|]). unfold idle_since, table_debounced. cbn.
      rewrite Hp, Hs. split; [tauto | discriminate].
    - unfold idle_since, tracker_debounced. cbn. rewrite Hdp, Hds.
      split; [tauto | discriminate]. }
  destruct (warm_up_frames floor_time
              (fun i => to_double
                          (initial_time
                           + to_double (inject_Z (Z.of_nat i)
                                        * to_double (1 / target_fps))))%Q
              first_frame_detections scene
              (seq 0 (Z.to_nat (py_int (to_double
                                          (target_fps * STATE_DEBOUNCE_SECONDS)))))
              Hdrawn) with (scene := scene) as (scene' & Hrun & Hk');
    [|exact Hk|].
  { apply Forall_forall. intros i Hi. apply elem_of_seq in Hi.
    apply simulated_time_bounds; [assumption.. | lia]. }
  exists scene'. split; [exact Hrun|].
  destruct Hk' as (_ & _ & _ & Kt & Kc & Kl & _).
  unfold same_states. split; [|split; [|split]]; try assumption.
  - clear -Kt. induction Kt as [|t0 t ts0 ts (_ & Hs & _) _ IH]; [reflexivity|].
    cbn. now rewrite Hs, IH.
  - clear -Kt. induction Kt as [|t0 t ts0 ts (_ & _ & Hl & _) _ IH]; [reflexivity|].
    cbn. now rewrite Hl, IH.
Qed.

Lemma warm_up_commits_nothing_witness :
  exists scene',
    warm_up 5 1700000000 (fun _ => [mkDetection (3 # 2, 3 # 2) "customer"])
      sample_scene
      = Some scene' /\
    same_states sample_scene scene'.
Proof.
  apply warm_up_commits_nothing.
  - reflexivity.
  - discriminate.
  - discriminate.
  - discriminate.
  - unfold drawn. cbn. repeat split; repeat constructor; discriminate.
  - unfold nothing_pending. cbn. repeat split; repeat constructor.
Defined.

(** The bound on the rate is needed: at ten million frames per second,
    with the clock at 1.7e9, the last simulated reading is, as rounded,
    a full second after the first, and a state that has been pending
    since the first iteration is confirmed. *)
Example fast_rate_clock_reaches_debounce :
  let reading (i : Z) :=
    to_double (1700000000
               + to_double (inject_Z i * to_double (1 / 10000000)))%Q in
  py_int (to_double (10000000 * STATE_DEBOUNCE_SECONDS)) = 10000000 /\
  (reading 9999999%Z - reading 0%Z == STATE_DEBOUNCE_SECONDS)%Q /\
  (fst <$> update_state (reading 9999999)
             (mkTable "T1" (square 1 1 1) IDLE 1 0 (Some BUSY)
                      (Some (reading 0)) [] []))
    = Some (mkTable "T1" (square 1 1 1) BUSY 1 0 None None []
              [mkTransition (reading 9999999) IDLE BUSY]).
Proof. cbv zeta. split; [|split]; [vm_compute; reflexivity..]. Qed.

End WarmUpFacts.

Module ServiceControlFacts.
Import Service ServiceFacts.

(** Stopping the recorder escalates in order and in bounded time.
    Whatever the subprocess does, [_stop_capture_process] sends SIGKILL
    only after it has tried SIGTERM and the process was still running on
    the second poll; it sends each signal at most once (the signals sent
    are none, SIGTERM alone, or SIGTERM then SIGKILL); it waits at most
    [timeout + 5] seconds in all; it reports failure only after a
    SIGKILL; and on a recorder that is absent or has already exited it
    sends nothing and reports success. *)
Theorem sigkill_only_after_sigterm (timeout : Z) (p : Stopping) :
  let '(ok, calls) := _stop_capture_process timeout p in
  (signals calls = [] \/ signals calls = [CallTerminate] \/
   signals calls = [CallTerminate; CallKill]) /\
  (CallKill ∈ calls ->
     exists before after,
       calls = before ++ CallKill :: after /\
       CallTerminate ∈ before /\ (CallKill ∉ before) /\ (CallKill ∉ after) /\
       running_after_terminate p = true /\
       (terminate_raises p = true \/ wait_after_terminate p <> Exited)) /\
  (ok = false -> CallKill ∈ calls) /\
  (0 <= timeout -> 0 <= waited calls <= timeout + 5) /\
  (process_set p = false \/ running_at_entry p = false ->
     ok = true /\ (CallTerminate ∉ calls) /\ (CallKill ∉ calls)) /\
  (CallTerminate ∈ calls ->
     process_set p = true /\ running_at_entry p = true).
Proof.
  unfold _stop_capture_process, force_kill.
  destruct p as [set run traises wterm run2 kraises wkill].
  cbn [process_set running_at_entry terminate_raises wait_after_terminate
       running_after_terminate kill_raises wait_after_kill].
  assert (Hin : forall (c : ProcessCall) (l : list ProcessCall),
            c ∈ l <-> bool_decide (c ∈ l) = true)
    by (intros; now rewrite bool_decide_eq_true).
  assert (Hout : forall (c : ProcessCall) (l : list ProcessCall),
            c ∉ l <-> bool_decide (c ∈ l) = false)
    by (intros; now rewrite bool_decide_eq_false).
  destruct set, run, traises, wterm, run2, kraises, wkill; cbn;
    (split; [first [ left; reflexivity | right; left; reflexivity
                   | right; right; reflexivity ]|]);
    (split; [intros Hk; apply Hin in Hk; try discriminate Hk;
             first
               [ exists [CallPoll; CallTerminate], [];
                 split; [reflexivity|]
               | exists [CallPoll; CallTerminate], [CallWait 5];
                 split; [reflexivity|]
               | exists [CallPoll; CallTerminate; CallWait timeout; CallPoll], [];
                 split; [reflexivity|]
               | exists [CallPoll; CallTerminate; CallWait timeout; CallPoll],
                        [CallWait 5];
                 split; [reflexivity|]
               | exists [CallPoll; CallTerminate; CallPoll], [];
                 split; [reflexivity|]
               | exists [CallPoll; CallTerminate; CallPoll], [CallWait 5];
                 split; [reflexivity|] ];
             repeat split; try (apply Hin; reflexivity);
             try (apply Hout; reflexivity);
             first [left; reflexivity | right; discriminate]
           |]);
    (split; [intros Hf; try discriminate Hf; apply Hin; reflexivity|]);
    (split; [intros; lia|]);
    (split; [intros [Hc|Hc]; try discriminate Hc;
             repeat split; apply Hout; reflexivity|]);
    intros Ht; apply Hin in Ht; try discriminate Ht; split; reflexivity.
Qed.

Lemma py_int_whole_minus_fraction (k us : Z) :
  1 <= k -> 0 <= us < 1000000 ->
  py_int (inject_Z k - inject_Z us / 1000000)%Q
  = if us =? 0 then k else k - 1.
Proof.
  intros Hk Hus. unfold py_int.
  cbn [Qnum Qden Qminus Qplus Qopp Qdiv Qmult Qinv inject_Z].
  match goal with
  | |- Z.quot ?a (Z.pos ?b) = _ =>
      replace a with (k * 1000000 - us) by (cbn; lia);
      change (Z.pos b) with 1000000
  end.
  rewrite Z.quot_div_nonneg by lia.
  destruct (Z.eqb_spec us 0) as [->|Hne].
  - rewrite Z.sub_0_r. apply Z.div_mul. lia.
  - symmetry. apply Z.div_unique with (r := 1000000 - us); lia.
Qed.

(** The recorder is started for the time left in the window.  When the
    first clock reading is inside a window whose end is a valid time of
    day, no recorder is running, and the second reading is still before
    the end of that window, [start_video_capture] spawns the recorder
    for that window with a duration that is never negative: the whole
    seconds left until the end of the window, less one when the second
    reading has a fractional part (so 0 in the last second).  A window
    that ends at 24:00 can never be started: building the end time
    raises. *)
Theorem capture_runs_to_the_window_end (CAPTURE_WINDOWS : list CaptureWindow)
    (reading : Clock) (now : Instant) (window : CaptureWindow) :
  is_in_capture_window CAPTURE_WINDOWS reading = (true, Some window) ->
  valid_instant now ->
  (0 <= end_hour window < 24 /\ 0 <= end_minute window < 60 ->
   minutes_of (clock now) < end_total window ->
   let left := end_total window * 60 - seconds_of (clock now) in
   let duration := if microsecond now =? 0 then left else left - 1 in
   start_video_capture CAPTURE_WINDOWS reading false now true
     = Spawned duration window /\
   0 <= duration <= left) /\
  (end_hour window = 24 ->
   start_video_capture CAPTURE_WINDOWS reading false now true
     = StartCaptureRaised) /\
  (forall popen_ok,
     start_video_capture CAPTURE_WINDOWS reading true now popen_ok
       = CaptureAlreadyRunning).
Proof.
  intros Hwin ((Hh & Hm & Hs) & Hus). unfold start_video_capture. rewrite Hwin.
  cbn [negb]. split; [|split; [|reflexivity]].
  - intros (Heh & Hem) Hbefore. cbv zeta.
    unfold minutes_of, end_total, seconds_of in *.
    assert (((0 <=? end_hour window) && (end_hour window <? 24)
             && (0 <=? end_minute window) && (end_minute window <? 60)) = true)
      as ->.
    { rewrite !andb_true_iff, !Z.leb_le, !Z.ltb_lt. lia. }
    cbn [negb].
    assert ((end_hour window * 3600 + end_minute window * 60
             <? hour (clock now) * 3600 + minute (clock now) * 60
                + second (clock now)) = false) as ->
      by (apply Z.ltb_ge; lia).
    assert ((end_hour window * 3600 + end_minute window * 60
             =? hour (clock now) * 3600 + minute (clock now) * 60
                + second (clock now)) = false) as ->
      by (apply Z.eqb_neq; lia).
    cbn [orb andb].
    rewrite py_int_whole_minus_fraction by lia.
    replace ((end_hour window * 60 + end_minute window) * 60
             - (hour (clock now) * 3600 + minute (clock now) * 60
                + second (clock now)))
      with (end_hour window * 3600 + end_minute window * 60
            - (hour (clock now) * 3600 + minute (clock now) * 60
               + second (clock now))) by lia.
    split; [reflexivity|].
    destruct (microsecond now =? 0); lia.
  - intros ->. reflexivity.
Qed.

Lemma capture_runs_to_the_window_end_witness :
  start_video_capture default_capture_windows (mkClock 11 30 0) false
    (mkInstant (mkClock 11 30 0) 250000) true
  = Spawned 8999 (mkCaptureWindow 11 30 14 0).
Proof.
  refine (proj1 (proj1 (capture_runs_to_the_window_end default_capture_windows
                          (mkClock 11 30 0) (mkInstant (mkClock 11 30 0) 250000)
                          (mkCaptureWindow 11 30 14 0) eq_refl _) _ _)).
  - unfold valid_instant, valid_clock. cbn. lia.
  - cbn. lia.
  - unfold minutes_of, end_total. cbn. lia.
Defined.

End ServiceControlFacts.
